(** * Traffic survey aggregator and hourly junction chart (main.py)

    A shallow embedding of [process_csv_data], of the tally and scaling
    logic of [HistogramApp], of the date dialogue [validate_date_input]
    and of the session loop of [MultiCSVProcessor], followed by the
    properties that were checked against them.

    Conventions of the embedding.
    - A Python [str] is a [string]; a character is a code point below 256.
    - A Python [int] is a [Z]; a Python [float] is a binary64 value of
      [SpecFloat.spec_float] (precision 53, exponent bound 1024).
    - A row of [csv.DictReader] is a finite map from column names to cells;
      a cell is text, or [None] where the line had fewer fields than the
      header.
    - Exceptions are values of [exn]; code that can raise returns a
      [result]; code that also mutates the running totals lives in the
      monad [M], whose state survives a raise, as a mutated dictionary
      does in Python. *)

From Stdlib Require Import ZArith String Ascii List Bool Lia.
From Stdlib Require Import SpecFloat DecimalString DecimalZ.
From stdpp Require Import base option list gmap strings.

Local Open Scope string_scope.
Local Open Scope Z_scope.

(** ** Exceptions and results *)

Inductive exn : Type :=
| ValueError
| KeyError
| TypeError
| AttributeError
| ZeroDivisionError
| OverflowError
| FileNotFoundError
| RuntimeError (cause : exn)
| OtherException (name : string).

Inductive result (A : Type) : Type :=
| Ok (a : A)
| Raise (e : exn).
Arguments Ok {A} a.
Arguments Raise {A} e.

#[global] Instance result_ret : MRet result := fun A a => Ok a.

#[global] Instance result_bind : MBind result := fun A B k r =>
  match r with
  | Ok a => k a
  | Raise e => Raise e
  end.

(** Code that mutates objects of type [S] and may raise. The state is
    returned in both cases: a raise does not undo earlier mutations. *)
Definition ST (S A : Type) : Type := S -> S * result A.

#[global] Instance ST_ret {S} : MRet (ST S) := fun A a st => (st, Ok a).

#[global] Instance ST_bind {S} : MBind (ST S) := fun A B k c st =>
  match c st with
  | (st', Ok a) => k a st'
  | (st', Raise e) => (st', Raise e)
  end.

Definition lift {S A} (r : result A) : ST S A := fun st => (st, r).

Definition modify {S} (f : S -> S) : ST S unit := fun st => (f st, Ok tt).

Definition get_state {S} : ST S S := fun st => (st, Ok st).

(** [if b: c] *)
Definition when {S} (b : bool) (c : ST S unit) : ST S unit :=
  if b then c else mret tt.

(** ** Python text primitives *)

Module PyStr.

(** [str.isspace] on code points below 256: TAB..CR, FS..US, space, NEL
    and NBSP. *)
Definition is_space (c : ascii) : bool :=
  let n := Z.of_nat (nat_of_ascii c) in
  ((9 <=? n) && (n <=? 13)) || ((28 <=? n) && (n <=? 32))
  || (n =? 133) || (n =? 160).

Fixpoint lstrip (s : string) : string :=
  match s with
  | String c s' => if is_space c then lstrip s' else s
  | EmptyString => EmptyString
  end.

(** Right strip: a character is dropped when it is a space and everything
    after it has been dropped. *)
Fixpoint rstrip (s : string) : string :=
  match s with
  | String c s' =>
      match rstrip s' with
      | EmptyString => if is_space c then EmptyString else String c EmptyString
      | r => String c r
      end
  | EmptyString => EmptyString
  end.

(** [s.strip()] *)
Definition strip (s : string) : string := rstrip (lstrip s).

(** [str.lower] on code points below 256: A..Z and the Latin-1 capitals
    (except the multiplication sign) move up by 32. *)
Definition lower_char (c : ascii) : ascii :=
  let n := nat_of_ascii c in
  let z := Z.of_nat n in
  if ((65 <=? z) && (z <=? 90))
     || ((192 <=? z) && (z <=? 222) && negb (z =? 215))
  then ascii_of_nat (n + 32) else c.

Fixpoint lower (s : string) : string :=
  match s with
  | String c s' => String (lower_char c) (lower s')
  | EmptyString => EmptyString
  end.

(** [s.split(':')[0]]: the text before the first colon, the whole text
    when there is none. *)
Fixpoint split_colon_head (s : string) : string :=
  match s with
  | String c s' =>
      if Ascii.eqb c ":"%char then EmptyString
      else String c (split_colon_head s')
  | EmptyString => EmptyString
  end.

(** [needle in hay] *)
Fixpoint contains (needle hay : string) : bool :=
  String.prefix needle hay ||
  match hay with
  | String _ hay' => contains needle hay'
  | EmptyString => false
  end.

Definition is_digit (c : ascii) : bool :=
  let n := Z.of_nat (nat_of_ascii c) in (48 <=? n) && (n <=? 57).

Definition digit_val (c : ascii) : Z := Z.of_nat (nat_of_ascii c) - 48.

(** Decimal digits after the first one; a single underscore may stand
    between two digits. *)
Fixpoint int_digits (acc : Z) (s : string) : option Z :=
  match s with
  | EmptyString => Some acc
  | String c s' =>
      if is_digit c then int_digits (10 * acc + digit_val c) s'
      else if Ascii.eqb c "_"%char then
        match s' with
        | String d s'' =>
            if is_digit d then int_digits (10 * acc + digit_val d) s''
            else None
        | EmptyString => None
        end
      else None
  end.

Definition int_unsigned (s : string) : option Z :=
  match s with
  | String c s' => if is_digit c then int_digits (digit_val c) s' else None
  | EmptyString => None
  end.

(** The white space [int] skips around a number, on code points below
    256: the ASCII white space TAB..CR and space, NEL and NBSP. The
    separators FS..US, which [str.strip] removes, are not among them. *)
Definition is_int_space (c : ascii) : bool :=
  let n := Z.of_nat (nat_of_ascii c) in
  ((9 <=? n) && (n <=? 13)) || (n =? 32) || (n =? 133) || (n =? 160).

Fixpoint int_lstrip (s : string) : string :=
  match s with
  | String c s' => if is_int_space c then int_lstrip s' else s
  | EmptyString => EmptyString
  end.

Fixpoint int_rstrip (s : string) : string :=
  match s with
  | String c s' =>
      match int_rstrip s' with
      | EmptyString => if is_int_space c then EmptyString else String c EmptyString
      | r => String c r
      end
  | EmptyString => EmptyString
  end.

Definition int_strip (s : string) : string := int_rstrip (int_lstrip s).

(** The interpreter converts between [int] and text only up to this many
    digits (the default of [sys.get_int_max_str_digits()]); beyond it both
    directions raise [ValueError]. *)
Definition max_str_digits : Z := 4300.

Fixpoint count_digits (s : string) : Z :=
  match s with
  | String c s' => (if is_digit c then 1 else 0) + count_digits s'
  | EmptyString => 0
  end.

(** [int(s)] for text in base ten: surrounding white space, an optional
    sign, digits, at most [max_str_digits] of them. [None] stands for
    [ValueError]. *)
Definition int_of_str (s : string) : option Z :=
  if max_str_digits <? count_digits s then None
  else
    match int_strip s with
    | String "-"%char s' => Z.opp <$> int_unsigned s'
    | String "+"%char s' => int_unsigned s'
    | s' => int_unsigned s'
    end.

(** The digits of [n], with a minus sign when it is negative. *)
Definition str_of_int (n : Z) : string := NilZero.string_of_int (Z.to_int n).

(** An [int] that [str] and the format specifications write: one of at
    most [max_str_digits] digits, that is, below [10 ^ max_str_digits] in
    absolute value. As in the interpreter, a number of few bits is let
    through without looking at the bound. *)
Definition printable (n : Z) : bool :=
  if Z.abs n <? 2 ^ 64 then true else Z.abs n <? 10 ^ max_str_digits.

(** [str(n)] and [f"{n}"]: [ValueError] beyond the limit of digits. *)
Definition format_int (n : Z) : result string :=
  if printable n then Ok (str_of_int n) else Raise ValueError.

End PyStr.

(** ** Python floats *)

Module PyFloat.

Definition prec : Z := 53.
Definition emax : Z := 1024.

Definition float : Type := spec_float.

(** [float(n)] as binary arithmetic converts an [int] operand: the nearest
    binary64 value, ties to even; [OverflowError] beyond the range. *)
Definition of_int (n : Z) : result float :=
  match binary_normalize prec emax n 0 false with
  | S754_infinity _ => Raise OverflowError
  | f => Ok f
  end.

(** [a / b] on two [int]s (true division): the exact quotient rounded once
    to binary64, ties to even. *)
Definition int_truediv (a b : Z) : result float :=
  if b =? 0 then Raise ZeroDivisionError
  else
    let '(q, e, l) := SFdiv_core_binary prec emax (Z.abs a) 0 (Z.abs b) 0 in
    match binary_round_aux prec emax (xorb (a <? 0) (b <? 0)) q e l with
    | S754_infinity _ => Raise OverflowError
    | f => Ok f
    end.

(** [x * n] with [x] a [float] and [n] an [int]. *)
Definition mul_int (x : float) (n : Z) : result float :=
  y ← of_int n; Ok (SFmul prec emax x y).

(** Nearest integer of [m / 2^k], ties to even. *)
Definition round_half_even_shift (m k : Z) : Z :=
  let d := 2 ^ k in
  let q := m / d in
  match 2 * (m mod d) ?= d with
  | Lt => q
  | Gt => q + 1
  | Eq => if Z.even q then q else q + 1
  end.

(** [round(x)] with one argument: an [int], ties to even. *)
Definition round (x : float) : result Z :=
  match x with
  | S754_nan => Raise ValueError
  | S754_infinity _ => Raise OverflowError
  | S754_zero _ => Ok 0
  | S754_finite s m e =>
      let a := if 0 <=? e then Z.pos m * 2 ^ e
               else round_half_even_shift (Z.pos m) (- e) in
      Ok (if s then - a else a)
  end.

End PyFloat.

(** ** Raw rows *)

(** A cell of a [csv.DictReader] row: the text of the field, or [None]
    ([restval]) when the line is shorter than the header. *)
Inductive cell : Type :=
| Text (s : string)
| Missing.

Abbreviation Row := (gmap string cell).

(** A Python value as [row.get(key, default)] can return it: the cell of
    the row, or the default, which the source gives as text or as the
    [int] 0. *)
Inductive pyval : Type :=
| VStr (s : string)
| VNone
| VInt (n : Z).

Definition cell_val (c : cell) : pyval :=
  match c with
  | Text s => VStr s
  | Missing => VNone
  end.

(** [row.get(key, default)] *)
Definition row_get (row : Row) (key : string) (dflt : pyval) : pyval :=
  match row !! key with
  | Some c => cell_val c
  | None => dflt
  end.

(** [row[key]] *)
Definition row_item (row : Row) (key : string) : result pyval :=
  match row !! key with
  | Some c => Ok (cell_val c)
  | None => Raise KeyError
  end.

(** A [str] method called on a value: [AttributeError] on [None] and on
    an [int]. *)
Definition str_method {A} (f : string -> A) (v : pyval) : result A :=
  match v with
  | VStr s => Ok (f s)
  | VNone | VInt _ => Raise AttributeError
  end.

(** [int(v)] *)
Definition py_int (v : pyval) : result Z :=
  match v with
  | VInt n => Ok n
  | VStr s =>
      match PyStr.int_of_str s with
      | Some n => Ok n
      | None => Raise ValueError
      end
  | VNone => Raise TypeError
  end.

(** ** The aggregator: [process_csv_data] *)

(** The fields one row is reduced to (lines 166-174). *)
Record VehicleEvent : Type := {
  junction_name : string;
  travel_in : string;
  travel_out : string;
  vehicle_speed : Z;
  vehicle_type : string;
  is_electric : bool;
  weather_condition : string;
  speed_limit : Z;
  hour : string
}.

(** Lines 166-174, in the order the source evaluates them. *)
Definition parse_row (row : Row) : result VehicleEvent :=
  junction_name ← str_method PyStr.strip (row_get row "JunctionName" (VStr ""));
  travel_in ← str_method PyStr.strip (row_get row "travel_Direction_in" (VStr ""));
  travel_out ← str_method PyStr.strip (row_get row "travel_Direction_out" (VStr ""));
  vehicle_speed ← py_int (row_get row "VehicleSpeed" (VInt 0));
  vehicle_type ← str_method PyStr.strip (row_get row "VehicleType" (VStr ""));
  electric ← str_method (fun s => PyStr.lower (PyStr.strip s)) (row_get row "elctricHybrid" (VStr ""));
  weather_condition ← str_method PyStr.lower (row_get row "Weather_Conditions" (VStr ""));
  speed_limit ← py_int (row_get row "JunctionSpeedLimit" (VInt 0));
  hour ← str_method PyStr.split_colon_head (row_get row "timeOfDay" (VStr "00:00"));
  Ok {| junction_name := junction_name;
         travel_in := travel_in;
         travel_out := travel_out;
         vehicle_speed := vehicle_speed;
         vehicle_type := vehicle_type;
         is_electric := String.eqb electric "true";
         weather_condition := weather_condition;
         speed_limit := speed_limit;
         hour := hour |}.

(** The [totals] dictionary: its twelve keys are fixed at line 137. *)
Record Totals : Type := {
  total_vehicles : Z;
  total_trucks : Z;
  total_bikes : Z;
  total_electric_vehicles : Z;
  total_no_turn : Z;
  total_speed_violations : Z;
  total_rain_hours : Z;
  total_elm_road : Z;
  total_hanley_road : Z;
  total_buses_north : Z;
  total_scooters_elm : Z;
  total_bicycle : Z
}.

Inductive total_key : Type :=
| Kvehicles | Ktrucks | Kbikes | Kelectric | Kno_turn | Kspeed | Krain
| Kelm | Khanley | Kbuses_north | Kscooters_elm | Kbicycle.

(** [totals[k]] *)
Definition tget (k : total_key) (t : Totals) : Z :=
  match k with
  | Kvehicles => total_vehicles t
  | Ktrucks => total_trucks t
  | Kbikes => total_bikes t
  | Kelectric => total_electric_vehicles t
  | Kno_turn => total_no_turn t
  | Kspeed => total_speed_violations t
  | Krain => total_rain_hours t
  | Kelm => total_elm_road t
  | Khanley => total_hanley_road t
  | Kbuses_north => total_buses_north t
  | Kscooters_elm => total_scooters_elm t
  | Kbicycle => total_bicycle t
  end.

(** [totals[k] = v] *)
Definition tset (k : total_key) (v : Z) (t : Totals) : Totals :=
  let '(Build_Totals a b c d e f g h i j l m) := t in
  match k with
  | Kvehicles => Build_Totals v b c d e f g h i j l m
  | Ktrucks => Build_Totals a v c d e f g h i j l m
  | Kbikes => Build_Totals a b v d e f g h i j l m
  | Kelectric => Build_Totals a b c v e f g h i j l m
  | Kno_turn => Build_Totals a b c d v f g h i j l m
  | Kspeed => Build_Totals a b c d e v g h i j l m
  | Krain => Build_Totals a b c d e f v h i j l m
  | Kelm => Build_Totals a b c d e f g v i j l m
  | Khanley => Build_Totals a b c d e f g h v j l m
  | Kbuses_north => Build_Totals a b c d e f g h i v l m
  | Kscooters_elm => Build_Totals a b c d e f g h i j v m
  | Kbicycle => Build_Totals a b c d e f g h i j l v
  end.

(** A Python [dict]: the order of insertion is kept, as iteration and
    [items()] show it. *)
Definition pydict (K V : Type) : Type := list (K * V).

Section PyDict.
Context {K V : Type} `{EqDecision K}.

(** [d.get(k)] *)
Fixpoint dict_lookup (k : K) (d : pydict K V) : option V :=
  match d with
  | (k', v) :: d' => if decide (k = k') then Some v else dict_lookup k d'
  | [] => None
  end.

(** [d.get(k, default)] *)
Definition dict_get (k : K) (dflt : V) (d : pydict K V) : V :=
  match dict_lookup k d with
  | Some v => v
  | None => dflt
  end.

(** [d[k]] *)
Definition dict_item (k : K) (d : pydict K V) : result V :=
  match dict_lookup k d with
  | Some v => Ok v
  | None => Raise KeyError
  end.

(** [d[k] = v]: a present key keeps its place, a new key goes last. *)
Fixpoint dict_set (k : K) (v : V) (d : pydict K V) : pydict K V :=
  match d with
  | (k', v') :: d' =>
      if decide (k = k') then (k', v) :: d' else (k', v') :: dict_set k v d'
  | [] => [(k, v)]
  end.

(** [list(d.keys())] and [list(d.values())] *)
Definition dict_keys (d : pydict K V) : list K := map fst d.
Definition dict_values (d : pydict K V) : list V := map snd d.
End PyDict.

(** The objects the pass mutates (lines 137-156). *)
Record Acc : Type := {
  totals : Totals;
  hanley_counts_per_hour : pydict string Z;
  bicycle_hours : gset string;
  rain_hours : gset string
}.

Definition init_totals : Totals := Build_Totals 0 0 0 0 0 0 0 0 0 0 0 0.

Definition init_acc : Acc :=
  {| totals := init_totals;
     hanley_counts_per_hour := [];
     bicycle_hours := ∅;
     rain_hours := ∅ |}.

(** Code that mutates the accumulator and may raise. *)
Abbreviation M := (ST Acc).

(** [totals[k] += 1] *)
Definition incr (k : total_key) : M unit :=
  modify (fun st =>
    {| totals := tset k (tget k (totals st) + 1) (totals st);
       hanley_counts_per_hour := hanley_counts_per_hour st;
       bicycle_hours := bicycle_hours st;
       rain_hours := rain_hours st |}).

(** [rain_hours.add(h)] *)
Definition add_rain_hour (h : string) : M unit :=
  modify (fun st =>
    {| totals := totals st;
       hanley_counts_per_hour := hanley_counts_per_hour st;
       bicycle_hours := bicycle_hours st;
       rain_hours := {[ h ]} ∪ rain_hours st |}).

(** [bicycle_hours.add(h)] *)
Definition add_bicycle_hour (h : string) : M unit :=
  modify (fun st =>
    {| totals := totals st;
       hanley_counts_per_hour := hanley_counts_per_hour st;
       bicycle_hours := {[ h ]} ∪ bicycle_hours st;
       rain_hours := rain_hours st |}).

(** [hanley_counts_per_hour[h] = hanley_counts_per_hour.get(h, 0) + 1] *)
Definition bump_hanley (h : string) : M unit :=
  modify (fun st =>
    {| totals := totals st;
       hanley_counts_per_hour :=
         dict_set h (dict_get h 0 (hanley_counts_per_hour st) + 1)
                  (hanley_counts_per_hour st);
       bicycle_hours := bicycle_hours st;
       rain_hours := rain_hours st |}).

Definition is_bike_type (t : string) : bool :=
  String.eqb t "Bicycle" || String.eqb t "Motorcycle" || String.eqb t "Scooter".

(** Lines 177-213: the updates one parsed row makes. *)
Definition update (ev : VehicleEvent) : M unit :=
  incr Kvehicles ;;
  when (String.eqb (vehicle_type ev) "Truck") (incr Ktrucks) ;;
  when (is_bike_type (vehicle_type ev)) (incr Kbikes) ;;
  when (is_electric ev) (incr Kelectric) ;;
  when (String.eqb (travel_in ev) (travel_out ev)) (incr Kno_turn) ;;
  when (speed_limit ev <? vehicle_speed ev) (incr Kspeed) ;;
  when (PyStr.contains "rain" (weather_condition ev)) (add_rain_hour (hour ev)) ;;
  (if String.eqb (junction_name ev) "Elm Avenue/Rabbit Road" then
     incr Kelm ;;
     when (String.eqb (travel_out ev) "N" && String.eqb (vehicle_type ev) "Buss")
          (incr Kbuses_north) ;;
     when (String.eqb (vehicle_type ev) "Scooter") (incr Kscooters_elm)
   else if String.eqb (junction_name ev) "Hanley Highway/Westway" then
     incr Khanley ;;
     bump_hanley (hour ev)
   else mret tt) ;;
  when (String.eqb (vehicle_type ev) "Bicycle")
       (incr Kbicycle ;; add_bicycle_hour (hour ev)).

(** The body of the inner [try] (lines 165-213). *)
Definition row_body (row : Row) : M unit :=
  ev ← lift (parse_row row); update ev.

(** Lines 164-216: [except (ValueError, KeyError): continue]. Any other
    exception leaves the loop. *)
Definition try_row (row : Row) : M unit :=
  fun st =>
    match row_body row st with
    | (st', Raise ValueError) | (st', Raise KeyError) => (st', Ok tt)
    | out => out
    end.

(** Line 163: [for row in reader]. *)
Fixpoint for_rows (rows : list Row) : M unit :=
  match rows with
  | row :: rest => try_row row ;; for_rows rest
  | [] => mret tt
  end.

(** [len(s)] of a set *)
Definition set_len (s : gset string) : Z := Z.of_nat (size s).

(** Line 219: [totals['total_rain_hours'] = len(rain_hours)]. *)
Definition store_rain_hours : M unit :=
  modify (fun st =>
    {| totals := tset Krain (set_len (rain_hours st)) (totals st);
       hanley_counts_per_hour := hanley_counts_per_hour st;
       bicycle_hours := bicycle_hours st;
       rain_hours := rain_hours st |}).

(** Line 222: [round(total_bicycle / len(bicycle_hours)) if bicycle_hours
    else 0]. *)
Definition compute_avg_bikes_per_hour (t : Totals) (hours : gset string) : result Z :=
  if set_len hours =? 0 then Ok 0
  else x ← PyFloat.int_truediv (total_bicycle t) (set_len hours); PyFloat.round x.

(** [round((part / whole) * 100)] *)
Definition percentage (part whole : Z) : result Z :=
  x ← PyFloat.int_truediv part whole;
  y ← PyFloat.mul_int x 100;
  PyFloat.round y.

(** Line 223: guarded by [total_elm_road > 0]. *)
Definition compute_percentage_scooters_elm (t : Totals) : result Z :=
  if 0 <? total_elm_road t
  then percentage (total_scooters_elm t) (total_elm_road t)
  else Ok 0.

(** Line 224: not guarded. *)
Definition compute_percentage_trucks (t : Totals) : result Z :=
  percentage (total_trucks t) (total_vehicles t).

(** [max(values, default=d)] *)
Definition max_default (values : list Z) (d : Z) : Z :=
  match values with
  | v :: rest => fold_left Z.max rest v
  | [] => d
  end.

(** Line 228: the keys whose count is the maximum, in dictionary order. *)
Definition compute_peak_hours (counts : pydict string Z) : list string :=
  let max_count := max_default (dict_values counts) 0 in
  map fst (filter (fun item => snd item = max_count) counts).

(** Line 229: [f"Between {hour}:00 and {int(hour)+1}:00"]. *)
Definition peak_hour_range (hour : string) : result string :=
  n ← py_int (VStr hour);
  next ← PyStr.format_int (n + 1);
  Ok ("Between " ++ hour ++ ":00 and " ++ next ++ ":00")%string.

(** A list comprehension whose element expression can raise. *)
Fixpoint map_result {A B} (f : A -> result B) (l : list A) : result (list B) :=
  match l with
  | a :: l' => b ← f a; bs ← map_result f l'; Ok (b :: bs)
  | [] => Ok []
  end.

(** The dictionary returned at line 232. *)
Record AggregationResult : Type := {
  out_file : string;
  out_totals : Totals;
  avg_bikes_per_hour : Z;
  percentage_scooters_elm : Z;
  percentage_trucks : Z;
  peak_hour_ranges : list string;
  out_hanley_counts_per_hour : pydict string Z
}.

(** Lines 222-240: the derived metrics and the returned dictionary. *)
Definition summarize (file_path : string) (st : Acc) : result AggregationResult :=
  avg ← compute_avg_bikes_per_hour (totals st) (bicycle_hours st);
  scooters ← compute_percentage_scooters_elm (totals st);
  trucks ← compute_percentage_trucks (totals st);
  ranges ← map_result peak_hour_range
              (compute_peak_hours (hanley_counts_per_hour st));
  Ok {| out_file := file_path;
        out_totals := totals st;
        avg_bikes_per_hour := avg;
        percentage_scooters_elm := scooters;
        percentage_trucks := trucks;
        peak_hour_ranges := ranges;
        out_hanley_counts_per_hour := hanley_counts_per_hour st |}.

(** Lines 219-240. *)
Definition finalize (file_path : string) : M AggregationResult :=
  store_rain_hours ;;
  st ← get_state;
  lift (summarize file_path st).

(** Lines 158-240: the outer [try] block, run on fresh objects. *)
Definition aggregate (file_path : string) (rows : list Row) : Acc * result AggregationResult :=
  (for_rows rows ;; finalize file_path) init_acc.

(** [process_csv_data(file_path)] on a path that does not exist ([None])
    or on a file that opens and that the reader reads to its end, given
    by its rows. Whatever the outer [try] block raises is raised again
    as a [RuntimeError] (line 244). [process_csv_data_reading] below
    covers the files that do not open or that the reader gives up on. *)
Definition process_csv_data (file_path : string) (file : option (list Row))
  : result AggregationResult :=
  match file with
  | None => Raise FileNotFoundError
  | Some rows =>
      match aggregate file_path rows with
      | (_, Ok r) => Ok r
      | (_, Raise e) => Raise (RuntimeError e)
      end
  end.

(** What the path gives when it is read: no such path at line 133; a
    path that [open] refuses (a directory, a file without permission),
    with the exception it raises; or the rows the reader yields, followed
    by the end of the file ([None]) or by an exception of the reader (a
    decoding error, a [csv.Error]). The exceptions are subclasses of
    [Exception]. *)
Inductive reading : Type :=
| NoFile
| OpenFails (e : exn)
| Yields (rows : list Row) (stop : option exn).

(** [process_csv_data(file_path)] on any reading. The reader is advanced
    outside the inner [try], so what it raises leaves the loop. *)
Definition process_csv_data_reading (file_path : string) (rd : reading)
  : result AggregationResult :=
  match rd with
  | NoFile => Raise FileNotFoundError
  | OpenFails e => Raise (RuntimeError e)
  | Yields rows stop =>
      let body : M AggregationResult :=
        for_rows rows ;;
        match stop with
        | Some e => lift (Raise e)
        | None => finalize file_path
        end in
      match body init_acc with
      | (_, Ok r) => Ok r
      | (_, Raise e) => Raise (RuntimeError e)
      end
  end.

(** ** The chart: [HistogramApp] *)

Module HistogramApp.

Definition elm : string := "Elm Avenue/Rabbit Road".
Definition hanley : string := "Hanley Highway/Westway".

Definition canvas_width : Z := 1300.
Definition canvas_height : Z := 500.

(** [hourly_counts]: hour -> junction -> count. *)
Definition Tally : Type := pydict Z (pydict string Z).

(** Line 283. *)
Definition init_hourly_counts : Tally :=
  map (fun h => (Z.of_nat h, [(elm, 0); (hanley, 0)])) (seq 0 24).

(** [junction in counts], the junction being whatever the cell holds. *)
Definition junction_in (junction : pyval) (counts : pydict string Z) : bool :=
  match junction with
  | VStr j => bool_decide (is_Some (dict_lookup j counts))
  | VNone | VInt _ => false
  end.

(** [hourly_counts[hour][junction] += 1] *)
Definition incr_cell (hour : Z) (junction : string) : ST Tally unit :=
  hc ← get_state;
  counts ← lift (dict_item hour hc);
  n ← lift (dict_item junction counts);
  modify (dict_set hour (dict_set junction (n + 1) counts)).

(** The body of the [try] at lines 287-290. *)
Definition tally_body (row : Row) : ST Tally unit :=
  time ← lift (row_item row "timeOfDay");
  head ← lift (str_method PyStr.split_colon_head time);
  hour ← lift (py_int (VStr head));
  junction ← lift (row_item row "JunctionName");
  hc ← get_state;
  counts ← lift (dict_item hour hc);
  match junction with
  | VStr j => when (junction_in junction counts) (incr_cell hour j)
  | VNone | VInt _ => mret tt
  end.

(** Lines 286-292: [except ValueError: continue]. *)
Definition tally_row (row : Row) : ST Tally unit :=
  fun hc =>
    match tally_body row hc with
    | (hc', Raise ValueError) => (hc', Ok tt)
    | out => out
    end.

Fixpoint tally_rows (rows : list Row) : ST Tally unit :=
  match rows with
  | row :: rest => tally_row row ;; tally_rows rest
  | [] => mret tt
  end.

(** [process_data]: the tally it leaves in [self.hourly_counts], and
    whether it returned or raised. *)
Definition process_data (traffic_data : list Row) : Tally * result unit :=
  tally_rows traffic_data init_hourly_counts.

(** A Python number: [int] or [float]. *)
Inductive num : Type :=
| NInt (n : Z)
| NFloat (x : PyFloat.float).

Definition to_float (a : num) : result PyFloat.float :=
  match a with
  | NInt n => PyFloat.of_int n
  | NFloat x => Ok x
  end.

(** [a * b], [a - b], [a + b]: exact on two [int]s, binary64 otherwise. *)
Definition num_op (fz : Z -> Z -> Z)
    (ff : PyFloat.float -> PyFloat.float -> PyFloat.float) (a b : num) : result num :=
  match a, b with
  | NInt x, NInt y => Ok (NInt (fz x y))
  | _, _ => x ← to_float a; y ← to_float b; Ok (NFloat (ff x y))
  end.

Definition num_mul := num_op Z.mul (SFmul PyFloat.prec PyFloat.emax).
Definition num_sub := num_op Z.sub (SFsub PyFloat.prec PyFloat.emax).
Definition num_add := num_op Z.add (SFadd PyFloat.prec PyFloat.emax).

(** Canvas calls. *)
Inductive draw : Type :=
| create_rectangle (x1 y1 x2 y2 : num) (fill outline : string)
| create_text (x y : num) (text anchor : string).

Definition bar_width : Z := 20.
Definition gap : Z := 1.
Definition pair_gap : Z := 10.
Definition x_offset : Z := 70.

Definition colors : pydict string string :=
  [(elm, "gray"); (hanley, "lightblue")].

(** [max(l)]: [ValueError] on an empty sequence. *)
Definition max_nonempty (l : list Z) : result Z :=
  match l with
  | v :: rest => Ok (fold_left Z.max rest v)
  | [] => Raise ValueError
  end.

(** Line 320. *)
Definition compute_max_count (hc : Tally) : result Z :=
  inner ← map_result (fun counts => max_nonempty (dict_values counts)) (dict_values hc);
  max_nonempty inner.

(** Line 323: [(canvas_height - 150) / (max_count + 1) if max_count
    else 0]. *)
Definition compute_scale (max_count : Z) : result num :=
  if max_count =? 0 then Ok (NInt 0)
  else x ← PyFloat.int_truediv (canvas_height - 150) (max_count + 1); Ok (NFloat x).

(** The baseline of every bar: [canvas_height - 50]. *)
Definition baseline : Z := canvas_height - 50.

(** Lines 330-334 for one junction: the rectangle and its label. *)
Definition draw_bar (scale : num) (x : Z) (junction : string) (count : Z)
  : result (list draw) :=
  h ← num_mul (NInt count) scale;
  y ← num_sub (NInt baseline) h;
  color ← dict_item junction colors;
  half ← PyFloat.int_truediv bar_width 2;
  x1 ← num_sub (NInt x) (NFloat half);
  x2 ← num_add (NInt x) (NFloat half);
  ty ← num_sub y (NInt 10);
  text ← PyStr.format_int count;
  Ok [create_rectangle x1 y x2 (NInt baseline) color "black";
      create_text (NInt x) ty text "s"].

(** Lines 329-334: the bars of one hour, [x] moving right after each. *)
Fixpoint draw_bars (scale : num) (x : Z) (counts : pydict string Z)
  : result (list draw) :=
  match counts with
  | (junction, count) :: rest =>
      bar ← draw_bar scale x junction count;
      bars ← draw_bars scale (x + (bar_width + gap)) rest;
      Ok (bar ++ bars)%list
  | [] => Ok []
  end.

(** [f"{hour:02d}"], for an [hour] that is printable. *)
Definition format_02d (n : Z) : string :=
  let s := PyStr.str_of_int n in
  if (String.length s <? 2)%nat then ("0" ++ s)%string else s.

(** Lines 328-336 for one hour. *)
Definition draw_hour (scale : num) (hour : Z) (counts : pydict string Z)
  : result (list draw) :=
  let x := x_offset + hour * (bar_width * 2 + gap + pair_gap) in
  bars ← draw_bars scale x counts;
  hh ← (if PyStr.printable hour then Ok (format_02d hour) else Raise ValueError);
  Ok (bars ++ [create_text (NInt (x + bar_width)) (NInt (canvas_height - 30))
                  (hh ++ ":00")%string "n"])%list.

Fixpoint draw_hours (scale : num) (hc : Tally) : result (list draw) :=
  match hc with
  | (hour, counts) :: rest =>
      one ← draw_hour scale hour counts;
      others ← draw_hours scale rest;
      Ok (one ++ others)%list
  | [] => Ok []
  end.

(** [draw_histogram]: the canvas calls it makes, in order. *)
Definition draw_histogram (hc : Tally) : result (list draw) :=
  max_count ← compute_max_count hc;
  scale ← compute_scale max_count;
  draw_hours scale hc.

End HistogramApp.

(** ** Vocabulary of the statements *)

(** Final state of a computation, and the predicate "never raises". *)
Definition exec {S A} (c : ST S A) (st : S) : S := fst (c st).

Definition returns {S} (c : ST S unit) : Prop := forall st, snd (c st) = Ok tt.

(** The validated events of a row sequence: the rows on which every field
    parses. *)
Definition parsed (row : Row) : option VehicleEvent :=
  match parse_row row with
  | Ok ev => Some ev
  | Raise _ => None
  end.

Definition parses (row : Row) : bool :=
  match parse_row row with
  | Ok _ => true
  | Raise _ => false
  end.

Definition parsed_events (rows : list Row) : list VehicleEvent := omap parsed rows.

(** The pass over validated events only: the updates of lines 177-213, one
    event after the other. *)
Fixpoint for_events (evs : list VehicleEvent) : M unit :=
  match evs with
  | ev :: rest => update ev ;; for_events rest
  | [] => mret tt
  end.

Definition aggregate_events (file_path : string) (evs : list VehicleEvent)
  : Acc * result AggregationResult :=
  (for_events evs ;; finalize file_path) init_acc.

(** The state the summary is computed from, for validated events [evs]. *)
Definition final_acc (evs : list VehicleEvent) : Acc :=
  exec store_rain_hours (exec (for_events evs) init_acc).

(** A row all of whose cells are text: no line was shorter than the
    header. *)
Definition all_text (row : Row) : Prop := forall k, row !! k <> Some Missing.

#[global] Instance total_key_eq_dec : EqDecision total_key.
Proof. solve_decision. Defined.

(** The events a total counts. [Krain] is not a counter: it is stored once,
    after the pass. *)
Definition counts_as (k : total_key) (ev : VehicleEvent) : bool :=
  let at_elm := String.eqb (junction_name ev) "Elm Avenue/Rabbit Road" in
  match k with
  | Kvehicles => true
  | Ktrucks => String.eqb (vehicle_type ev) "Truck"
  | Kbikes => is_bike_type (vehicle_type ev)
  | Kelectric => is_electric ev
  | Kno_turn => String.eqb (travel_in ev) (travel_out ev)
  | Kspeed => speed_limit ev <? vehicle_speed ev
  | Krain => false
  | Kelm => at_elm
  | Khanley => String.eqb (junction_name ev) "Hanley Highway/Westway"
  | Kbuses_north =>
      at_elm && String.eqb (travel_out ev) "N" && String.eqb (vehicle_type ev) "Buss"
  | Kscooters_elm => at_elm && String.eqb (vehicle_type ev) "Scooter"
  | Kbicycle => String.eqb (vehicle_type ev) "Bicycle"
  end.

Fixpoint count_events (p : VehicleEvent -> bool) (evs : list VehicleEvent) : Z :=
  match evs with
  | ev :: rest => (if p ev then 1 else 0) + count_events p rest
  | [] => 0
  end.

(** The category totals named by the specification. *)
Definition category_keys : list total_key :=
  [Ktrucks; Kbikes; Kelectric; Kno_turn; Kspeed; Kelm; Khanley;
   Kbuses_north; Kscooters_elm; Kbicycle].

Definition totals_bounded (t : Totals) : Prop :=
  0 <= total_vehicles t /\
  Forall (fun k => 0 <= tget k t <= total_vehicles t) category_keys.

(** The hour keys of the bicycle events. *)
Fixpoint bicycle_hour_set (evs : list VehicleEvent) : gset string :=
  match evs with
  | ev :: rest =>
      if String.eqb (vehicle_type ev) "Bicycle"
      then bicycle_hour_set rest ∪ {[ hour ev ]}
      else bicycle_hour_set rest
  | [] => ∅
  end.

(** The events of one hour key at the Hanley junction. *)
Definition at_hanley_hour (h : string) (ev : VehicleEvent) : bool :=
  String.eqb (junction_name ev) "Hanley Highway/Westway" && String.eqb (hour ev) h.

(** The two-digit hour keys "00" .. "23". *)
Definition two_digit_hours : list string :=
  map (fun h => HistogramApp.format_02d (Z.of_nat h)) (seq 0 24).

(** The text of a cell, [dflt] when the column is absent. *)
Definition cell_text (row : Row) (key dflt : string) : string :=
  match row !! key with
  | Some (Text s) => s
  | _ => dflt
  end.

(** Following the specification's words, not the source: "round(100 x
    truck total / total vehicles)", the nearest integer of the exact
    quotient, a tie going to the even neighbour. *)
Definition spec_round_percentage (part whole : Z) : Z :=
  let q := (100 * part) / whole in
  match 2 * ((100 * part) mod whole) ?= whole with
  | Lt => q
  | Gt => q + 1
  | Eq => if Z.even q then q else q + 1
  end.

(** The same words with a tie going up. *)
Definition spec_round_percentage_half_up (part whole : Z) : Z :=
  (2 * 100 * part + whole) / (2 * whole).

Module FloatBound.

(** The value a record of [shr] is bounded by: its mantissa, plus one when
    a round or sticky bit is set. *)
Definition upper (mrs : shr_record) : Z :=
  shr_m mrs + (if shr_r mrs || shr_s mrs then 1 else 0).

(** [0 <= x <= n] for a binary64 value [x] whose exponent is not
    positive. *)
Definition le_int (x : PyFloat.float) (n : Z) : Prop :=
  match x with
  | S754_zero _ => True
  | S754_finite false m e => e <= 0 /\ Z.pos m <= n * 2 ^ (- e)
  | _ => False
  end.

End FloatBound.

(** The keys of the chart tally: the hours 0 .. 23 in order, each with
    the two junctions in order. *)
Definition tally_shape (hc : HistogramApp.Tally) : Prop :=
  dict_keys hc = map Z.of_nat (seq 0 24) /\
  Forall (fun item => dict_keys (snd item) = [HistogramApp.elm; HistogramApp.hanley]) hc.

(** Cells of the chart tally. *)
Definition tally_cell (hc : HistogramApp.Tally) (h : Z) (junction : string) : option Z :=
  counts ← dict_lookup h hc; dict_lookup junction counts.

(** The rows the chart counts in a cell: the hour text before the colon
    reads as [h] and the junction cell is exactly [junction]. *)
Definition in_cell (h : Z) (junction : string) (row : Row) : bool :=
  match row !! "timeOfDay", row !! "JunctionName" with
  | Some (Text t), Some (Text j) =>
      bool_decide (PyStr.int_of_str (PyStr.split_colon_head t) = Some h)
      && String.eqb j junction
  | _, _ => false
  end.

Fixpoint count_rows (p : Row -> bool) (rows : list Row) : Z :=
  match rows with
  | row :: rest => (if p row then 1 else 0) + count_rows p rest
  | [] => 0
  end.

(** A row the chart tally reads without an exception leaving the loop:
    its time is text and, when the text before the colon reads as a
    number, the number is an hour of the tally and the row has a junction
    cell. *)
Definition chartable (row : Row) : Prop :=
  exists t, row !! "timeOfDay" = Some (Text t) /\
    forall h, PyStr.int_of_str (PyStr.split_colon_head t) = Some h ->
              0 <= h < 24 /\ is_Some (row !! "JunctionName").

(** The tally with the given number in each cell: the hours 0 .. 23 in
    order, each with the two junctions in order. *)
Definition tally_of (cell : Z -> string -> Z) : HistogramApp.Tally :=
  map (fun h => (h, [(HistogramApp.elm, cell h HistogramApp.elm);
                     (HistogramApp.hanley, cell h HistogramApp.hanley)]))
      (map Z.of_nat (seq 0 24)).

(** The fill colour of a drawn rectangle. *)
Definition rectangle_fill (d : HistogramApp.draw) : option string :=
  match d with
  | HistogramApp.create_rectangle _ _ _ _ fill _ => Some fill
  | HistogramApp.create_text _ _ _ _ => None
  end.

(** The text of a label drawn with the given anchor, and where it
    stands on the x axis. *)
Definition label (anchor : string) (d : HistogramApp.draw)
  : option (HistogramApp.num * string) :=
  match d with
  | HistogramApp.create_text x _ text a =>
      if String.eqb a anchor then Some (x, text) else None
  | HistogramApp.create_rectangle _ _ _ _ _ _ => None
  end.

(** A scale factor as line 323 computes it: the [int] 0, or a [float]
    between 0 and 350. *)
Definition scale_in_range (scale : HistogramApp.num) : Prop :=
  match scale with
  | HistogramApp.NInt k => k = 0
  | HistogramApp.NFloat s => FloatBound.le_int s 350
  end.

(** A coordinate that is the baseline, 450, as an [int] or as the
    [float] of the same value. *)
Definition at_baseline (y : HistogramApp.num) : Prop :=
  HistogramApp.to_float y = PyFloat.of_int HistogramApp.baseline.

(** Every hour and every count of the tally is printable. *)
Definition tally_printable (hc : HistogramApp.Tally) : Prop :=
  Forall (fun item =>
            PyStr.printable (fst item) = true /\
            Forall (fun jc : string * Z => PyStr.printable (snd jc) = true) (snd item)) hc.

(** The vertical extent of a drawn rectangle. *)
Definition rectangle_top_bottom (d : HistogramApp.draw) : option (HistogramApp.num * HistogramApp.num) :=
  match d with
  | HistogramApp.create_rectangle _ y1 _ y2 _ _ => Some (y1, y2)
  | HistogramApp.create_text _ _ _ _ => None
  end.

(** ** Sample inputs *)

(** A row read from a line that has as many fields as the header. *)
Definition mk_row (fields : list (string * string)) : Row :=
  list_to_map (map (fun kv => (fst kv, Text (snd kv))) fields).

Module Samples.

Definition truck_row : Row :=
  mk_row [("JunctionName", "Hanley Highway/Westway");
          ("timeOfDay", "08:15");
          ("travel_Direction_in", "N");
          ("travel_Direction_out", "S");
          ("VehicleType", "Truck");
          ("elctricHybrid", "False");
          ("Weather_Conditions", "Light Rain");
          ("JunctionSpeedLimit", "30");
          ("VehicleSpeed", "42")].

Definition car_row : Row :=
  mk_row [("JunctionName", "Elm Avenue/Rabbit Road");
          ("timeOfDay", "17:05");
          ("travel_Direction_in", "E");
          ("travel_Direction_out", "E ");
          ("VehicleType", "Car");
          ("elctricHybrid", "TRUE");
          ("Weather_Conditions", "Clear");
          ("JunctionSpeedLimit", "30");
          ("VehicleSpeed", "28")].

Definition bicycle_row (time : string) : Row :=
  mk_row [("JunctionName", "Hanley Highway/Westway");
          ("timeOfDay", time);
          ("travel_Direction_in", "W");
          ("travel_Direction_out", "N");
          ("VehicleType", "Bicycle");
          ("elctricHybrid", "False");
          ("Weather_Conditions", "Clear");
          ("JunctionSpeedLimit", "30");
          ("VehicleSpeed", "12")].

(** Non-numeric text in a numeric field. *)
Definition bad_speed_row : Row := <["VehicleSpeed" := Text "4x"]> truck_row.

(** A line that ends before the [VehicleSpeed] field: the reader fills
    the cell with [None]. *)
Definition short_row : Row := <["VehicleSpeed" := Missing]> truck_row.

(** A row without the two direction columns. *)
Definition no_direction_row : Row :=
  delete "travel_Direction_in" (delete "travel_Direction_out" car_row).

(** A one-digit hour, as the input format allows. *)
Definition one_digit_hour_row : Row := <["timeOfDay" := Text "7:30"]> car_row.

(** Midnight written as hour 24. *)
Definition hour_24_row : Row := <["timeOfDay" := Text "24:00"]> car_row.

(** Twenty-three trucks among forty vehicles. *)
Definition trucks_23_of_40 : list Row := repeat truck_row 23 ++ repeat car_row 17.

End Samples.

(** ** Date entry: [validate_date_input] *)

(** The dialogue is run on a script: the lines that [input()] returns, in
    order, and the names [os.listdir] gives, taken to stay the same during
    the dialogue. [input()] at the end of the script raises [EOFError]. *)
Module DateInput.

(** [str.isdigit] on code points below 256: the digits 0 .. 9 and the
    superscripts two, three and one. *)
Definition isdigit_char (c : ascii) : bool :=
  let n := Z.of_nat (nat_of_ascii c) in
  ((48 <=? n) && (n <=? 57)) || (n =? 178) || (n =? 179) || (n =? 185).

Fixpoint all_chars (p : ascii -> bool) (s : string) : bool :=
  match s with
  | String c s' => p c && all_chars p s'
  | EmptyString => true
  end.

(** [s.isdigit()]: false on the empty text. *)
Definition isdigit (s : string) : bool :=
  match s with
  | EmptyString => false
  | _ => all_chars isdigit_char s
  end.

(** [s.endswith(suffix)] *)
Fixpoint ends_with (suffix s : string) : bool :=
  String.eqb suffix s ||
  match s with
  | String _ s' => ends_with suffix s'
  | EmptyString => false
  end.

Definition is_leap (year : Z) : bool :=
  (year mod 4 =? 0) && (negb (year mod 100 =? 0) || (year mod 400 =? 0)).

Definition days_in_month (year month : Z) : Z :=
  if month =? 2 then (if is_leap year then 29 else 28)
  else if (month =? 4) || (month =? 6) || (month =? 9) || (month =? 11) then 30
  else 31.

(** A decimal number padded with zeros on the left to [width] characters,
    as [%d], [%m] and [%Y] of [strftime] write day, month and a year of
    four digits. *)
Definition zero_pad (width : nat) (n : Z) : string :=
  let s := PyStr.str_of_int n in
  (string_of_list_ascii (repeat "0"%char (width - String.length s)) ++ s)%string.

(** [datetime(year, month, day).strftime("%d%m%Y")]: [ValueError] when
    the date does not exist. *)
Definition date_str (year month day : Z) : result string :=
  if (1 <=? year) && (year <=? 9999) && (1 <=? month) && (month <=? 12)
     && (1 <=? day) && (day <=? days_in_month year month)
  then Ok (zero_pad 2 day ++ zero_pad 2 month ++ zero_pad 4 year)%string
  else Raise ValueError.

(** [os.path.join('./', name)] *)
Definition path_join (name : string) : string :=
  if String.prefix "/" name then name else ("./" ++ name)%string.

(** [int(s)] on a line of input, with the limit on the number of digits
    written out. *)
Definition max_str_digits : Z := 4300.

Fixpoint count_digits (s : string) : Z :=
  match s with
  | String c s' => (if PyStr.is_digit c then 1 else 0) + count_digits s'
  | EmptyString => 0
  end.

Definition int_of_input (s : string) : option Z :=
  if max_str_digits <? count_digits s then None else PyStr.int_of_str s.

(** What one pass of a [while True] loop ends with: a [return], or a
    [continue]; both with the lines of input not read yet. *)
Inductive outcome : Type :=
| Return (r : option (string * string)) (rest : list string)
| Continue (rest : list string).

Inductive field : Type :=
| Got (n : Z) (rest : list string)
| Stop (o : outcome).

(** One prompt for a number between [lo] and [hi] (lines 32-41, 43-52,
    54-63). [input()] at the end of the input raises [EOFError], and
    [int] on a text that [isdigit] accepts but that is not decimal
    raises [ValueError]: both reach the handler of line 99, which returns
    [None]. *)
Definition read_field (lo hi : Z) (inputs : list string) : field :=
  match inputs with
  | [] => Stop (Return None [])
  | line :: rest =>
      let s := PyStr.strip line in
      if negb (isdigit s) then Stop (Continue rest)
      else
        match int_of_input s with
        | None => Stop (Return None rest)
        | Some n =>
            if (lo <=? n) && (n <=? hi) then Got n rest else Stop (Continue rest)
        end
  end.

(** Lines 86-95: the inner loop that asks which of several files. *)
Fixpoint choose (files : list string) (date : string) (inputs : list string) : outcome :=
  match inputs with
  | [] => Return None []
  | line :: rest =>
      match int_of_input (PyStr.strip line) with
      | None => choose files date rest
      | Some n =>
          let choice := n - 1 in
          if (0 <=? choice) && (choice <? Z.of_nat (length files)) then
            match nth_error files (Z.to_nat choice) with
            | Some selected_file => Return (Some (path_join selected_file, date)) rest
            | None => Return None rest
            end
          else choose files date rest
      end
  end.

(** Line 78: the names of the directory that end in [.csv] and contain
    the expected file name. *)
Definition files_found (listing : list string) (date : string) : list string :=
  List.filter
    (fun f => ends_with ".csv" f
              && PyStr.contains ("traffic_data" ++ date ++ ".csv")%string f)
    listing.

(** Lines 30-97: one pass of the outer loop. *)
Definition pass (listing inputs : list string) : outcome :=
  match read_field 1 31 inputs with
  | Stop o => o
  | Got day rest1 =>
  match read_field 1 12 rest1 with
  | Stop o => o
  | Got month rest2 =>
  match read_field 2000 2024 rest2 with
  | Stop o => o
  | Got year rest3 =>
  match date_str year month day with
  | Raise _ => Continue rest3
  | Ok date =>
      match files_found listing date with
      | [] => Continue rest3
      | [f] => Return (Some (path_join f, date)) rest3
      | files => choose files date rest3
      end
  end end end end.

(** The outer loop, with a bound on the number of passes. *)
Fixpoint loop (fuel : nat) (listing inputs : list string)
  : option (option (string * string) * list string) :=
  match fuel with
  | O => None
  | S fuel' =>
      match pass listing inputs with
      | Return r rest => Some (r, rest)
      | Continue rest => loop fuel' listing rest
      end
  end.

(** [validate_date_input()] on the lines typed and the names in the
    working directory: what it returns and the lines it left unread. Every
    pass that continues has read a line, so one pass more than there are
    lines is enough. *)
Definition run (listing inputs : list string)
  : option (option (string * string) * list string) :=
  loop (S (length inputs)) listing inputs.

Definition validate_date_input (listing inputs : list string) : option (string * string) :=
  match run listing inputs with
  | Some (r, _) => r
  | None => None
  end.

(** The dates of the calendar. *)
Definition valid_date (year month day : Z) : Prop :=
  1 <= month <= 12 /\ 1 <= day <= days_in_month year month.

(** A line that a prompt for a number between [lo] and [hi] takes as the
    number [n]. *)
Definition accepted (lo hi : Z) (line : string) (n : Z) : Prop :=
  isdigit (PyStr.strip line) = true /\
  int_of_input (PyStr.strip line) = Some n /\ lo <= n <= hi.

(** A line that a prompt answers with a message and [continue]: not
    digits, or a number out of range. *)
Definition rejected (lo hi : Z) (line : string) : Prop :=
  isdigit (PyStr.strip line) = false \/
  exists n, isdigit (PyStr.strip line) = true /\
            int_of_input (PyStr.strip line) = Some n /\ ~ (lo <= n <= hi).

(** An answer to the question which file that is asked again: not a
    number, or a number that is not between 1 and the number of files. *)
Definition bad_choice (files : list string) (line : string) : Prop :=
  match int_of_input (PyStr.strip line) with
  | Some n => ~ (1 <= n <= Z.of_nat (length files))
  | None => True
  end.

End DateInput.

(** The rain hours: the hour keys of the events whose weather text holds
    "rain". *)
Fixpoint rain_hour_set (evs : list VehicleEvent) : gset string :=
  match evs with
  | ev :: rest =>
      if PyStr.contains "rain" (weather_condition ev)
      then rain_hour_set rest ∪ {[ hour ev ]}
      else rain_hour_set rest
  | [] => ∅
  end.

(** A row the row loop gets past: it validates, or it raises what the
    inner handler catches. *)
Definition passes (row : Row) : bool :=
  match parse_row row with
  | Ok _ | Raise ValueError | Raise KeyError => true
  | Raise _ => false
  end.

(** An hour key of the Hanley junction with at least one event and with
    no fewer events than any other hour key. *)
Definition peak_hour (evs : list VehicleEvent) (h : string) : Prop :=
  0 < count_events (at_hanley_hour h) evs /\
  forall h', count_events (at_hanley_hour h') evs <= count_events (at_hanley_hour h) evs.

(** The events of one vehicle type. *)
Definition is_type (t : string) (ev : VehicleEvent) : bool :=
  String.eqb (vehicle_type ev) t.

(** [sum(d.values())] *)
Definition dict_sum (d : pydict string Z) : Z := fold_right Z.add 0 (dict_values d).

(** The exceptions [handle_user_interaction] catches around
    [process_csv_data] (lines 447-452). *)
Definition caught_by_caller (e : exn) : bool :=
  match e with
  | FileNotFoundError | RuntimeError _ => true
  | _ => false
  end.

(** ** The session: [MultiCSVProcessor] *)

Module MultiCSVProcessor.

(** The files of the working directory: the rows a path reads as, [None]
    when the path cannot be opened. *)
Definition Disk : Type := string -> option (list Row).

(** [load_csv_file]: every exception is caught, and the rows read so far
    (none, when the file cannot be opened) are returned. *)
Definition load_csv_file (disk : Disk) (file_path : string) : list Row :=
  match disk file_path with
  | Some rows => rows
  | None => []
  end.

(** [HistogramApp(traffic_data, date)]: [setup_window] tallies the rows
    and draws the bars; what either raises leaves the constructor. The
    axes and the legend are fixed canvas calls and are left out. *)
Definition build_chart (traffic_data : list Row) : result (list HistogramApp.draw) :=
  match HistogramApp.process_data traffic_data with
  | (hc, Ok _) => HistogramApp.draw_histogram hc
  | (_, Raise e) => Raise e
  end.

(** What a session leaves behind, in order: a report written to
    [results.txt], a chart window. *)
Inductive event : Type :=
| Saved (report : AggregationResult)
| Chart (date : string) (cmds : list HistogramApp.draw).

(** How [handle_user_interaction] ends: the [return] of line 462, an
    exception that leaves it, or [input()] at the end of the input at
    line 459, whose [EOFError] leaves it too. *)
Inductive ending : Type :=
| Exit
| Escaped (e : exn)
| EndOfInput.

(** Lines 458-468: [Some false] for [n], [Some true] for [y], [None] when
    the input ends. *)
Fixpoint ask_another (inputs : list string) : option bool * list string :=
  match inputs with
  | [] => (None, [])
  | line :: rest =>
      let another_file := PyStr.lower (PyStr.strip line) in
      if String.eqb another_file "n" then (Some false, rest)
      else if String.eqb another_file "y" then (Some true, rest)
      else ask_another rest
  end.

(** Lines 404-472, with a bound on the number of passes of the outer
    loop; [None] when the bound is reached. Writing [results.txt] and
    opening the window are taken to succeed. *)
Fixpoint handle_user_interaction (fuel : nat) (listing : list string) (disk : Disk)
    (inputs : list string) : option (list event * ending * list string) :=
  match fuel with
  | O => None
  | S fuel' =>
      match DateInput.run listing inputs with
      | None => None
      | Some (None, rest) => handle_user_interaction fuel' listing disk rest
      | Some (Some (file_path, date_input), rest) =>
          let current_data := load_csv_file disk file_path in
          match process_csv_data file_path (disk file_path) with
          | Raise e =>
              if caught_by_caller e
              then handle_user_interaction fuel' listing disk rest
              else Some ([], Escaped e, rest)
          | Ok analysis_report =>
              match build_chart current_data with
              | Raise e => Some ([Saved analysis_report], Escaped e, rest)
              | Ok cmds =>
                  let shown := [Saved analysis_report; Chart date_input cmds] in
                  match ask_another rest with
                  | (None, rest') => Some (shown, EndOfInput, rest')
                  | (Some false, rest') => Some (shown, Exit, rest')
                  | (Some true, rest') =>
                      match handle_user_interaction fuel' listing disk rest' with
                      | Some (evs, e, rest'') => Some ((shown ++ evs)%list, e, rest'')
                      | None => None
                      end
                  end
              end
          end
      end
  end.

End MultiCSVProcessor.

(** * Properties *)

(** ** Text primitives on examples *)

Example strip_ex : PyStr.strip "  N " = "N".
Proof. reflexivity. Qed.

Example int_of_str_padded : PyStr.int_of_str " 08" = Some 8.
Proof. reflexivity. Qed.

Example int_of_str_underscore : PyStr.int_of_str "-1_0" = Some (-10).
Proof. reflexivity. Qed.

Example int_of_str_letters : PyStr.int_of_str "4o" = None.
Proof. reflexivity. Qed.

Example int_of_str_empty : PyStr.int_of_str "" = None.
Proof. reflexivity. Qed.

Example str_of_int_ex :
  PyStr.str_of_int 24 = "24" /\ PyStr.str_of_int (-3) = "-3" /\ PyStr.str_of_int 0 = "0".
Proof. repeat split; reflexivity. Qed.

Example lower_ex : PyStr.lower "TrUe" = "true".
Proof. reflexivity. Qed.

Example contains_ex :
  PyStr.contains "rain" "light rain" = true /\ PyStr.contains "rain" "ra in" = false.
Proof. split; reflexivity. Qed.

(** [str.strip] removes the separators FS .. US, [int] does not skip
    them. *)
Example int_of_str_separator :
  PyStr.strip (String (ascii_of_nat 28) "42") = "42" /\
  PyStr.int_of_str (String (ascii_of_nat 28) "42") = None /\
  PyStr.int_of_str (String (ascii_of_nat 12) "42") = Some 42 /\
  PyStr.int_of_str (String (ascii_of_nat 160) "42") = Some 42.
Proof. repeat split; reflexivity. Qed.

(** The limit on the number of digits that [int] reads. *)
Example int_of_str_over_limit s :
  PyStr.max_str_digits < PyStr.count_digits s -> PyStr.int_of_str s = None.
Proof.
  intros H. unfold PyStr.int_of_str.
  replace (PyStr.max_str_digits <? PyStr.count_digits s) with true by lia.
  reflexivity.
Qed.

Lemma result_bind_ok {A B} (a : A) (k : A -> result B) : (Ok a ≫= k) = k a.
Proof. reflexivity. Qed.

Lemma result_bind_raise {A B} (e : exn) (k : A -> result B) : (Raise e ≫= k) = Raise e.
Proof. reflexivity. Qed.

Module FloatFacts.
Import PyFloat FloatBound.

Lemma digits2_pos_size p : digits2_pos p = Pos.size p.
Proof. induction p; simpl; congruence. Qed.

Lemma Zdigits2_le m k : 0 <= m -> 0 <= k -> m < 2 ^ k -> Zdigits2 m <= k.
Proof.
  intros Hm Hk Hlt. destruct m as [|p|p]; simpl; [lia | | lia].
  rewrite digits2_pos_size.
  destruct (Z_lt_le_dec k (Z.pos (Pos.size p))) as [Hgt|]; [|lia].
  exfalso.
  pose proof (Pos.size_le p) as Hle.
  assert (H2 : 2 ^ Z.pos (Pos.size p) <= 2 * Z.pos p).
  { rewrite <- Pos2Z.inj_pow. change (2 * Z.pos p) with (Z.pos p~0). lia. }
  assert (2 ^ (k + 1) <= 2 ^ Z.pos (Pos.size p)) by (apply Z.pow_le_mono_r; lia).
  rewrite Z.pow_add_r in H by lia. lia.
Qed.

Lemma upper_shr_1 mrs k :
  0 <= shr_m mrs -> upper mrs <= 2 * k ->
  0 <= shr_m (shr_1 mrs) /\ upper (shr_1 mrs) <= k.
Proof.
  destruct mrs as [m r s]. unfold upper. simpl.
  intros Hm Hu.
  destruct m as [|[p|p|]|p]; simpl; try lia;
    destruct r, s; simpl in *; lia.
Qed.

Lemma upper_iter_shr_1 p : forall mrs k,
  0 <= shr_m mrs -> upper mrs <= 2 ^ Z.pos p * k ->
  0 <= shr_m (SpecFloat.iter_pos shr_1 p mrs) /\ upper (SpecFloat.iter_pos shr_1 p mrs) <= k.
Proof.
  induction p as [p IH|p IH|]; intros mrs k Hm Hu; simpl.
  - assert (E : 2 ^ Z.pos p~1 * k = 2 * (2 ^ Z.pos p * (2 ^ Z.pos p * k))).
    { replace (Z.pos p~1) with (Z.pos p + Z.pos p + 1) by lia.
      rewrite !Z.pow_add_r by lia. ring. }
    rewrite E in Hu.
    destruct (upper_shr_1 _ _ Hm Hu) as [H1 H2].
    destruct (IH _ _ H1 H2) as [H3 H4].
    apply IH; assumption.
  - assert (E : 2 ^ Z.pos p~0 * k = 2 ^ Z.pos p * (2 ^ Z.pos p * k)).
    { replace (Z.pos p~0) with (Z.pos p + Z.pos p) by lia.
      rewrite !Z.pow_add_r by lia. ring. }
    rewrite E in Hu.
    destruct (IH _ _ Hm Hu) as [H3 H4].
    apply IH; assumption.
  - apply upper_shr_1; [assumption|]. rewrite Z.pow_1_r in Hu. lia.
Qed.

Lemma upper_of_loc m l :
  upper (shr_record_of_loc m l) = m + match l with loc_Exact => 0 | _ => 1 end.
Proof. destruct l as [|[]]; reflexivity. Qed.

Lemma shr_m_of_loc m l : shr_m (shr_record_of_loc m l) = m.
Proof. destruct l as [|[]]; reflexivity. Qed.

(** [shr_fexp] keeps a bound [n * 2^(-e)] with [n] below 2^53. *)
Lemma shr_fexp_bound n m e l :
  n < 2 ^ 53 -> e <= 0 -> 0 <= m ->
  upper (shr_record_of_loc m l) <= n * 2 ^ (- e) ->
  let '(mrs, e') := shr_fexp prec emax m e l in
  e' <= 0 /\ 0 <= shr_m mrs /\ upper mrs <= n * 2 ^ (- e').
Proof.
  intros Hn He Hm Hu. unfold shr_fexp, shr.
  destruct (fexp prec emax (Zdigits2 m + e) - e) as [|p|p] eqn:Hs.
  - rewrite shr_m_of_loc. auto.
  - assert (Hm' : m <= upper (shr_record_of_loc m l)).
    { rewrite upper_of_loc. destruct l; lia. }
    assert (Hpow : 0 < 2 ^ (- e)) by (apply Z.pow_pos_nonneg; lia).
    assert (Hlt : m < 2 ^ (53 - e)).
    { replace (53 - e) with (53 + - e) by lia. rewrite Z.pow_add_r by lia. nia. }
    pose proof (Zdigits2_le m (53 - e) Hm ltac:(lia) Hlt) as Hd.
    assert (He' : e + Z.pos p <= 0).
    { unfold fexp, emin, prec, emax in Hs. lia. }
    split; [assumption|].
    apply upper_iter_shr_1; [rewrite shr_m_of_loc; assumption|].
    replace (- e) with (Z.pos p + - (e + Z.pos p)) in Hu by lia.
    rewrite Z.pow_add_r in Hu by lia. lia.
  - rewrite shr_m_of_loc. auto.
Qed.

Lemma round_nearest_even_upper mrs :
  0 <= shr_m mrs ->
  0 <= round_nearest_even (shr_m mrs) (loc_of_shr_record mrs) <= upper mrs.
Proof.
  destruct mrs as [m [] []]; unfold upper; simpl; intros Hm;
    try destruct (Z.even m); lia.
Qed.

(** Rounding to binary64 does not cross an integer bound below 2^53. *)
Lemma binary_round_aux_le_int n m e l :
  n < 2 ^ 53 -> e <= 0 -> 0 <= m ->
  m + match l with loc_Exact => 0 | _ => 1 end <= n * 2 ^ (- e) ->
  le_int (binary_round_aux prec emax false m e l) n.
Proof.
  intros Hn He Hm Hu. rewrite <- upper_of_loc in Hu.
  unfold binary_round_aux.
  pose proof (shr_fexp_bound n m e l Hn He Hm Hu) as H1.
  destruct (shr_fexp prec emax m e l) as [mrs1 e1].
  destruct H1 as (He1 & Hm1 & Hu1).
  pose proof (round_nearest_even_upper mrs1 Hm1) as [Hr0 Hr1].
  set (m1 := round_nearest_even (shr_m mrs1) (loc_of_shr_record mrs1)) in *.
  assert (Hu2 : upper (shr_record_of_loc m1 loc_Exact) <= n * 2 ^ (- e1)).
  { rewrite upper_of_loc. lia. }
  pose proof (shr_fexp_bound n m1 e1 loc_Exact Hn He1 Hr0 Hu2) as H2.
  destruct (shr_fexp prec emax m1 e1 loc_Exact) as [mrs2 e2].
  destruct H2 as (He2 & Hm2 & Hu2').
  assert (Hle : shr_m mrs2 <= upper mrs2).
  { unfold upper. destruct (shr_r mrs2 || shr_s mrs2); lia. }
  destruct (shr_m mrs2) as [|p|p] eqn:Hp; simpl; [exact I| |lia].
  replace (e2 <=? emax - prec) with true
    by (symmetry; apply Z.leb_le; unfold emax, prec; lia).
  simpl. split; [assumption|lia].
Qed.

Lemma round_le_int x n :
  le_int x n -> 0 <= n -> exists p, round x = Ok p /\ 0 <= p <= n.
Proof.
  destruct x as [s|s| |[] m e]; simpl; try contradiction.
  - intros _ Hn. exists 0. split; [reflexivity|lia].
  - intros [He Hm] Hn.
    eexists. split; [reflexivity|].
    destruct (0 <=? e) eqn:E.
    + apply Z.leb_le in E. assert (e = 0) by lia. subst e.
      simpl in *. lia.
    + unfold round_half_even_shift.
      assert (Hd : 0 < 2 ^ (- e)) by (apply Z.pow_pos_nonneg; lia).
      pose proof (Z.div_mod (Z.pos m) (2 ^ (- e)) ltac:(lia)) as Hdm.
      pose proof (Z.mod_pos_bound (Z.pos m) (2 ^ (- e)) Hd) as Hr.
      assert (Hq0 : 0 <= Z.pos m / 2 ^ (- e)) by (apply Z.div_pos; lia).
      assert (Hq : Z.pos m / 2 ^ (- e) <= n).
      { apply Z.div_le_upper_bound; lia. }
      destruct (2 * (Z.pos m `mod` 2 ^ (- e)) ?= 2 ^ (- e)) eqn:C;
        [ destruct (Z.even _) | | ]; try lia.
      * apply Z.compare_eq in C. nia.
      * apply Z.compare_gt_iff in C. nia.
Qed.

Lemma new_location_exact b r :
  match new_location b r with loc_Exact => r = 0 | _ => r <> 0 end.
Proof.
  unfold new_location, new_location_even, new_location_odd.
  destruct (Z.even b); destruct (r =? 0) eqn:E;
    try (apply Z.eqb_eq in E; exact E); apply Z.eqb_neq in E; exact E.
Qed.

(** A quotient of counts [a <= n * b] is a binary64 value in [0, n]. *)
Lemma int_truediv_le a b n :
  0 <= a <= n * b -> 0 < b -> n < 2 ^ 53 ->
  exists x, int_truediv a b = Ok x /\ le_int x n.
Proof.
  intros Ha Hb Hn. unfold int_truediv.
  replace (b =? 0) with false by (symmetry; apply Z.eqb_neq; lia).
  replace (a <? 0) with false by (symmetry; apply Z.ltb_ge; lia).
  replace (b <? 0) with false by (symmetry; apply Z.ltb_ge; lia).
  rewrite (Z.abs_eq a), (Z.abs_eq b) by lia. simpl xorb.
  unfold SFdiv_core_binary.
  set (e := Z.min (fexp prec emax (Zdigits2 a + 0 - (Zdigits2 b + 0))) (0 - 0)).
  assert (He : e <= 0) by (subst e; lia).
  set (m := match 0 - 0 - e with
            | 0 => a
            | Z.pos _ => Z.shiftl a (0 - 0 - e)
            | Z.neg _ => 0
            end).
  assert (Hm : m = a * 2 ^ (- e)).
  { subst m. destruct (0 - 0 - e) as [|p|p] eqn:Hs; [| |lia].
    - replace (- e) with 0 by lia. simpl. lia.
    - rewrite Z.shiftl_mul_pow2 by lia. f_equal. f_equal. lia. }
  assert (Hpow : 0 < 2 ^ (- e)) by (apply Z.pow_pos_nonneg; lia).
  pose proof (Z_div_mod m b ltac:(lia)) as Hdiv.
  destruct (Z.div_eucl m b) as [q r]. destruct Hdiv as [Hq Hr].
  pose proof (new_location_exact b r) as Hloc.
  assert (Hq0 : 0 <= q) by nia.
  assert (Hbound : le_int (binary_round_aux prec emax false q e (new_location b r)) n).
  { apply binary_round_aux_le_int; [assumption|assumption|assumption|].
    destruct (new_location b r); nia. }
  destruct (binary_round_aux prec emax false q e (new_location b r)) as [s|s| |s m' e'];
    simpl in Hbound; try contradiction;
    (eexists; split; [reflexivity|exact Hbound]).
Qed.

Lemma of_int_100 : of_int 100 = Ok (S754_finite false 7036874417766400 (-46)).
Proof. reflexivity. Qed.

Lemma mul_int_100_le x :
  le_int x 1 -> exists y, mul_int x 100 = Ok y /\ le_int y 100.
Proof.
  intros Hx. unfold mul_int. rewrite of_int_100. simpl.
  eexists. split; [reflexivity|].
  destruct x as [s|s| |[] m e]; simpl in Hx; try contradiction.
  - exact I.
  - destruct Hx as [He Hm]. unfold SFmul. simpl xorb.
    apply binary_round_aux_le_int; [reflexivity|lia|lia|].
    replace (- (e + -46)) with (- e + 46) by lia.
    rewrite Z.pow_add_r by lia.
    rewrite Pos2Z.inj_mul. change (2 ^ 46) with 70368744177664. lia.
Qed.

(** [round((part / whole) * 100)] with [0 <= part <= whole] and
    [0 < whole] returns, and returns a number between 0 and 100. *)
Lemma percentage_bound part whole :
  0 <= part <= whole -> 0 < whole ->
  exists p, percentage part whole = Ok p /\ 0 <= p <= 100.
Proof.
  intros Hp Hw. unfold percentage.
  destruct (int_truediv_le part whole 1 ltac:(lia) Hw ltac:(reflexivity)) as (x & -> & Hx).
  destruct (mul_int_100_le x Hx) as (y & Hy & Hy100).
  rewrite result_bind_ok, Hy, result_bind_ok.
  apply round_le_int; [assumption|lia].
Qed.

Lemma percentage_zero_whole part : percentage part 0 = Raise ZeroDivisionError.
Proof. reflexivity. Qed.

(** [round(a / b)] with [0 <= a <= n * b], [0 < b] and [n] below 2^53
    returns a number between 0 and [n]. *)
Lemma round_truediv_bound a b n :
  0 <= a <= n * b -> 0 < b -> n < 2 ^ 53 ->
  exists p, (x ← int_truediv a b; round x) = Ok p /\ 0 <= p <= n.
Proof.
  intros Ha Hb Hn.
  destruct (int_truediv_le a b n Ha Hb Hn) as (x & -> & Hx).
  rewrite result_bind_ok. apply round_le_int; [assumption|nia].
Qed.

End FloatFacts.

(** ** The state monad *)

Section StateFacts.
Context {S : Type}.

Lemma run_bind {A B} (c : ST S A) (k : A -> ST S B) st :
  (c ≫= k) st =
  match c st with
  | (st', Ok a) => k a st'
  | (st', Raise e) => (st', Raise e)
  end.
Proof. reflexivity. Qed.

Lemma returns_run (c : ST S unit) st : returns c -> c st = (exec c st, Ok tt).
Proof.
  intros H. specialize (H st). unfold exec.
  destruct (c st) as [st' r]. simpl in *. congruence.
Qed.

Lemma run_seq {B} (c : ST S unit) (k : ST S B) st :
  returns c -> (c ;; k) st = k (exec c st).
Proof. intros H. rewrite run_bind, (returns_run c st H). reflexivity. Qed.

Lemma exec_seq (c k : ST S unit) st :
  returns c -> exec (c ;; k) st = exec k (exec c st).
Proof. intros H. unfold exec at 1. rewrite run_seq by assumption. reflexivity. Qed.

Lemma returns_seq (c k : ST S unit) : returns c -> returns k -> returns (c ;; k).
Proof. intros Hc Hk st. rewrite run_seq by assumption. apply Hk. Qed.

Lemma returns_mret : returns (mret tt : ST S unit).
Proof. intros st. reflexivity. Qed.

Lemma returns_modify (f : S -> S) : returns (modify f).
Proof. intros st. reflexivity. Qed.

Lemma returns_when b (c : ST S unit) : returns c -> returns (when b c).
Proof. intros H. destruct b; [exact H|apply returns_mret]. Qed.

Lemma returns_if (b : bool) (c1 c2 : ST S unit) :
  returns c1 -> returns c2 -> returns (if b then c1 else c2).
Proof. destruct b; auto. Qed.

Lemma exec_when b (c : ST S unit) st :
  exec (when b c) st = if b then exec c st else st.
Proof. destruct b; reflexivity. Qed.

Lemma exec_if (b : bool) (c1 c2 : ST S unit) st :
  exec (if b then c1 else c2) st = if b then exec c1 st else exec c2 st.
Proof. destruct b; reflexivity. Qed.

Lemma exec_mret st : exec (mret tt : ST S unit) st = st.
Proof. reflexivity. Qed.
End StateFacts.

Create HintDb returns.
#[export] Hint Resolve returns_seq returns_mret returns_modify returns_when returns_if : returns.

(** ** One event *)

Lemma returns_incr k : returns (incr k).
Proof. apply returns_modify. Qed.

Lemma returns_add_rain_hour h : returns (add_rain_hour h).
Proof. apply returns_modify. Qed.

Lemma returns_add_bicycle_hour h : returns (add_bicycle_hour h).
Proof. apply returns_modify. Qed.

Lemma returns_bump_hanley h : returns (bump_hanley h).
Proof. apply returns_modify. Qed.

#[export] Hint Resolve returns_incr returns_add_rain_hour returns_add_bicycle_hour returns_bump_hanley : returns.

(** The updates of a parsed row never raise. *)
Lemma returns_update ev : returns (update ev).
Proof. unfold update. auto 20 with returns. Qed.

#[export] Hint Resolve returns_update : returns.

Lemma tget_tset k k' v t :
  tget k (tset k' v t) = if decide (k = k') then v else tget k t.
Proof. destruct t, k, k'; reflexivity. Qed.

Lemma elm_not_hanley j :
  String.eqb j "Elm Avenue/Rabbit Road" = true ->
  String.eqb j "Hanley Highway/Westway" = false.
Proof. intros H. apply String.eqb_eq in H. subst j. reflexivity. Qed.

Section UpdateFacts.
Variable st : Acc.

Lemma totals_incr k :
  totals (exec (incr k) st) = tset k (tget k (totals st) + 1) (totals st).
Proof. reflexivity. Qed.

Lemma tget_when_incr k k' b :
  tget k (totals (exec (when b (incr k')) st)) =
  tget k (totals st) + (if b && bool_decide (k = k') then 1 else 0).
Proof.
  rewrite exec_when. destruct b; simpl; [|lia].
  rewrite tget_tset. case_decide; case_bool_decide; subst; congruence || lia.
Qed.

Lemma tget_incr k k' :
  tget k (totals (exec (incr k') st)) =
  tget k (totals st) + (if bool_decide (k = k') then 1 else 0).
Proof. apply (tget_when_incr k k' true). Qed.

Lemma totals_when_rain b h : totals (exec (when b (add_rain_hour h)) st) = totals st.
Proof. destruct b; reflexivity. Qed.

Lemma totals_bump_hanley h : totals (exec (bump_hanley h) st) = totals st.
Proof. reflexivity. Qed.

Lemma tget_when_bicycle k b h :
  tget k (totals (exec (when b (incr Kbicycle ;; add_bicycle_hour h)) st)) =
  tget k (totals st) + (if b && bool_decide (k = Kbicycle) then 1 else 0).
Proof.
  rewrite exec_when. destruct b; [|simpl; lia].
  rewrite exec_seq by auto with returns.
  change (totals (exec (add_bicycle_hour h) (exec (incr Kbicycle) st)))
    with (totals (exec (incr Kbicycle) st)).
  apply tget_incr.
Qed.
End UpdateFacts.

(** Each total moves by one on the events it counts and stays put on the
    others. *)
Lemma update_totals k ev st :
  k <> Krain ->
  tget k (totals (exec (update ev) st)) =
  tget k (totals st) + (if counts_as k ev then 1 else 0).
Proof.
  intros Hk. unfold update.
  rewrite !exec_seq by auto 20 with returns.
  rewrite tget_when_bicycle.
  pose proof (elm_not_hanley (junction_name ev)) as Hj.
  unfold counts_as.
  destruct (String.eqb (junction_name ev) "Elm Avenue/Rabbit Road");
    [rewrite Hj by reflexivity|
     destruct (String.eqb (junction_name ev) "Hanley Highway/Westway")];
    rewrite ?exec_seq by auto 20 with returns;
    rewrite ?exec_mret, ?totals_bump_hanley, ?tget_when_incr, ?tget_incr,
      ?totals_when_rain, ?tget_when_incr, ?tget_incr;
    destruct k; try congruence; simpl;
    rewrite ?andb_false_r, ?andb_true_r; simpl;
    repeat match goal with |- context [if ?b then _ else _] => destruct b end;
    simpl; lia.
Qed.

Section FrameFacts.
Variable st : Acc.

Lemma bicycle_hours_when_incr b k :
  bicycle_hours (exec (when b (incr k)) st) = bicycle_hours st.
Proof. destruct b; reflexivity. Qed.

Lemma bicycle_hours_incr k : bicycle_hours (exec (incr k) st) = bicycle_hours st.
Proof. reflexivity. Qed.

Lemma bicycle_hours_when_rain b h :
  bicycle_hours (exec (when b (add_rain_hour h)) st) = bicycle_hours st.
Proof. destruct b; reflexivity. Qed.

Lemma bicycle_hours_bump_hanley h :
  bicycle_hours (exec (bump_hanley h) st) = bicycle_hours st.
Proof. reflexivity. Qed.

Lemma bicycle_hours_when_bicycle b h :
  bicycle_hours (exec (when b (incr Kbicycle ;; add_bicycle_hour h)) st) =
  if b then {[ h ]} ∪ bicycle_hours st else bicycle_hours st.
Proof. destruct b; reflexivity. Qed.

Lemma hanley_when_incr b k :
  hanley_counts_per_hour (exec (when b (incr k)) st) = hanley_counts_per_hour st.
Proof. destruct b; reflexivity. Qed.

Lemma hanley_incr k :
  hanley_counts_per_hour (exec (incr k) st) = hanley_counts_per_hour st.
Proof. reflexivity. Qed.

Lemma hanley_when_rain b h :
  hanley_counts_per_hour (exec (when b (add_rain_hour h)) st) = hanley_counts_per_hour st.
Proof. destruct b; reflexivity. Qed.

Lemma hanley_when_bicycle b h :
  hanley_counts_per_hour (exec (when b (incr Kbicycle ;; add_bicycle_hour h)) st) =
  hanley_counts_per_hour st.
Proof. destruct b; reflexivity. Qed.

Lemma hanley_bump_hanley h :
  hanley_counts_per_hour (exec (bump_hanley h) st) =
  dict_set h (dict_get h 0 (hanley_counts_per_hour st) + 1) (hanley_counts_per_hour st).
Proof. reflexivity. Qed.
End FrameFacts.

(** The set of bicycle hours grows by the hour key of a bicycle event. *)
Lemma update_bicycle_hours ev st :
  bicycle_hours (exec (update ev) st) =
  if String.eqb (vehicle_type ev) "Bicycle"
  then {[ hour ev ]} ∪ bicycle_hours st
  else bicycle_hours st.
Proof.
  unfold update.
  rewrite !exec_seq by auto 20 with returns.
  rewrite bicycle_hours_when_bicycle.
  assert (E : forall s, bicycle_hours
    (exec (if String.eqb (junction_name ev) "Elm Avenue/Rabbit Road"
           then incr Kelm;;
                when (String.eqb (travel_out ev) "N" && String.eqb (vehicle_type ev) "Buss")
                  (incr Kbuses_north);;
                when (String.eqb (vehicle_type ev) "Scooter") (incr Kscooters_elm)
           else if String.eqb (junction_name ev) "Hanley Highway/Westway"
                then incr Khanley;; bump_hanley (hour ev)
                else mret tt) s) = bicycle_hours s).
  { intros s.
    destruct (String.eqb (junction_name ev) "Elm Avenue/Rabbit Road");
      [|destruct (String.eqb (junction_name ev) "Hanley Highway/Westway")];
      rewrite ?exec_seq by auto 20 with returns;
      rewrite ?exec_mret, ?bicycle_hours_bump_hanley, ?bicycle_hours_when_incr,
        ?bicycle_hours_incr; reflexivity. }
  rewrite E.
  rewrite bicycle_hours_when_rain, !bicycle_hours_when_incr, bicycle_hours_incr.
  reflexivity.
Qed.

(** The Hanley counter moves only on an event at the Hanley junction, and
    then by one at the event's hour key. *)
Lemma update_hanley ev st :
  hanley_counts_per_hour (exec (update ev) st) =
  if String.eqb (junction_name ev) "Hanley Highway/Westway"
  then dict_set (hour ev) (dict_get (hour ev) 0 (hanley_counts_per_hour st) + 1)
         (hanley_counts_per_hour st)
  else hanley_counts_per_hour st.
Proof.
  unfold update.
  rewrite !exec_seq by auto 20 with returns.
  rewrite hanley_when_bicycle.
  pose proof (elm_not_hanley (junction_name ev)) as Hj.
  destruct (String.eqb (junction_name ev) "Elm Avenue/Rabbit Road");
    [rewrite Hj by reflexivity|
     destruct (String.eqb (junction_name ev) "Hanley Highway/Westway")];
    rewrite ?exec_seq by auto 20 with returns;
    rewrite ?exec_mret, ?hanley_bump_hanley, ?hanley_when_incr, ?hanley_incr,
      ?hanley_when_rain, ?hanley_when_incr, ?hanley_incr; reflexivity.
Qed.

(** ** The pass over validated events *)

Lemma returns_for_events evs : returns (for_events evs).
Proof. induction evs; simpl; auto with returns. Qed.

#[export] Hint Resolve returns_for_events : returns.

Lemma for_events_totals k evs : forall st,
  k <> Krain ->
  tget k (totals (exec (for_events evs) st)) =
  tget k (totals st) + count_events (counts_as k) evs.
Proof.
  induction evs as [|ev evs IH]; intros st Hk; simpl.
  - rewrite exec_mret. lia.
  - rewrite exec_seq by auto with returns.
    rewrite IH, update_totals by assumption. lia.
Qed.

Lemma for_events_bicycle_hours evs : forall st,
  bicycle_hours (exec (for_events evs) st) = bicycle_hours st ∪ bicycle_hour_set evs.
Proof.
  induction evs as [|ev evs IH]; intros st; simpl.
  - rewrite exec_mret. set_solver.
  - rewrite exec_seq by auto with returns.
    rewrite IH, update_bicycle_hours.
    destruct (String.eqb (vehicle_type ev) "Bicycle"); set_solver.
Qed.

Lemma count_events_nonneg p evs : 0 <= count_events p evs.
Proof. induction evs as [|ev evs IH]; simpl; [lia|destruct (p ev); lia]. Qed.

Lemma count_events_le_length p evs : count_events p evs <= Z.of_nat (length evs).
Proof.
  induction evs as [|ev evs IH]; simpl length; simpl count_events; [lia|].
  destruct (p ev); lia.
Qed.

Lemma count_events_all evs : count_events (counts_as Kvehicles) evs = Z.of_nat (length evs).
Proof. induction evs as [|ev evs IH]; simpl length; simpl count_events; lia. Qed.

(** ** The pass over raw rows *)

Lemma row_body_run row st :
  row_body row st =
  match parse_row row with
  | Ok ev => update ev st
  | Raise e => (st, Raise e)
  end.
Proof. unfold row_body. rewrite run_bind. unfold lift. destruct (parse_row row); reflexivity. Qed.

Lemma try_row_run row st :
  try_row row st =
  match parse_row row with
  | Ok ev => (exec (update ev) st, Ok tt)
  | Raise ValueError | Raise KeyError => (st, Ok tt)
  | Raise e => (st, Raise e)
  end.
Proof.
  unfold try_row. rewrite row_body_run.
  destruct (parse_row row) as [ev|e].
  - rewrite (returns_run (update ev) st (returns_update ev)). reflexivity.
  - destruct e; reflexivity.
Qed.

(** When the loop runs to its end, it has done what the pass over the
    validated events does. *)
Lemma for_rows_ok rows : forall st st',
  for_rows rows st = (st', Ok tt) ->
  st' = exec (for_events (parsed_events rows)) st.
Proof.
  induction rows as [|row rows IH]; intros st st' H; simpl in H.
  - inversion H. reflexivity.
  - rewrite run_bind, try_row_run in H.
    unfold parsed_events. simpl. fold (parsed_events rows). unfold parsed.
    destruct (parse_row row) as [ev|e].
    + simpl. rewrite exec_seq by auto with returns. apply IH. exact H.
    + destruct e; try discriminate H; apply IH; exact H.
Qed.

Lemma row_get_text row k d :
  all_text row -> exists s, row_get row k (VStr d) = VStr s.
Proof.
  intros H. unfold row_get. specialize (H k).
  destruct (row !! k) as [[s|]|]; [eexists; reflexivity|congruence|eexists; reflexivity].
Qed.

Lemma py_int_row_get_text row k :
  all_text row ->
  (exists n, py_int (row_get row k (VInt 0)) = Ok n) \/
  py_int (row_get row k (VInt 0)) = Raise ValueError.
Proof.
  intros H. unfold row_get. specialize (H k).
  destruct (row !! k) as [[s|]|]; simpl; [|congruence|left; eexists; reflexivity].
  destruct (PyStr.int_of_str s); [left; eexists; reflexivity|right; reflexivity].
Qed.

(** On a row whose cells are all text, the only failure is the
    [ValueError] of [int]. *)
Lemma parse_row_all_text row :
  all_text row ->
  (exists ev, parse_row row = Ok ev) \/ parse_row row = Raise ValueError.
Proof.
  intros H. unfold parse_row.
  destruct (row_get_text row "JunctionName" "" H) as [s1 ->].
  destruct (row_get_text row "travel_Direction_in" "" H) as [s2 ->].
  destruct (row_get_text row "travel_Direction_out" "" H) as [s3 ->].
  destruct (row_get_text row "VehicleType" "" H) as [s4 ->].
  destruct (row_get_text row "elctricHybrid" "" H) as [s5 ->].
  destruct (row_get_text row "Weather_Conditions" "" H) as [s6 ->].
  destruct (row_get_text row "timeOfDay" "00:00" H) as [s7 ->].
  simpl str_method. rewrite !result_bind_ok.
  destruct (py_int_row_get_text row "VehicleSpeed" H) as [[n1 ->]| ->]; [|right; reflexivity].
  rewrite !result_bind_ok.
  destruct (py_int_row_get_text row "JunctionSpeedLimit" H) as [[n2 ->]| ->]; [|right; reflexivity].
  rewrite !result_bind_ok. left. eexists. reflexivity.
Qed.

(** On rows whose cells are all text, the loop never raises. *)
Lemma for_rows_all_text rows : forall st,
  Forall all_text rows ->
  for_rows rows st = (exec (for_events (parsed_events rows)) st, Ok tt).
Proof.
  induction rows as [|row rows IH]; intros st H; simpl.
  - reflexivity.
  - inversion H as [|? ? Hrow Hrows]; subst.
    rewrite run_bind, try_row_run.
    unfold parsed_events. simpl. fold (parsed_events rows). unfold parsed.
    destruct (parse_row_all_text row Hrow) as [[ev ->]| ->].
    + simpl. rewrite exec_seq by auto with returns. apply IH. assumption.
    + apply IH. assumption.
Qed.

(** ** After the pass *)

Lemma finalize_run f st :
  finalize f st =
  (exec store_rain_hours st, summarize f (exec store_rain_hours st)).
Proof. reflexivity. Qed.

Lemma store_rain_hours_tget k st :
  k <> Krain ->
  tget k (totals (exec store_rain_hours st)) = tget k (totals st).
Proof. intros Hk. simpl. rewrite tget_tset. case_decide; congruence. Qed.

Lemma store_rain_hours_bicycle_hours st :
  bicycle_hours (exec store_rain_hours st) = bicycle_hours st.
Proof. reflexivity. Qed.

Lemma store_rain_hours_hanley st :
  hanley_counts_per_hour (exec store_rain_hours st) = hanley_counts_per_hour st.
Proof. reflexivity. Qed.

Lemma aggregate_events_run f evs :
  aggregate_events f evs = (final_acc evs, summarize f (final_acc evs)).
Proof.
  unfold aggregate_events. rewrite run_seq by auto with returns.
  apply finalize_run.
Qed.

(** A returned result is the summary of the validated events. *)
Lemma process_csv_data_ok f rows r :
  process_csv_data f (Some rows) = Ok r ->
  summarize f (final_acc (parsed_events rows)) = Ok r.
Proof.
  unfold process_csv_data, aggregate. rewrite run_bind.
  destruct (for_rows rows init_acc) as [st [[]|e]] eqn:E; [|discriminate].
  apply for_rows_ok in E. subst st. rewrite finalize_run.
  unfold final_acc. destruct (summarize _ _); congruence.
Qed.

Lemma process_csv_data_all_text f rows :
  Forall all_text rows ->
  process_csv_data f (Some rows) =
  match summarize f (final_acc (parsed_events rows)) with
  | Ok r => Ok r
  | Raise e => Raise (RuntimeError e)
  end.
Proof.
  intros H. unfold process_csv_data, aggregate.
  rewrite run_bind, (for_rows_all_text rows init_acc H), finalize_run.
  reflexivity.
Qed.

Lemma final_acc_tget k evs :
  k <> Krain ->
  tget k (totals (final_acc evs)) = count_events (counts_as k) evs.
Proof.
  intros Hk. unfold final_acc.
  rewrite store_rain_hours_tget, for_events_totals by assumption.
  destruct k; reflexivity || congruence.
Qed.

Lemma final_acc_bicycle_hours evs :
  bicycle_hours (final_acc evs) = bicycle_hour_set evs.
Proof.
  unfold final_acc.
  rewrite store_rain_hours_bicycle_hours, for_events_bicycle_hours.
  simpl. set_solver.
Qed.

Lemma summarize_ok f st r :
  summarize f st = Ok r ->
  compute_avg_bikes_per_hour (totals st) (bicycle_hours st) = Ok (avg_bikes_per_hour r) /\
  compute_percentage_scooters_elm (totals st) = Ok (percentage_scooters_elm r) /\
  compute_percentage_trucks (totals st) = Ok (percentage_trucks r) /\
  map_result peak_hour_range (compute_peak_hours (hanley_counts_per_hour st))
    = Ok (peak_hour_ranges r) /\
  out_totals r = totals st /\
  out_hanley_counts_per_hour r = hanley_counts_per_hour st /\
  out_file r = f.
Proof.
  unfold summarize.
  destruct (compute_avg_bikes_per_hour _ _) as [avg|]; [|discriminate].
  destruct (compute_percentage_scooters_elm _) as [sc|]; [|discriminate].
  destruct (compute_percentage_trucks _) as [tr|]; [|discriminate].
  destruct (map_result _ _) as [rg|]; [|discriminate].
  rewrite !result_bind_ok. intros H. inversion H. subst r. simpl. repeat split.
Qed.

(** ** Rows made of text *)

Lemma all_text_empty : all_text ∅.
Proof. intros k. rewrite lookup_empty. discriminate. Qed.

Lemma all_text_insert k s row : all_text row -> all_text (<[k := Text s]> row).
Proof.
  intros H k'. rewrite lookup_insert. case_decide; [discriminate|apply H].
Qed.

Lemma all_text_delete k row : all_text row -> all_text (delete k row).
Proof.
  intros H k'. rewrite lookup_delete. case_decide; [discriminate|apply H].
Qed.

Lemma all_text_mk_row fields : all_text (mk_row fields).
Proof.
  unfold mk_row. induction fields as [|[k s] fields IH]; simpl.
  - apply all_text_empty.
  - apply all_text_insert. exact IH.
Qed.

#[export] Hint Resolve all_text_empty all_text_insert all_text_delete all_text_mk_row : returns.

(** What a parsed row gave for each field. *)
Lemma parse_row_ok row ev :
  parse_row row = Ok ev ->
  str_method PyStr.strip (row_get row "JunctionName" (VStr "")) = Ok (junction_name ev) /\
  str_method PyStr.strip (row_get row "travel_Direction_in" (VStr "")) = Ok (travel_in ev) /\
  str_method PyStr.strip (row_get row "travel_Direction_out" (VStr "")) = Ok (travel_out ev) /\
  py_int (row_get row "VehicleSpeed" (VInt 0)) = Ok (vehicle_speed ev) /\
  str_method PyStr.strip (row_get row "VehicleType" (VStr "")) = Ok (vehicle_type ev) /\
  str_method PyStr.lower (row_get row "Weather_Conditions" (VStr "")) = Ok (weather_condition ev) /\
  py_int (row_get row "JunctionSpeedLimit" (VInt 0)) = Ok (speed_limit ev) /\
  str_method PyStr.split_colon_head (row_get row "timeOfDay" (VStr "00:00")) = Ok (hour ev).
Proof.
  unfold parse_row.
  destruct (str_method PyStr.strip (row_get row "JunctionName" _)); [|discriminate].
  destruct (str_method PyStr.strip (row_get row "travel_Direction_in" _)); [|discriminate].
  destruct (str_method PyStr.strip (row_get row "travel_Direction_out" _)); [|discriminate].
  destruct (py_int (row_get row "VehicleSpeed" _)); [|discriminate].
  destruct (str_method PyStr.strip (row_get row "VehicleType" _)); [|discriminate].
  destruct (str_method _ (row_get row "elctricHybrid" _)); [|discriminate].
  destruct (str_method PyStr.lower (row_get row "Weather_Conditions" _)); [|discriminate].
  destruct (py_int (row_get row "JunctionSpeedLimit" _)); [|discriminate].
  destruct (str_method _ (row_get row "timeOfDay" _)); [|discriminate].
  rewrite !result_bind_ok. intros H. inversion H. simpl. repeat split.
Qed.

(** A [str] method that returned was called on the text of the cell, or
    on the default of an absent column. *)
Lemma str_method_row_get {A} (f : string -> A) row k d a :
  str_method f (row_get row k (VStr d)) = Ok a -> a = f (cell_text row k d).
Proof.
  unfold row_get, cell_text.
  destruct (row !! k) as [[s|]|]; simpl; congruence.
Qed.

Lemma parsed_events_filter rows :
  parsed_events (filter (fun row => parses row = true) rows) = parsed_events rows.
Proof.
  induction rows as [|row rows IH]; [reflexivity|].
  assert (Hcons : parsed_events (row :: rows) =
                  match parsed row with
                  | Some ev => ev :: parsed_events rows
                  | None => parsed_events rows
                  end) by reflexivity.
  rewrite filter_cons, Hcons.
  case_decide as Hp; unfold parses in Hp; unfold parsed;
    destruct (parse_row row) as [ev|e] eqn:E; try discriminate; try congruence.
  assert (Hcons' : forall l, parsed_events (row :: l) = ev :: parsed_events l).
  { intros l. unfold parsed_events. simpl. unfold parsed. rewrite E. reflexivity. }
  rewrite Hcons', IH. reflexivity.
Qed.

Lemma for_rows_parsing rows : forall st,
  Forall (fun row => parses row = true) rows ->
  for_rows rows st = (exec (for_events (parsed_events rows)) st, Ok tt).
Proof.
  induction rows as [|row rows IH]; intros st H; simpl.
  - reflexivity.
  - inversion H as [|? ? Hrow Hrows]; subst.
    rewrite run_bind, try_row_run.
    unfold parsed_events. simpl. fold (parsed_events rows).
    unfold parses in Hrow. unfold parsed.
    destruct (parse_row row) as [ev|]; [|discriminate].
    simpl. rewrite exec_seq by auto with returns. apply IH. assumption.
Qed.

(** ** Dictionaries *)

Section DictFacts.
Context {K V : Type} `{EqDecision K}.
Implicit Types (d : pydict K V) (k : K) (v : V).

Lemma dict_lookup_set k k' v d :
  dict_lookup k (dict_set k' v d) = if decide (k = k') then Some v else dict_lookup k d.
Proof.
  induction d as [|[k0 v0] d IH]; simpl.
  - destruct (decide (k = k')); reflexivity.
  - destruct (decide (k' = k0)) as [->|Hne]; simpl.
    + destruct (decide (k = k0)); reflexivity.
    + destruct (decide (k = k0)) as [->|Hne'].
      * destruct (decide (k0 = k')); [congruence|reflexivity].
      * exact IH.
Qed.

Lemma dict_lookup_Some_keys k v d : dict_lookup k d = Some v -> k ∈ dict_keys d.
Proof.
  induction d as [|[k0 v0] d IH]; simpl; [discriminate|].
  destruct (decide (k = k0)) as [->|]; intros H.
  - apply elem_of_cons. left. reflexivity.
  - apply elem_of_cons. right. apply IH, H.
Qed.

Lemma dict_lookup_None_keys k d : dict_lookup k d = None -> k ∉ dict_keys d.
Proof.
  induction d as [|[k0 v0] d IH]; simpl; intros H Hin.
  - apply elem_of_nil in Hin. exact Hin.
  - destruct (decide (k = k0)) as [->|Hne]; [discriminate|].
    apply elem_of_cons in Hin. destruct Hin as [Heq|Hin]; [congruence|].
    exact (IH H Hin).
Qed.

(** Setting a present key keeps the keys and their order; a new key
    goes last. *)
Lemma dict_keys_set k v d :
  dict_keys (dict_set k v d) =
  match dict_lookup k d with
  | Some _ => dict_keys d
  | None => (dict_keys d ++ [k])%list
  end.
Proof.
  induction d as [|[k0 v0] d IH]; simpl; [reflexivity|].
  destruct (decide (k = k0)) as [->|Hne]; simpl; [reflexivity|].
  unfold dict_keys in *. rewrite IH. destruct (dict_lookup k d); reflexivity.
Qed.

Lemma dict_keys_set_NoDup k v d :
  NoDup (dict_keys d) -> NoDup (dict_keys (dict_set k v d)).
Proof.
  intros H. rewrite dict_keys_set.
  destruct (dict_lookup k d) eqn:E; [exact H|].
  apply NoDup_app. split; [exact H|]. split.
  - intros x Hx Hx'. apply list_elem_of_singleton in Hx'. subst x.
    exact (dict_lookup_None_keys k d E Hx).
  - apply NoDup_singleton.
Qed.

Lemma dict_lookup_elem_of k v d : dict_lookup k d = Some v -> (k, v) ∈ d.
Proof.
  induction d as [|[k0 v0] d IH]; simpl; [discriminate|].
  destruct (decide (k = k0)) as [->|]; intros H.
  - inversion H. apply elem_of_cons. left. reflexivity.
  - apply elem_of_cons. right. apply IH, H.
Qed.
End DictFacts.

Lemma fold_left_max_ge l : forall v, v <= fold_left Z.max l v.
Proof.
  induction l as [|x l IH]; intros v; simpl; [lia|].
  specialize (IH (Z.max v x)). lia.
Qed.

Lemma fold_left_max_upper l : forall v x, x ∈ l -> x <= fold_left Z.max l v.
Proof.
  induction l as [|y l IH]; intros v x Hin; simpl.
  - apply elem_of_nil in Hin. contradiction.
  - apply elem_of_cons in Hin. destruct Hin as [->|Hin].
    + pose proof (fold_left_max_ge l (Z.max v y)). lia.
    + apply IH, Hin.
Qed.

Lemma fold_left_max_in l : forall v, fold_left Z.max l v = v \/ fold_left Z.max l v ∈ l.
Proof.
  induction l as [|y l IH]; intros v; simpl; [left; reflexivity|].
  destruct (IH (Z.max v y)) as [E|Hin].
  - rewrite E. destruct (Z.max_spec v y) as [[_ ->]|[_ ->]].
    + right. apply elem_of_cons. left. reflexivity.
    + left. reflexivity.
  - right. apply elem_of_cons. right. exact Hin.
Qed.

(** [max_default] is an upper bound of the values, and one of them. *)
Lemma max_default_upper values d x : x ∈ values -> x <= max_default values d.
Proof.
  destruct values as [|v rest]; intros Hin; simpl.
  - apply elem_of_nil in Hin. contradiction.
  - apply elem_of_cons in Hin. destruct Hin as [->|Hin].
    + apply fold_left_max_ge.
    + apply fold_left_max_upper, Hin.
Qed.

Lemma max_default_in values d : values <> [] -> max_default values d ∈ values.
Proof.
  destruct values as [|v rest]; intros Hne; [congruence|]. simpl.
  destruct (fold_left_max_in rest v) as [->|Hin].
  - apply elem_of_cons. left. reflexivity.
  - apply elem_of_cons. right. exact Hin.
Qed.

Lemma map_result_Forall2 {A B} (f : A -> result B) l : forall l',
  map_result f l = Ok l' -> Forall2 (fun a b => f a = Ok b) l l'.
Proof.
  induction l as [|a l IH]; intros l' H; simpl in H.
  - inversion H. constructor.
  - destruct (f a) as [b|] eqn:Ea; [|discriminate].
    rewrite result_bind_ok in H.
    destruct (map_result f l) as [bs|]; [|discriminate].
    rewrite result_bind_ok in H. inversion H. subst l'.
    constructor; [exact Ea|apply IH; reflexivity].
Qed.

(** ** The Hanley counter *)

Lemma for_events_hanley_NoDup evs : forall st,
  NoDup (dict_keys (hanley_counts_per_hour st)) ->
  NoDup (dict_keys (hanley_counts_per_hour (exec (for_events evs) st))).
Proof.
  induction evs as [|ev evs IH]; intros st H; simpl.
  - rewrite exec_mret. exact H.
  - rewrite exec_seq by auto with returns. apply IH.
    rewrite update_hanley.
    destruct (String.eqb (junction_name ev) "Hanley Highway/Westway"); [|exact H].
    apply dict_keys_set_NoDup, H.
Qed.

(** The counter of an hour key is the number of Hanley events with that
    hour key. *)
Lemma for_events_hanley_get h evs : forall st,
  dict_get h 0 (hanley_counts_per_hour (exec (for_events evs) st)) =
  dict_get h 0 (hanley_counts_per_hour st) + count_events (at_hanley_hour h) evs.
Proof.
  induction evs as [|ev evs IH]; intros st; simpl.
  - rewrite exec_mret. lia.
  - rewrite exec_seq by auto with returns. rewrite IH, update_hanley.
    unfold at_hanley_hour.
    destruct (String.eqb (junction_name ev) "Hanley Highway/Westway"); simpl; [|lia].
    unfold dict_get at 1. rewrite dict_lookup_set.
    destruct (decide (h = hour ev)) as [->|Hne].
    + rewrite String.eqb_refl. unfold dict_get. lia.
    + replace (String.eqb (hour ev) h) with false
        by (symmetry; apply String.eqb_neq; congruence).
      unfold dict_get. lia.
Qed.

Lemma final_acc_hanley evs :
  hanley_counts_per_hour (final_acc evs) =
  hanley_counts_per_hour (exec (for_events evs) init_acc).
Proof. reflexivity. Qed.

(** ** The chart tally *)

Module TallyFacts.
Import HistogramApp.

(** What one row does to the tally. *)
Lemma tally_row_run row hc :
  tally_row row hc =
  match row !! "timeOfDay" with
  | None => (hc, Raise KeyError)
  | Some Missing => (hc, Raise AttributeError)
  | Some (Text t) =>
      match PyStr.int_of_str (PyStr.split_colon_head t) with
      | None => (hc, Ok tt)
      | Some h =>
          match row !! "JunctionName" with
          | None => (hc, Raise KeyError)
          | Some c =>
              match dict_lookup h hc with
              | None => (hc, Raise KeyError)
              | Some counts =>
                  match c with
                  | Text j =>
                      match dict_lookup j counts with
                      | Some n => (dict_set h (dict_set j (n + 1) counts) hc, Ok tt)
                      | None => (hc, Ok tt)
                      end
                  | Missing => (hc, Ok tt)
                  end
              end
          end
      end
  end.
Proof.
  unfold tally_row, tally_body, incr_cell, row_item, lift, get_state, when,
    junction_in, dict_item, modify, mbind, mret, ST_bind, ST_ret.
  destruct (row !! "timeOfDay") as [[t|]|]; simpl; try reflexivity.
  destruct (PyStr.int_of_str (PyStr.split_colon_head t)) as [h|]; simpl;
    [|reflexivity].
  destruct (row !! "JunctionName") as [c|]; simpl; [|reflexivity].
  destruct (dict_lookup h hc) as [counts|] eqn:Eh; simpl; [|reflexivity].
  destruct c as [j|]; simpl; [|reflexivity].
  destruct (dict_lookup j counts) as [n|] eqn:Ej.
  - rewrite bool_decide_eq_true_2 by eauto. rewrite Eh, Ej. reflexivity.
  - rewrite bool_decide_eq_false_2 by (intros [? ?]; discriminate). reflexivity.
Qed.

Lemma dict_set_Forall {V} (P : Z * V -> Prop) h v (d : pydict Z V) :
  Forall P d -> P (h, v) -> Forall P (dict_set h v d).
Proof.
  induction d as [|[h0 v0] d IH]; simpl; intros Hd Hv.
  - constructor; [exact Hv|constructor].
  - inversion Hd as [|? ? H0 Hd']; subst.
    destruct (decide (h = h0)) as [->|].
    + constructor; assumption.
    + constructor; [assumption|apply IH; assumption].
Qed.

Lemma dict_lookup_Forall {V} (P : Z * V -> Prop) h v (d : pydict Z V) :
  Forall P d -> dict_lookup h d = Some v -> P (h, v).
Proof.
  intros Hd Hl. apply dict_lookup_elem_of in Hl.
  rewrite Forall_forall in Hd. apply Hd, Hl.
Qed.

Lemma tally_cell_set hc h counts h' j' :
  tally_cell (dict_set h counts hc) h' j' =
  if decide (h' = h) then dict_lookup j' counts else tally_cell hc h' j'.
Proof.
  unfold tally_cell. rewrite dict_lookup_set.
  destruct (decide (h' = h)); reflexivity.
Qed.

(** One row keeps the keys of the tally, and when it does not raise it
    adds one to the cell it falls in and leaves the other cells. *)
Lemma tally_row_step row hc :
  tally_shape hc ->
  tally_shape (fst (tally_row row hc)) /\
  (snd (tally_row row hc) = Ok tt ->
   forall h j,
     tally_cell (fst (tally_row row hc)) h j =
     (fun n => n + (if in_cell h j row then 1 else 0)) <$> tally_cell hc h j).
Proof.
  intros [Hkeys Hinner]. rewrite tally_row_run. unfold in_cell.
  assert (Hsame : forall (b : Z -> string -> bool),
            (forall h j, is_Some (tally_cell hc h j) -> b h j = false) ->
            forall h j, tally_cell hc h j =
              (fun n => n + (if b h j then 1 else 0)) <$> tally_cell hc h j).
  { intros b Hb h j. specialize (Hb h j).
    destruct (tally_cell hc h j) as [n|]; [|reflexivity].
    rewrite Hb by eauto. simpl. f_equal. lia. }
  destruct (row !! "timeOfDay") as [[t|]|];
    try (split; [split; assumption|discriminate]).
  destruct (PyStr.int_of_str (PyStr.split_colon_head t)) as [h0|] eqn:Et.
  2:{ split; [split; assumption|]. intros _. apply Hsame. intros h j _.
      rewrite bool_decide_eq_false_2 by discriminate.
      destruct (row !! "JunctionName") as [[?|]|]; reflexivity. }
  destruct (row !! "JunctionName") as [[j0|]|];
    [| |split; [split; assumption|discriminate]].
  2:{ destruct (dict_lookup h0 hc);
        [|split; [split; assumption|discriminate]].
      split; [split; assumption|]. intros _ h j. simpl.
      destruct (tally_cell hc h j); simpl; [f_equal; lia|reflexivity]. }
  destruct (dict_lookup h0 hc) as [counts|] eqn:Eh;
    [|split; [split; assumption|discriminate]].
  destruct (dict_lookup j0 counts) as [n|] eqn:Ej.
  - simpl fst. simpl snd. split.
    + split.
      * rewrite dict_keys_set, Eh. exact Hkeys.
      * apply dict_set_Forall; [exact Hinner|]. simpl.
        rewrite dict_keys_set, Ej.
        apply (dict_lookup_Forall _ h0 counts hc Hinner Eh).
    + intros _ h j. rewrite tally_cell_set. unfold tally_cell.
      destruct (decide (h = h0)) as [->|Hne].
      * rewrite Eh. simpl. rewrite dict_lookup_set.
        rewrite bool_decide_eq_true_2 by reflexivity. simpl.
        destruct (decide (j = j0)) as [->|Hnej].
        -- rewrite Ej, String.eqb_refl. reflexivity.
        -- replace (String.eqb j0 j) with false
             by (symmetry; apply String.eqb_neq; congruence).
           destruct (dict_lookup j counts); simpl; [f_equal; lia|reflexivity].
      * rewrite bool_decide_eq_false_2 by congruence. simpl.
        match goal with |- ?x = _ <$> ?x => destruct x end;
          simpl; [f_equal; lia|reflexivity].
  - split; [split; assumption|]. intros _. apply Hsame.
    intros h j [m Hm]. unfold tally_cell in Hm.
    destruct (decide (h = h0)) as [->|Hne].
    + rewrite Eh in Hm. simpl in Hm.
      destruct (decide (j = j0)) as [->|Hnej]; [congruence|].
      replace (String.eqb j0 j) with false
        by (symmetry; apply String.eqb_neq; congruence).
      apply andb_false_r.
    + rewrite bool_decide_eq_false_2 by congruence. reflexivity.
Qed.

Lemma tally_rows_shape rows : forall hc,
  tally_shape hc -> tally_shape (fst (tally_rows rows hc)).
Proof.
  induction rows as [|row rows IH]; intros hc H; simpl; [exact H|].
  rewrite (@run_bind Tally).
  pose proof (tally_row_step row hc H) as [Hs _].
  destruct (tally_row row hc) as [hc' [[]|e]]; simpl in *; [apply IH|]; exact Hs.
Qed.

Lemma tally_rows_cells rows : forall hc,
  tally_shape hc ->
  snd (tally_rows rows hc) = Ok tt ->
  forall h j,
    tally_cell (fst (tally_rows rows hc)) h j =
    (fun n => n + count_rows (in_cell h j) rows) <$> tally_cell hc h j.
Proof.
  induction rows as [|row rows IH]; intros hc H Hok h j; simpl.
  - destruct (tally_cell hc h j); simpl; [f_equal; lia|reflexivity].
  - simpl in Hok. rewrite (@run_bind Tally) in Hok |- *.
    pose proof (tally_row_step row hc H) as [Hs Hc].
    destruct (tally_row row hc) as [hc' [[]|e]]; simpl in *; [|discriminate].
    rewrite (IH hc' Hs Hok h j), (Hc eq_refl h j).
    destruct (tally_cell hc h j); simpl; [f_equal; lia|reflexivity].
Qed.

Lemma init_shape : tally_shape init_hourly_counts.
Proof.
  split; [reflexivity|].
  unfold init_hourly_counts. apply Forall_fmap, Forall_forall.
  intros; reflexivity.
Qed.

Lemma init_cells h j :
  0 <= h < 24 -> j = elm \/ j = hanley -> tally_cell init_hourly_counts h j = Some 0.
Proof.
  intros Hh Hj.
  assert (E : exists n, (n < 24)%nat /\ h = Z.of_nat n)
    by (exists (Z.to_nat h); lia).
  destruct E as (n & Hn & ->).
  do 24 (destruct n as [|n]; [destruct Hj as [-> | ->]; reflexivity|]).
  lia.
Qed.

(** With the scale 0 a bar is a rectangle from the baseline to the
    baseline, whatever its count. *)
Lemma draw_bar_flat x j c fx :
  PyFloat.of_int x = Ok fx -> PyStr.printable c = true -> j = elm \/ j = hanley ->
  exists cmds,
    draw_bar (NInt 0) x j c = Ok cmds /\
    omap rectangle_top_bottom cmds = [(NInt baseline, NInt baseline)].
Proof.
  intros Hx Hp Hj.
  unfold draw_bar, num_mul, num_sub, num_add, num_op, to_float, PyStr.format_int.
  rewrite Z.mul_0_r, Hx, Hp.
  destruct Hj as [-> | ->]; (eexists; split; reflexivity).
Qed.

Lemma printable_spec n :
  PyStr.printable n = true <-> Z.abs n < 10 ^ PyStr.max_str_digits.
Proof.
  unfold PyStr.printable.
  assert (H : 2 ^ 64 <= 10 ^ PyStr.max_str_digits).
  { transitivity (10 ^ 20); [vm_compute; discriminate|].
    apply Z.pow_le_mono_r; [lia|unfold PyStr.max_str_digits; lia]. }
  destruct (Z.abs n <? 2 ^ 64) eqn:E.
  - apply Z.ltb_lt in E. split; [lia|reflexivity].
  - apply Z.ltb_lt.
Qed.

(** The limit on the number of digits that [str] writes. *)
Lemma format_int_over_limit n :
  10 ^ PyStr.max_str_digits <= Z.abs n -> PyStr.format_int n = Raise ValueError.
Proof.
  intros H. unfold PyStr.format_int.
  destruct (PyStr.printable n) eqn:E; [|reflexivity].
  apply printable_spec in E. lia.
Qed.

Lemma printable_small n : Z.abs n < 2 ^ 53 -> PyStr.printable n = true.
Proof.
  intros Hn. unfold PyStr.printable.
  replace (Z.abs n <? 2 ^ 64) with true; [reflexivity|].
  symmetry. apply Z.ltb_lt.
  assert (2 ^ 53 < 2 ^ 64) by (vm_compute; reflexivity). lia.
Qed.

Lemma draw_hour_flat h counts :
  0 <= h < 24 -> dict_keys counts = [elm; hanley] ->
  Forall (fun jc : string * Z => PyStr.printable (snd jc) = true) counts ->
  exists cmds,
    draw_hour (NInt 0) h counts = Ok cmds /\
    omap rectangle_top_bottom cmds =
      [(NInt baseline, NInt baseline); (NInt baseline, NInt baseline)].
Proof.
  intros Hh Hk Hp.
  destruct counts as [|[k1 a] [|[k2 b] [|? ?]]]; try discriminate.
  simpl in Hk. inversion Hk; subst k1 k2. clear Hk.
  inversion Hp as [|? ? Ha Hp']; subst. inversion Hp' as [|? ? Hb _]; subst.
  simpl in Ha, Hb.
  assert (Hph : PyStr.printable h = true) by (apply printable_small; lia).
  assert (E : exists n, (n < 24)%nat /\ h = Z.of_nat n)
    by (exists (Z.to_nat h); lia).
  destruct E as (n & Hn & ->).
  unfold draw_hour, draw_bars. cbv zeta. rewrite Hph.
  do 24 (destruct n as [|n];
    [match goal with
     | |- context [draw_bar (NInt 0) ?x elm a] =>
         edestruct (draw_bar_flat x elm a) as (c1 & E1 & F1);
           [vm_compute; reflexivity|exact Ha|left; reflexivity|rewrite E1]
     end;
     match goal with
     | |- context [draw_bar (NInt 0) ?x hanley b] =>
         edestruct (draw_bar_flat x hanley b) as (c2 & E2 & F2);
           [vm_compute; reflexivity|exact Hb|right; reflexivity|rewrite E2]
     end;
     rewrite !result_bind_ok; eexists; split; [reflexivity|];
     rewrite !omap_app, F1, F2; reflexivity|]).
  lia.
Qed.

Lemma draw_hours_flat hc :
  Forall (fun item => 0 <= fst item < 24 /\ dict_keys (snd item) = [elm; hanley]) hc ->
  tally_printable hc ->
  exists cmds,
    draw_hours (NInt 0) hc = Ok cmds /\
    length (omap rectangle_top_bottom cmds) = (2 * length hc)%nat /\
    Forall (fun tb => tb = (NInt baseline, NInt baseline))
      (omap rectangle_top_bottom cmds).
Proof.
  induction hc as [|[h counts] hc IH]; intros H Hp; simpl.
  - exists []. repeat split. constructor.
  - inversion H as [|? ? [Hh Hk] Hrest]; subst. simpl in Hh, Hk.
    inversion Hp as [|? ? [_ Hpc] Hprest]; subst. simpl in Hpc.
    destruct (draw_hour_flat h counts Hh Hk Hpc) as (c1 & -> & F1).
    destruct (IH Hrest Hprest) as (cs & -> & Hlen & Hall).
    rewrite !result_bind_ok. eexists. split; [reflexivity|].
    rewrite omap_app, F1. split.
    + rewrite length_app, Hlen. simpl. lia.
    + apply Forall_app. split; [|exact Hall].
      repeat constructor.
Qed.

Lemma tally_shape_items hc :
  tally_shape hc ->
  length hc = 24%nat /\
  Forall (fun item => 0 <= fst item < 24 /\ dict_keys (snd item) = [elm; hanley]) hc.
Proof.
  intros [Hkeys Hinner]. split.
  - apply (f_equal length) in Hkeys. unfold dict_keys in Hkeys.
    rewrite !length_map, length_seq in Hkeys. exact Hkeys.
  - assert (Hrange : Forall (fun h => 0 <= h < 24) (dict_keys hc)).
    { rewrite Hkeys. apply Forall_fmap, Forall_forall.
      intros n Hn. apply elem_of_seq in Hn. simpl. lia. }
    unfold dict_keys in Hrange. rewrite Forall_fmap in Hrange.
    rewrite Forall_forall in Hrange, Hinner |- *.
    intros item Hin. split; [apply (Hrange item Hin)|apply Hinner, Hin].
Qed.

End TallyFacts.

(** ** Drawing the bars *)

Section ChartDrawing.
Import HistogramApp PyFloat FloatBound.

Lemma iter_xO m k : Z.pos (Pos.iter xO m k) = Z.pos m * 2 ^ Z.pos k.
Proof.
  induction k as [|k IH] using Pos.peano_ind.
  - simpl. lia.
  - rewrite Pos.iter_succ, Pos2Z.inj_succ, Z.pow_succ_r by lia.
    rewrite Pos2Z.inj_xO, IH. ring.
Qed.

(** [float(n)] of an [int] below 2^53 does not overflow. *)
Lemma of_int_le n : 0 <= n < 2 ^ 53 -> exists f, of_int n = Ok f /\ le_int f n.
Proof.
  intros Hn. unfold of_int, binary_normalize.
  destruct n as [|p|p]; [eexists; split; [reflexivity|exact I]| |].
  2:{ destruct Hn as [H0 _]. exfalso. apply H0. reflexivity. }
  assert (Hd : Z.pos (digits2_pos p) <= 53).
  { apply (FloatFacts.Zdigits2_le (Z.pos p) 53); lia. }
  assert (Hl : le_int (binary_round prec emax false p 0) (Z.pos p)).
  { unfold binary_round, shl_align, fexp, emin.
    set (e' := Z.max (Z.pos (digits2_pos p) + 0 - prec) (3 - emax - prec)).
    assert (He : e' <= 0) by (unfold prec, emax in *; lia).
    destruct (e' - 0) as [|d|d] eqn:E; [| lia |].
    - apply FloatFacts.binary_round_aux_le_int; [lia|lia|lia|].
      simpl. lia.
    - apply FloatFacts.binary_round_aux_le_int; [lia|lia|lia|].
      rewrite iter_xO. replace (- e') with (Z.pos d) by lia. lia. }
  destruct (binary_round prec emax false p 0) as [s|s| |s m e];
    simpl in Hl; try contradiction; eexists; split; try reflexivity; exact Hl.
Qed.

Lemma draw_bar_ok scale x j c :
  0 <= x < 2 ^ 53 -> 0 <= c < 2 ^ 53 -> j = elm \/ j = hanley ->
  scale_in_range scale ->
  exists x1 y x2 ty,
    draw_bar scale x j c =
    Ok [create_rectangle x1 y x2 (NInt baseline)
          (if String.eqb j elm then "gray" else "lightblue") "black";
        create_text (NInt x) ty (PyStr.str_of_int c) "s"] /\
    (c = 0 -> at_baseline y).
Proof.
  intros Hx Hc Hj Hs.
  destruct (of_int_le x Hx) as (fx & Ex & _).
  destruct (of_int_le c Hc) as (fc & Ec & _).
  assert (Hp : PyStr.printable c = true) by (apply TallyFacts.printable_small; lia).
  unfold draw_bar, num_mul, num_sub, num_add, num_op, to_float, PyStr.format_int.
  destruct scale as [k|s]; rewrite ?Ex, ?Ec, Hp.
  - simpl in Hs. subst k.
    destruct Hj as [-> | ->]; (do 4 eexists; split; [reflexivity|]);
      intros _; rewrite Z.mul_0_r; reflexivity.
  - destruct Hj as [-> | ->]; (do 4 eexists; split; [reflexivity|]);
      intros ->; unfold at_baseline; simpl in Ec; injection Ec as <-;
      destruct s as [sg|sg| |[] m e]; simpl in Hs; try contradiction; reflexivity.
Qed.

Lemma draw_hour_ok scale h a b :
  0 <= h < 24 -> 0 <= a < 2 ^ 53 -> 0 <= b < 2 ^ 53 -> scale_in_range scale ->
  exists cmds,
    draw_hour scale h [(elm, a); (hanley, b)] = Ok cmds /\
    length cmds = 5%nat /\
    omap rectangle_fill cmds = ["gray"; "lightblue"] /\
    Forall (fun tb => snd tb = NInt baseline) (omap rectangle_top_bottom cmds) /\
    omap (label "s") cmds
      = [(NInt (70 + 51 * h), PyStr.str_of_int a);
         (NInt (91 + 51 * h), PyStr.str_of_int b)] /\
    omap (label "n") cmds = [(NInt (90 + 51 * h), (format_02d h ++ ":00")%string)] /\
    Forall2 (fun c tb => snd tb = NInt baseline /\ (c = 0 -> at_baseline (fst tb)))
      [a; b] (omap rectangle_top_bottom cmds).
Proof.
  intros Hh Ha Hb Hs. unfold draw_hour, draw_bars. cbv zeta.
  set (x := x_offset + h * (bar_width * 2 + gap + pair_gap)).
  assert (Ex : x = 70 + 51 * h) by (unfold x, x_offset, bar_width, gap, pair_gap; lia).
  assert (Hph : PyStr.printable h = true) by (apply TallyFacts.printable_small; lia).
  destruct (draw_bar_ok scale x elm a) as (x1 & y1 & x2 & t1 & E1 & Z1);
    [lia|lia|left; reflexivity|exact Hs|].
  destruct (draw_bar_ok scale (x + (bar_width + gap)) hanley b)
    as (x3 & y3 & x4 & t3 & E3 & Z3);
    [unfold bar_width, gap; lia|lia|right; reflexivity|exact Hs|].
  rewrite E1, result_bind_ok, E3, !result_bind_ok, Hph, result_bind_ok.
  eexists. split; [reflexivity|].
  split; [reflexivity|]. split; [reflexivity|].
  split; [repeat constructor|]. simpl. clearbody x. subst x.
  split; [|split];
    repeat (match goal with
            | |- @eq (list _) (_ :: _) (_ :: _) => f_equal
            | |- @eq (prod _ _) (_, _) (_, _) => f_equal
            | |- NInt _ = NInt _ => f_equal; unfold bar_width, gap; lia
            end);
    try reflexivity.
  repeat constructor; assumption.
Qed.

Lemma count_rows_bound p rows : 0 <= count_rows p rows <= Z.of_nat (length rows).
Proof.
  induction rows as [|row rows IH]; simpl count_rows; simpl length; [lia|].
  destruct (p row); lia.
Qed.

(** A tally of the right shape is determined by its cells. *)
Lemma shape_closed_form_aux : forall (hc : Tally) hours,
  dict_keys hc = hours -> NoDup hours ->
  Forall (fun item => dict_keys (snd item) = [elm; hanley]) hc ->
  hc = map (fun h => (h, [(elm, default 0 (tally_cell hc h elm));
                          (hanley, default 0 (tally_cell hc h hanley))])) hours.
Proof.
  induction hc as [|[h0 counts] hc IH]; intros hours Hk Hnd Hin; simpl in Hk; subst hours.
  - reflexivity.
  - apply NoDup_cons in Hnd as [Hh0 Hnd].
    inversion Hin as [|? ? H0 Hin']; subst. simpl in H0.
    destruct counts as [|[k1 a] [|[k2 b] [|? ?]]]; try discriminate.
    simpl in H0. inversion H0; subst k1 k2.
    simpl map. f_equal.
    + unfold tally_cell. simpl. destruct (decide (h0 = h0)); [|congruence].
      reflexivity.
    + rewrite (IH (dict_keys hc) eq_refl Hnd Hin') at 1.
      apply map_ext_in. intros h Hh. apply list_elem_of_In in Hh.
      unfold tally_cell. simpl.
      destruct (decide (h = h0)) as [->|Hne]; [contradiction|reflexivity].
Qed.

Lemma tally_of_ext cell cell' :
  (forall h j, 0 <= h < 24 -> j = elm \/ j = hanley -> cell h j = cell' h j) ->
  tally_of cell = tally_of cell'.
Proof.
  intros H. unfold tally_of. apply map_ext_in. intros h Hh.
  apply list_elem_of_In, list_elem_of_fmap in Hh as (n & -> & Hn).
  apply elem_of_seq in Hn.
  rewrite (H (Z.of_nat n) elm), (H (Z.of_nat n) hanley); auto; lia.
Qed.

(** The tally [process_data] leaves when it returns, written out. *)
Lemma process_data_closed_form rows :
  snd (process_data rows) = Ok tt ->
  fst (process_data rows) = tally_of (fun h j => count_rows (in_cell h j) rows).
Proof.
  intros Hok. unfold process_data in *.
  pose proof (TallyFacts.tally_rows_shape rows _ TallyFacts.init_shape) as Hs.
  rewrite (shape_closed_form_aux _ (map Z.of_nat (seq 0 24)) (proj1 Hs)); [| |apply Hs].
  - apply (tally_of_ext
             (fun h j => default 0 (tally_cell (fst (tally_rows rows init_hourly_counts)) h j))).
    intros h j Hh Hj.
    rewrite (TallyFacts.tally_rows_cells rows _ TallyFacts.init_shape Hok h j).
    rewrite (TallyFacts.init_cells h j Hh Hj). reflexivity.
  - apply NoDup_fmap; [intros ? ?; lia|apply NoDup_seq].
Qed.

Lemma max_nonempty_bound l n :
  l <> [] -> Forall (fun v => 0 <= v <= n) l ->
  exists m, max_nonempty l = Ok m /\ 0 <= m <= n /\ Forall (fun v => v <= m) l.
Proof.
  intros Hne Hall. destruct l as [|v rest]; [congruence|].
  exists (max_default (v :: rest) 0). split; [reflexivity|]. split.
  - rewrite Forall_forall in Hall. apply Hall, max_default_in. discriminate.
  - apply Forall_forall. intros x Hx. apply max_default_upper, Hx.
Qed.

Lemma inner_max_ok (cell : Z -> string -> Z) hours :
  map_result (fun counts => max_nonempty (dict_values counts))
    (dict_values (map (fun h => (h, [(elm, cell h elm); (hanley, cell h hanley)])) hours))
  = Ok (map (fun h => Z.max (cell h elm) (cell h hanley)) hours).
Proof.
  induction hours as [|h hours IH]; [reflexivity|].
  unfold dict_values in *. cbn [map map_result snd]. rewrite IH. reflexivity.
Qed.

Lemma compute_max_count_ok (cell : Z -> string -> Z) n :
  (forall h j, 0 <= cell h j <= n) ->
  exists m, compute_max_count (tally_of cell) = Ok m /\ 0 <= m <= n.
Proof.
  intros Hc. unfold compute_max_count, tally_of. rewrite inner_max_ok, result_bind_ok.
  destruct (max_nonempty_bound
              (map (fun h => Z.max (cell h elm) (cell h hanley)) (map Z.of_nat (seq 0 24))) n)
    as (m & Hm & Hr & _); [discriminate| |eauto].
  apply Forall_fmap, Forall_forall. intros h _. simpl.
  pose proof (Hc h elm). pose proof (Hc h hanley). lia.
Qed.

Lemma compute_scale_ok m :
  0 <= m -> exists scale, compute_scale m = Ok scale /\ scale_in_range scale.
Proof.
  intros Hm. unfold compute_scale. destruct (m =? 0).
  - exists (NInt 0). split; reflexivity.
  - destruct (FloatFacts.int_truediv_le (canvas_height - 150) (m + 1) 350)
      as (x & -> & Hx); [unfold canvas_height; nia|lia|reflexivity|].
    rewrite result_bind_ok. exists (NFloat x). split; [reflexivity|exact Hx].
Qed.

Lemma draw_hours_ok scale (cell : Z -> string -> Z) hours :
  Forall (fun h => 0 <= h < 24) hours ->
  (forall h j, 0 <= cell h j < 2 ^ 53) ->
  scale_in_range scale ->
  exists cmds,
    draw_hours scale (map (fun h => (h, [(elm, cell h elm); (hanley, cell h hanley)])) hours)
      = Ok cmds /\
    length cmds = (5 * length hours)%nat /\
    omap rectangle_fill cmds = flat_map (fun _ => ["gray"; "lightblue"]) hours /\
    Forall (fun tb => snd tb = NInt baseline) (omap rectangle_top_bottom cmds) /\
    omap (label "s") cmds
      = flat_map (fun h => [(NInt (70 + 51 * h), PyStr.str_of_int (cell h elm));
                            (NInt (91 + 51 * h), PyStr.str_of_int (cell h hanley))]) hours /\
    omap (label "n") cmds
      = map (fun h => (NInt (90 + 51 * h), (format_02d h ++ ":00")%string)) hours /\
    Forall2 (fun c tb => snd tb = NInt baseline /\ (c = 0 -> at_baseline (fst tb)))
      (flat_map (fun h => [cell h elm; cell h hanley]) hours)
      (omap rectangle_top_bottom cmds).
Proof.
  intros Hh Hc Hsc. induction hours as [|h hours IH].
  - exists []. repeat split; constructor.
  - inversion Hh as [|? ? H0 Hh']; subst.
    destruct (IH Hh') as (cs & Ecs & Hl & Hf & Hb & Hs & Hn & Hz).
    destruct (draw_hour_ok scale h (cell h elm) (cell h hanley) H0 (Hc h elm) (Hc h hanley) Hsc)
      as (c1 & E1 & Hl1 & Hf1 & Hb1 & Hs1 & Hn1 & Hz1).
    simpl map. simpl draw_hours. rewrite E1, result_bind_ok, Ecs, result_bind_ok.
    eexists. split; [reflexivity|].
    rewrite !omap_app, length_app, Hl, Hl1, Hf, Hf1, Hs, Hs1, Hn, Hn1.
    split; [simpl length; lia|]. split; [reflexivity|].
    split; [apply Forall_app; split; assumption|].
    split; [reflexivity|]. split; [reflexivity|].
    change (flat_map (fun h => [cell h elm; cell h hanley]) (h :: hours))
      with ([cell h elm; cell h hanley]
            ++ flat_map (fun h => [cell h elm; cell h hanley]) hours)%list.
    apply Forall2_app; assumption.
Qed.

Lemma tally_of_printable (cell : Z -> string -> Z) :
  (forall h j, 0 <= cell h j < 2 ^ 53) -> tally_printable (tally_of cell).
Proof.
  intros Hc. unfold tally_printable, tally_of.
  apply Forall_fmap, Forall_fmap, Forall_forall. intros n Hn.
  apply elem_of_seq in Hn. simpl. split.
  - apply TallyFacts.printable_small. lia.
  - repeat constructor; simpl; apply TallyFacts.printable_small;
      [specialize (Hc (Z.of_nat n) elm)|specialize (Hc (Z.of_nat n) hanley)]; lia.
Qed.

Lemma process_data_printable rows :
  snd (process_data rows) = Ok tt ->
  Z.of_nat (length rows) < 2 ^ 53 ->
  tally_printable (fst (process_data rows)).
Proof.
  intros Hok Hlen. rewrite (process_data_closed_form rows Hok).
  apply tally_of_printable. intros h j.
  pose proof (count_rows_bound (in_cell h j) rows). lia.
Qed.

(** The chart of the tally of a [process_data] that returned. *)
Lemma draw_histogram_ok rows :
  snd (process_data rows) = Ok tt ->
  Z.of_nat (length rows) < 2 ^ 53 ->
  let hours := map Z.of_nat (seq 0 24) in
  let cell := fun h j => count_rows (in_cell h j) rows in
  exists cmds,
    draw_histogram (fst (process_data rows)) = Ok cmds /\
    length cmds = 120%nat /\
    omap rectangle_fill cmds = flat_map (fun _ => ["gray"; "lightblue"]) hours /\
    Forall (fun tb => snd tb = NInt baseline) (omap rectangle_top_bottom cmds) /\
    omap (label "s") cmds
      = flat_map (fun h => [(NInt (70 + 51 * h), PyStr.str_of_int (cell h elm));
                            (NInt (91 + 51 * h), PyStr.str_of_int (cell h hanley))]) hours /\
    omap (label "n") cmds
      = map (fun h => (NInt (90 + 51 * h), (format_02d h ++ ":00")%string)) hours /\
    Forall2 (fun c tb => snd tb = NInt baseline /\ (c = 0 -> at_baseline (fst tb)))
      (flat_map (fun h => [cell h elm; cell h hanley]) hours)
      (omap rectangle_top_bottom cmds).
Proof.
  intros Hok Hlen hours cell.
  rewrite (process_data_closed_form rows Hok). fold cell.
  assert (Hc : forall h j, 0 <= cell h j <= Z.of_nat (length rows)).
  { intros h j. apply count_rows_bound. }
  destruct (compute_max_count_ok cell _ Hc) as (m & Hm & Hm0 & _).
  destruct (compute_scale_ok m Hm0) as (scale & Hscale & Hfine).
  destruct (draw_hours_ok scale cell hours) as (cmds & Hd & Hl & Hrest).
  { apply Forall_fmap, Forall_forall. intros n Hn. apply elem_of_seq in Hn. simpl. lia. }
  { intros h j. specialize (Hc h j). lia. }
  { exact Hfine. }
  exists cmds. unfold draw_histogram.
  rewrite Hm, result_bind_ok, Hscale, result_bind_ok.
  split; [exact Hd|]. split; [rewrite Hl; reflexivity|exact Hrest].
Qed.

End ChartDrawing.

(** ** Category totals *)

Lemma final_acc_bounded evs : totals_bounded (totals (final_acc evs)).
Proof.
  assert (Hv : total_vehicles (totals (final_acc evs)) = Z.of_nat (length evs)).
  { change (total_vehicles (totals (final_acc evs)))
      with (tget Kvehicles (totals (final_acc evs))).
    rewrite final_acc_tget by discriminate. apply count_events_all. }
  split; [lia|]. rewrite Hv.
  unfold category_keys.
  repeat (apply Forall_cons; split;
    [rewrite final_acc_tget by discriminate;
     split; [apply count_events_nonneg|apply count_events_le_length]|]).
  apply Forall_nil. exact I.
Qed.

(** C8. For every sequence of validated events, and so for every result
    returned for a sequence of raw rows, each category total (trucks,
    bikes, electric vehicles, no-turn, speed violations, Elm total, Hanley
    total, buses north, scooters at Elm, bicycles) lies between 0 and the
    total vehicle count. *)
Theorem category_totals_bounded (file_path : string) :
  (forall evs,
     totals_bounded (totals (fst (aggregate_events file_path evs))) /\
     match snd (aggregate_events file_path evs) with
     | Ok r => totals_bounded (out_totals r)
     | Raise _ => True
     end) /\
  (forall rows,
     match process_csv_data file_path (Some rows) with
     | Ok r => totals_bounded (out_totals r)
     | Raise _ => True
     end).
Proof.
  split.
  - intros evs. rewrite aggregate_events_run. simpl. split.
    + apply final_acc_bounded.
    + destruct (summarize _ _) as [r|] eqn:E; [|exact I].
      apply summarize_ok in E. destruct E as (_ & _ & _ & _ & -> & _).
      apply final_acc_bounded.
  - intros rows.
    destruct (process_csv_data file_path (Some rows)) as [r|] eqn:E; [|exact I].
    apply process_csv_data_ok, summarize_ok in E.
    destruct E as (_ & _ & _ & _ & -> & _).
    apply final_acc_bounded.
Qed.

(** ** Average bicycles per hour *)

Lemma bicycle_hour_set_empty evs :
  bicycle_hour_set evs = ∅ <-> count_events (counts_as Kbicycle) evs = 0.
Proof.
  induction evs as [|ev evs IH]; simpl; [tauto|].
  pose proof (count_events_nonneg (counts_as Kbicycle) evs).
  destruct (String.eqb (vehicle_type ev) "Bicycle").
  - split; [set_solver|lia].
  - rewrite IH. split; lia.
Qed.

Lemma set_len_zero (s : gset string) : set_len s = 0 <-> s = ∅.
Proof.
  unfold set_len. split.
  - intros H. apply leibniz_equiv, size_empty_iff. lia.
  - intros ->. rewrite size_empty. reflexivity.
Qed.

(** C9. In a returned result, the average bicycles per hour is the
    rounded quotient of the bicycle total by the number of distinct hour
    keys that have a bicycle event when there is such an hour, and 0 when
    there is no bicycle event, whatever else the data holds. *)
Theorem avg_bikes_per_hour_spec file_path rows r :
  process_csv_data file_path (Some rows) = Ok r ->
  let evs := parsed_events rows in
  let bicycles := count_events (counts_as Kbicycle) evs in
  let hours := bicycle_hour_set evs in
  total_bicycle (out_totals r) = bicycles /\
  (hours <> ∅ ->
   (x ← PyFloat.int_truediv bicycles (set_len hours); PyFloat.round x)
     = Ok (avg_bikes_per_hour r)) /\
  (bicycles = 0 -> avg_bikes_per_hour r = 0).
Proof.
  intros H evs bicycles hours.
  apply process_csv_data_ok, summarize_ok in H.
  destruct H as (Havg & _ & _ & _ & Ht & _).
  fold evs in Havg, Ht.
  assert (Hb : total_bicycle (totals (final_acc evs)) = bicycles).
  { change (total_bicycle (totals (final_acc evs)))
      with (tget Kbicycle (totals (final_acc evs))).
    apply final_acc_tget. discriminate. }
  unfold compute_avg_bikes_per_hour in Havg.
  rewrite final_acc_bicycle_hours, Hb in Havg. fold hours in Havg.
  split; [rewrite Ht; exact Hb|]. split.
  - intros Hne.
    destruct (set_len hours =? 0) eqn:E; [|exact Havg].
    apply Z.eqb_eq, set_len_zero in E. contradiction.
  - intros H0. apply bicycle_hour_set_empty in H0. fold hours in H0.
    rewrite H0 in Havg. change (set_len ∅ =? 0) with true in Havg.
    simpl in Havg. congruence.
Qed.

Lemma avg_bikes_per_hour_spec_witness :
  let rows := [Samples.bicycle_row "08:10"; Samples.car_row;
               Samples.bicycle_row "08:40"; Samples.bicycle_row "09:00"] in
  exists r,
    process_csv_data "traffic_data.csv" (Some rows) = Ok r /\
    total_bicycle (out_totals r) = count_events (counts_as Kbicycle) (parsed_events rows) /\
    (bicycle_hour_set (parsed_events rows) <> ∅ ->
     (x ← PyFloat.int_truediv (count_events (counts_as Kbicycle) (parsed_events rows))
            (set_len (bicycle_hour_set (parsed_events rows)));
      PyFloat.round x) = Ok (avg_bikes_per_hour r)) /\
    (count_events (counts_as Kbicycle) (parsed_events rows) = 0 ->
     avg_bikes_per_hour r = 0).
Proof.
  intros rows. eexists. split; [vm_compute; reflexivity|].
  apply (avg_bikes_per_hour_spec "traffic_data.csv" rows).
  vm_compute. reflexivity.
Defined.

(** ** Truck percentage *)

(** C1, as amended. For every non-empty sequence of validated events the
    truck percentage is computed without error, equals
    [round((trucks / total) * 100)] evaluated in binary64 in that order
    (quotient first, then the product, then [round]) and lies in
    [0, 100]; every returned result carries that value. For the empty
    sequence the computation raises [ZeroDivisionError], which
    [process_csv_data] raises again as a [RuntimeError], whereas the other
    two computations give 0 on their zero denominators. *)
Theorem truck_percentage_spec (file_path : string) :
  (forall evs,
     evs <> [] ->
     exists p,
       percentage (count_events (counts_as Ktrucks) evs) (Z.of_nat (length evs)) = Ok p /\
       compute_percentage_trucks (totals (final_acc evs)) = Ok p /\
       0 <= p <= 100 /\
       (forall r, snd (aggregate_events file_path evs) = Ok r -> percentage_trucks r = p)) /\
  (compute_avg_bikes_per_hour (totals (final_acc [])) (bicycle_hours (final_acc [])) = Ok 0 /\
   compute_percentage_scooters_elm (totals (final_acc [])) = Ok 0 /\
   compute_percentage_trucks (totals (final_acc [])) = Raise ZeroDivisionError /\
   snd (aggregate_events file_path []) = Raise ZeroDivisionError) /\
  (forall rows,
     parsed_events rows = [] ->
     Forall all_text rows ->
     process_csv_data file_path (Some rows) = Raise (RuntimeError ZeroDivisionError)).
Proof.
  split; [|split].
  - intros evs Hne.
    assert (Ht : total_trucks (totals (final_acc evs)) = count_events (counts_as Ktrucks) evs).
    { change (total_trucks (totals (final_acc evs)))
        with (tget Ktrucks (totals (final_acc evs))).
      apply final_acc_tget. discriminate. }
    assert (Hv : total_vehicles (totals (final_acc evs)) = Z.of_nat (length evs)).
    { change (total_vehicles (totals (final_acc evs)))
        with (tget Kvehicles (totals (final_acc evs))).
      rewrite final_acc_tget by discriminate. apply count_events_all. }
    destruct (FloatFacts.percentage_bound
                (count_events (counts_as Ktrucks) evs) (Z.of_nat (length evs)))
      as (p & Hp & Hrange).
    { split; [apply count_events_nonneg|apply count_events_le_length]. }
    { destruct evs; [congruence|simpl length; lia]. }
    exists p. unfold compute_percentage_trucks. rewrite Ht, Hv.
    repeat split; try assumption; try lia.
    intros r Hr. rewrite aggregate_events_run in Hr. simpl in Hr.
    apply summarize_ok in Hr. destruct Hr as (_ & _ & Hr & _).
    unfold compute_percentage_trucks in Hr. rewrite Ht, Hv in Hr. congruence.
  - repeat split; reflexivity.
  - intros rows Hnil Htext.
    rewrite process_csv_data_all_text by assumption. rewrite Hnil. reflexivity.
Qed.

Lemma truck_percentage_spec_witness :
  let evs := parsed_events [Samples.truck_row; Samples.car_row; Samples.car_row] in
  let rows := [Samples.bad_speed_row] in
  (exists p,
     percentage (count_events (counts_as Ktrucks) evs) (Z.of_nat (length evs)) = Ok p /\
     compute_percentage_trucks (totals (final_acc evs)) = Ok p /\
     0 <= p <= 100 /\
     (forall r, snd (aggregate_events "traffic_data.csv" evs) = Ok r -> percentage_trucks r = p)) /\
  process_csv_data "traffic_data.csv" (Some rows) = Raise (RuntimeError ZeroDivisionError).
Proof.
  intros evs rows. split.
  - apply (proj1 (truck_percentage_spec "traffic_data.csv") evs).
    vm_compute. discriminate.
  - apply (proj2 (proj2 (truck_percentage_spec "traffic_data.csv")) rows).
    + vm_compute. reflexivity.
    + repeat constructor. intros k.
      unfold Samples.bad_speed_row, Samples.truck_row, mk_row. simpl.
      rewrite lookup_insert. case_decide; [discriminate|].
      repeat (rewrite lookup_insert; case_decide; [discriminate|]).
      rewrite lookup_empty. discriminate.
Defined.

(** The claim fails as stated: with 23 trucks among 40 vehicles the
    source returns 57, while the nearest integer of 100 x 23 / 40 = 57.5
    is 58 under either tie rule. *)
Lemma truck_percentage_23_of_40 :
  exists r,
    process_csv_data "traffic_data.csv" (Some Samples.trucks_23_of_40) = Ok r /\
    total_trucks (out_totals r) = 23 /\
    total_vehicles (out_totals r) = 40 /\
    percentage_trucks r = 57 /\
    spec_round_percentage 23 40 = 58 /\
    spec_round_percentage_half_up 23 40 = 58 /\
    percentage_trucks r <>
      spec_round_percentage (total_trucks (out_totals r)) (total_vehicles (out_totals r)).
Proof.
  eexists. split; [vm_compute; reflexivity|].
  repeat split; try reflexivity. vm_compute. discriminate.
Qed.

(** ** Skipped rows *)

(** C4. A row that fails to parse leaves every running total, the Hanley
    counter and both hour sets as they were, and a returned result is the
    result of aggregating exactly the rows that parsed in full. *)
Theorem row_skip_atomic file_path rows :
  (forall row st st' e, row_body row st = (st', Raise e) -> st' = st) /\
  (forall row st, parses row = false -> fst (try_row row st) = st) /\
  (forall r,
     process_csv_data file_path (Some rows) = Ok r ->
     snd (aggregate_events file_path (parsed_events rows)) = Ok r /\
     process_csv_data file_path (Some (filter (fun row => parses row = true) rows)) = Ok r).
Proof.
  split; [|split].
  - intros row st st' e H. rewrite row_body_run in H.
    destruct (parse_row row) as [ev|e'].
    + rewrite (returns_run (update ev) st (returns_update ev)) in H. discriminate.
    + congruence.
  - intros row st H. rewrite try_row_run. unfold parses in H.
    destruct (parse_row row) as [ev|e]; [discriminate|].
    destruct e; reflexivity.
  - intros r H. apply process_csv_data_ok in H.
    split.
    + rewrite aggregate_events_run. exact H.
    + unfold process_csv_data, aggregate.
      rewrite run_bind, for_rows_parsing.
      * rewrite finalize_run, parsed_events_filter.
        fold (final_acc (parsed_events rows)). rewrite H. reflexivity.
      * apply Forall_forall. intros row Hin.
        apply list_elem_of_filter in Hin. tauto.
Qed.

Lemma row_skip_atomic_witness :
  let rows := [Samples.truck_row; Samples.bad_speed_row; Samples.car_row] in
  let st := exec (try_row Samples.truck_row) init_acc in
  fst (row_body Samples.bad_speed_row st) = st /\
  fst (try_row Samples.bad_speed_row init_acc) = init_acc /\
  exists r,
    process_csv_data "traffic_data.csv" (Some rows) = Ok r /\
    snd (aggregate_events "traffic_data.csv" (parsed_events rows)) = Ok r /\
    process_csv_data "traffic_data.csv"
      (Some (filter (fun row => parses row = true) rows)) = Ok r.
Proof.
  intros rows st. split; [|split].
  - apply (proj1 (row_skip_atomic "traffic_data.csv" rows)
             Samples.bad_speed_row st _ ValueError).
    vm_compute. reflexivity.
  - apply (proj1 (proj2 (row_skip_atomic "traffic_data.csv" rows))).
    vm_compute. reflexivity.
  - eexists. split; [vm_compute; reflexivity|].
    apply (proj2 (proj2 (row_skip_atomic "traffic_data.csv" rows))).
    vm_compute. reflexivity.
Defined.

(** ** Direction fields *)

(** C10. On a row that parses, the no-turn counter moves by one exactly
    when the trimmed text of [travel_Direction_in] equals the trimmed text
    of [travel_Direction_out], an absent column counting as the empty
    text; so a row without both direction columns counts as a no-turn
    vehicle. *)
Theorem no_turn_spec row ev st :
  parse_row row = Ok ev ->
  let t_in := PyStr.strip (cell_text row "travel_Direction_in" "") in
  let t_out := PyStr.strip (cell_text row "travel_Direction_out" "") in
  travel_in ev = t_in /\
  travel_out ev = t_out /\
  total_no_turn (totals (fst (try_row row st))) =
    total_no_turn (totals st) + (if String.eqb t_in t_out then 1 else 0) /\
  (row !! "travel_Direction_in" = None ->
   row !! "travel_Direction_out" = None ->
   total_no_turn (totals (fst (try_row row st))) = total_no_turn (totals st) + 1).
Proof.
  intros Hp t_in t_out.
  pose proof (parse_row_ok row ev Hp) as (_ & Hin & Hout & _).
  apply str_method_row_get in Hin, Hout. fold t_in in Hin. fold t_out in Hout.
  assert (Hstep : total_no_turn (totals (fst (try_row row st))) =
                  total_no_turn (totals st) + (if String.eqb t_in t_out then 1 else 0)).
  { rewrite try_row_run, Hp. simpl fst.
    change (total_no_turn (totals (exec (update ev) st)))
      with (tget Kno_turn (totals (exec (update ev) st))).
    rewrite update_totals by discriminate. simpl counts_as.
    rewrite Hin, Hout. reflexivity. }
  repeat split; try assumption.
  intros Hni Hno. rewrite Hstep.
  unfold t_in, t_out, cell_text. rewrite Hni, Hno. reflexivity.
Qed.

Lemma no_turn_spec_witness :
  let row := Samples.no_direction_row in
  exists ev,
    parse_row row = Ok ev /\
    total_no_turn (totals (fst (try_row row init_acc))) = total_no_turn (totals init_acc) + 1.
Proof.
  intros row. eexists. split; [vm_compute; reflexivity|].
  refine (proj2 (proj2 (proj2 (no_turn_spec row _ init_acc _))) _ _);
    vm_compute; reflexivity.
Defined.

(** ** Hour keys *)

Lemma split_colon_head_two_digit hh rest :
  hh ∈ two_digit_hours ->
  PyStr.split_colon_head (hh ++ ":" ++ rest) = hh.
Proof.
  intros H. unfold two_digit_hours in H. vm_compute in H.
  repeat (apply elem_of_cons in H; destruct H as [->|H]; [reflexivity|]).
  apply elem_of_nil in H. contradiction.
Qed.

(** C5, as amended. The hour key of a validated event is the text of the
    row's [timeOfDay] cell before its first colon, taken verbatim ("00"
    when the column is absent); it is one of "00" .. "23" whenever that
    text starts with such a two-digit hour followed by a colon. *)
Theorem hour_key_spec row ev :
  parse_row row = Ok ev ->
  hour ev = PyStr.split_colon_head (cell_text row "timeOfDay" "00:00") /\
  (row !! "timeOfDay" = None -> hour ev = "00") /\
  (forall hh rest,
     hh ∈ two_digit_hours ->
     cell_text row "timeOfDay" "00:00" = (hh ++ ":" ++ rest)%string ->
     hour ev = hh).
Proof.
  intros Hp.
  pose proof (parse_row_ok row ev Hp) as (_ & _ & _ & _ & _ & _ & _ & Hh).
  apply str_method_row_get in Hh.
  split; [exact Hh|]. split.
  - intros Hn. rewrite Hh. unfold cell_text. rewrite Hn. reflexivity.
  - intros hh rest Hin Ht. rewrite Hh, Ht. apply split_colon_head_two_digit, Hin.
Qed.

Lemma hour_key_spec_witness :
  exists ev,
    parse_row Samples.truck_row = Ok ev /\
    hour ev = PyStr.split_colon_head (cell_text Samples.truck_row "timeOfDay" "00:00") /\
    hour ev = "08".
Proof.
  eexists. split; [vm_compute; reflexivity|].
  pose proof (hour_key_spec Samples.truck_row _ ltac:(vm_compute; reflexivity))
    as (H1 & _ & H3).
  split; [exact H1|].
  apply (H3 "08" "15"); [|reflexivity].
  vm_compute. apply list_elem_of_In. simpl. tauto.
Defined.

(** The claim fails as stated: a row whose time of day is "7:30" parses,
    and its hour key "7" is not one of "00" .. "23". *)
Lemma hour_key_one_digit :
  exists ev,
    parse_row Samples.one_digit_hour_row = Ok ev /\
    hour ev = "7" /\
    hour ev ∉ two_digit_hours.
Proof.
  eexists. split; [vm_compute; reflexivity|]. split; [reflexivity|].
  simpl hour. intros H. vm_compute in H.
  repeat (apply elem_of_cons in H; destruct H as [H|H]; [discriminate H|]).
  apply elem_of_nil in H. contradiction.
Qed.

(** ** Peak hours *)

(** C2. In a returned result the Hanley counter gives, for each hour key,
    the number of validated Hanley events with that key; no count exceeds
    the maximum; and the peak ranges are, in the order of the counter, one
    for every hour key whose count equals the maximum, each reading
    "Between HH:00 and N:00" with HH the key verbatim and N the integer
    value of the key plus one, written without padding and without a
    special case at 23. *)
Theorem peak_hours_spec :
  (forall file_path rows r,
     process_csv_data file_path (Some rows) = Ok r ->
     let counts := out_hanley_counts_per_hour r in
     let max_count := max_default (dict_values counts) 0 in
     NoDup (dict_keys counts) /\
     (forall h, dict_get h 0 counts =
                count_events (at_hanley_hour h) (parsed_events rows)) /\
     (forall h c, (h, c) ∈ counts -> c <= max_count) /\
     Forall2
       (fun h range =>
          exists n, PyStr.int_of_str h = Some n /\
                    range = ("Between " ++ h ++ ":00 and "
                             ++ PyStr.str_of_int (n + 1) ++ ":00")%string)
       (map fst (filter (fun item => snd item = max_count) counts))
       (peak_hour_ranges r)) /\
  map_result peak_hour_range (compute_peak_hours [("08", 3); ("17", 3); ("12", 1)])
    = Ok ["Between 08:00 and 9:00"; "Between 17:00 and 18:00"] /\
  peak_hour_range "23" = Ok "Between 23:00 and 24:00".
Proof.
  split; [|split; reflexivity].
  intros file_path rows r H counts max_count.
  apply process_csv_data_ok, summarize_ok in H.
  destruct H as (_ & _ & _ & Hr & _ & Hc & _).
  assert (Ec : counts = hanley_counts_per_hour
                 (exec (for_events (parsed_events rows)) init_acc)).
  { unfold counts. rewrite Hc. apply final_acc_hanley. }
  split; [|split; [|split]].
  - rewrite Ec. apply for_events_hanley_NoDup. constructor.
  - intros h. rewrite Ec, for_events_hanley_get. reflexivity.
  - intros h c Hin. apply max_default_upper.
    unfold dict_values. apply list_elem_of_fmap. exists (h, c). split; [reflexivity|exact Hin].
  - apply map_result_Forall2 in Hr.
    rewrite final_acc_hanley, <- Ec in Hr. unfold compute_peak_hours in Hr.
    fold max_count in Hr.
    eapply Forall2_impl; [exact Hr|].
    intros h range Hrange. unfold peak_hour_range in Hrange. simpl in Hrange.
    destruct (PyStr.int_of_str h) as [n|]; [|discriminate].
    rewrite result_bind_ok in Hrange. unfold PyStr.format_int in Hrange.
    destruct (PyStr.printable (n + 1)); [|discriminate].
    rewrite result_bind_ok in Hrange. inversion Hrange. eauto.
Qed.

Lemma peak_hours_spec_witness :
  let rows := [Samples.truck_row; Samples.bicycle_row "23:10"; Samples.car_row] in
  exists r,
    process_csv_data "traffic_data.csv" (Some rows) = Ok r /\
    peak_hour_ranges r = ["Between 08:00 and 9:00"; "Between 23:00 and 24:00"] /\
    NoDup (dict_keys (out_hanley_counts_per_hour r)) /\
    (forall h c, (h, c) ∈ out_hanley_counts_per_hour r ->
                 c <= max_default (dict_values (out_hanley_counts_per_hour r)) 0).
Proof.
  intros rows. eexists. split; [vm_compute; reflexivity|].
  split; [reflexivity|].
  pose proof (proj1 peak_hours_spec "traffic_data.csv" rows _
                ltac:(vm_compute; reflexivity)) as (H1 & _ & H3 & _).
  split; [exact H1|exact H3].
Defined.

(** ** Short lines *)

(** C3, evaluated at a failing input. A data line that ends before the
    [VehicleSpeed] field gives a row whose cell is [None]; [int(None)]
    raises [TypeError], which the inner handler does not catch: the
    exception leaves the loop and the whole file fails with a
    [RuntimeError], although the rows before and after it are valid. *)
Theorem short_row_aborts_pass :
  let rows := [Samples.truck_row; Samples.short_row; Samples.car_row] in
  parse_row Samples.short_row = Raise TypeError /\
  snd (for_rows rows init_acc) = Raise TypeError /\
  process_csv_data "traffic_data.csv" (Some rows) = Raise (RuntimeError TypeError) /\
  (exists r, process_csv_data "traffic_data.csv"
               (Some [Samples.truck_row; Samples.car_row]) = Ok r).
Proof.
  repeat split; try (vm_compute; reflexivity).
  eexists. vm_compute. reflexivity.
Qed.

(** ** Hours outside the chart *)

(** C7, evaluated at a failing input. A row whose hour reads 24 passes the
    aggregator, but in the chart tally [hourly_counts[24]] raises
    [KeyError], which the handler for [ValueError] does not catch: the
    error leaves [process_data]. *)
Theorem hour_24_escapes_tally :
  let rows := [Samples.truck_row; Samples.hour_24_row; Samples.car_row] in
  (exists r, process_csv_data "traffic_data.csv" (Some rows) = Ok r) /\
  snd (HistogramApp.tally_body Samples.hour_24_row HistogramApp.init_hourly_counts)
    = Raise KeyError /\
  snd (HistogramApp.process_data rows) = Raise KeyError.
Proof.
  split; [eexists; vm_compute; reflexivity|].
  split; vm_compute; reflexivity.
Qed.

(** ** The chart tally and the flat chart *)

(** C6. The tally starts with the 24 hours 0 .. 23, each with both
    junctions at 0, and keeps exactly these keys whatever rows are read;
    when [process_data] returns, every cell holds the number of rows that
    fall in it, so a cell without rows holds 0. When the maximum over the
    tally is 0 the scale factor is the integer 0 and [draw_histogram]
    returns 48 rectangles, two for each hour, each from the baseline to
    the baseline. And every cell is drawn, whatever the maximum: for the
    tally of fewer than 2^53 rows [draw_histogram] returns one rectangle
    for each hour and junction, in the order of the tally, standing on
    the baseline, and the rectangle of a cell that holds 0 has its top on
    the baseline too, a bar of height zero. *)
Theorem chart_tally_spec :
  (tally_shape HistogramApp.init_hourly_counts /\
   forall h j, 0 <= h < 24 -> j = HistogramApp.elm \/ j = HistogramApp.hanley ->
               tally_cell HistogramApp.init_hourly_counts h j = Some 0) /\
  (forall rows, tally_shape (fst (HistogramApp.process_data rows))) /\
  (forall rows,
     snd (HistogramApp.process_data rows) = Ok tt ->
     forall h j, 0 <= h < 24 -> j = HistogramApp.elm \/ j = HistogramApp.hanley ->
       tally_cell (fst (HistogramApp.process_data rows)) h j =
       Some (count_rows (in_cell h j) rows)) /\
  (forall hc,
     tally_shape hc -> tally_printable hc ->
     HistogramApp.compute_max_count hc = Ok 0 ->
     HistogramApp.compute_scale 0 = Ok (HistogramApp.NInt 0) /\
     exists cmds,
       HistogramApp.draw_histogram hc = Ok cmds /\
       length (omap rectangle_top_bottom cmds) = 48%nat /\
       Forall (fun tb => tb = (HistogramApp.NInt HistogramApp.baseline,
                               HistogramApp.NInt HistogramApp.baseline))
         (omap rectangle_top_bottom cmds)) /\
  (forall rows,
     snd (HistogramApp.process_data rows) = Ok tt ->
     Z.of_nat (length rows) < 2 ^ 53 ->
     exists cmds,
       HistogramApp.draw_histogram (fst (HistogramApp.process_data rows)) = Ok cmds /\
       Forall2
         (fun count tb =>
            snd tb = HistogramApp.NInt HistogramApp.baseline /\
            (count = 0 -> at_baseline (fst tb)))
         (flat_map (fun h => [count_rows (in_cell h HistogramApp.elm) rows;
                              count_rows (in_cell h HistogramApp.hanley) rows])
                   (map Z.of_nat (seq 0 24)))
         (omap rectangle_top_bottom cmds)).
Proof.
  split; [|split; [|split; [|split]]].
  - split; [apply TallyFacts.init_shape|apply TallyFacts.init_cells].
  - intros rows. apply TallyFacts.tally_rows_shape, TallyFacts.init_shape.
  - intros rows Hok h j Hh Hj. unfold HistogramApp.process_data in *.
    rewrite (TallyFacts.tally_rows_cells rows _ TallyFacts.init_shape Hok h j).
    rewrite (TallyFacts.init_cells h j Hh Hj). reflexivity.
  - intros hc Hshape Hprint Hmax. split; [reflexivity|].
    destruct (TallyFacts.tally_shape_items hc Hshape) as [Hlen Hitems].
    destruct (TallyFacts.draw_hours_flat hc Hitems Hprint) as (cmds & Hd & Hl & Hall).
    exists cmds. unfold HistogramApp.draw_histogram.
    rewrite Hmax, result_bind_ok.
    change (HistogramApp.compute_scale 0) with (Ok (HistogramApp.NInt 0)).
    rewrite result_bind_ok, Hlen in *. repeat split; assumption.
  - intros rows Hok Hlen.
    destruct (draw_histogram_ok rows Hok Hlen) as (cmds & Hd & _ & _ & _ & _ & _ & Hz).
    exists cmds. split; [exact Hd|exact Hz].
Qed.

Lemma chart_tally_spec_witness :
  let rows := [Samples.truck_row; Samples.truck_row; Samples.car_row] in
  tally_cell (fst (HistogramApp.process_data rows)) 8 HistogramApp.hanley = Some 2 /\
  tally_cell (fst (HistogramApp.process_data rows)) 9 HistogramApp.elm = Some 0 /\
  (exists cmds,
     HistogramApp.draw_histogram (fst (HistogramApp.process_data [])) = Ok cmds /\
     length (omap rectangle_top_bottom cmds) = 48%nat) /\
  (exists cmds tb,
     HistogramApp.draw_histogram (fst (HistogramApp.process_data rows)) = Ok cmds /\
     omap rectangle_top_bottom cmds !! 18%nat = Some tb /\
     snd tb = HistogramApp.NInt HistogramApp.baseline /\
     at_baseline (fst tb)).
Proof.
  intros rows.
  pose proof (proj1 (proj2 (proj2 chart_tally_spec)) rows
                ltac:(vm_compute; reflexivity)) as Hcells.
  split; [|split; [|split]].
  - rewrite (Hcells 8 HistogramApp.hanley ltac:(lia) ltac:(right; reflexivity)).
    vm_compute. reflexivity.
  - rewrite (Hcells 9 HistogramApp.elm ltac:(lia) ltac:(left; reflexivity)).
    vm_compute. reflexivity.
  - destruct (proj1 (proj2 (proj2 (proj2 chart_tally_spec)))
                (fst (HistogramApp.process_data []))
                (proj1 (proj2 chart_tally_spec) [])
                (process_data_printable []
                   ltac:(vm_compute; reflexivity) ltac:(vm_compute; reflexivity))
                ltac:(vm_compute; reflexivity)) as (_ & cmds & Hd & Hl & _).
    exists cmds. split; assumption.
  - destruct (proj2 (proj2 (proj2 (proj2 chart_tally_spec))) rows
                ltac:(vm_compute; reflexivity)
                ltac:(vm_compute; reflexivity)) as (cmds & Hd & Hz).
    destruct (Forall2_lookup_l _ _ _ 18%nat 0 Hz ltac:(vm_compute; reflexivity))
      as (tb & Htb & Hb & Hzero).
    exists cmds, tb. split; [exact Hd|]. split; [exact Htb|].
    split; [exact Hb|exact (Hzero eq_refl)].
Defined.

(** * Further properties of the aggregator *)

(** ** Rows of complete lines *)

(** X1. When every line has as many fields as the header, no exception
    leaves the row loop: it runs to its end, the rows it skipped are
    exactly those on which [int] raised [ValueError], and its state is
    that of the pass over the validated events. *)
Theorem text_rows_never_abort rows st :
  Forall all_text rows ->
  for_rows rows st = (exec (for_events (parsed_events rows)) st, Ok tt) /\
  Forall (fun row => parses row = false -> parse_row row = Raise ValueError) rows.
Proof.
  intros H. split; [apply for_rows_all_text, H|].
  eapply Forall_impl; [exact H|]. intros row Hrow Hp. unfold parses in Hp.
  destruct (parse_row_all_text row Hrow) as [[ev E]|E]; [rewrite E in Hp; discriminate|exact E].
Qed.

Lemma text_rows_never_abort_witness :
  let rows := [Samples.truck_row; Samples.bad_speed_row; Samples.car_row] in
  for_rows rows init_acc = (exec (for_events (parsed_events rows)) init_acc, Ok tt) /\
  Forall (fun row => parses row = false -> parse_row row = Raise ValueError) rows.
Proof.
  intros rows. apply (text_rows_never_abort rows init_acc).
  repeat constructor; unfold Samples.bad_speed_row, Samples.truck_row, Samples.car_row;
    auto with returns.
Defined.

(** ** What [process_csv_data] raises *)

Lemma parse_row_raises row e :
  parse_row row = Raise e -> e = ValueError \/ e = TypeError \/ e = AttributeError.
Proof.
  unfold parse_row.
  repeat match goal with
  | |- context [str_method ?f (row_get row ?k ?d)] =>
      destruct (row_get row k d) as [?| |?]; simpl str_method;
      rewrite ?result_bind_ok, ?result_bind_raise;
      try (intros H; inversion H; tauto)
  | |- context [py_int (row_get row ?k ?d)] =>
      destruct (row_get row k d) as [?| |?]; simpl py_int;
      [match goal with |- context [PyStr.int_of_str ?s] =>
         destruct (PyStr.int_of_str s) end| |];
      rewrite ?result_bind_ok, ?result_bind_raise;
      try (intros H; inversion H; tauto)
  end.
Qed.

Lemma for_rows_raises rows : forall st st' e,
  for_rows rows st = (st', Raise e) -> e = TypeError \/ e = AttributeError.
Proof.
  induction rows as [|row rows IH]; intros st st' e H; simpl in H; [discriminate|].
  rewrite run_bind, try_row_run in H.
  destruct (parse_row row) as [ev|e0] eqn:E.
  - eapply IH, H.
  - destruct (parse_row_raises row e0 E) as [-> | [-> | ->]].
    + eapply IH, H.
    + inversion H. tauto.
    + inversion H. tauto.
Qed.

Lemma round_raises x e :
  PyFloat.round x = Raise e -> e = ValueError \/ e = OverflowError.
Proof. destruct x; simpl; intros H; inversion H; tauto. Qed.

Lemma int_truediv_raises a b e :
  PyFloat.int_truediv a b = Raise e -> e = ZeroDivisionError \/ e = OverflowError.
Proof.
  unfold PyFloat.int_truediv. destruct (b =? 0); [intros H; inversion H; tauto|].
  destruct (SFdiv_core_binary _ _ _ _ _ _) as [[q e0] l].
  destruct (binary_round_aux _ _ _ _ _ _); intros H; inversion H; tauto.
Qed.

Lemma percentage_raises a b e :
  percentage a b = Raise e ->
  e = ZeroDivisionError \/ e = OverflowError \/ e = ValueError.
Proof.
  unfold percentage.
  destruct (PyFloat.int_truediv a b) as [x|e0] eqn:E.
  - rewrite result_bind_ok. unfold PyFloat.mul_int.
    change (PyFloat.of_int 100) with (Ok (S754_finite false 7036874417766400 (-46))).
    rewrite !result_bind_ok. intros H. apply round_raises in H. tauto.
  - rewrite result_bind_raise. intros H. inversion H. subst.
    apply int_truediv_raises in E. tauto.
Qed.

Lemma peak_hour_range_raises h e : peak_hour_range h = Raise e -> e = ValueError.
Proof.
  unfold peak_hour_range. simpl py_int.
  destruct (PyStr.int_of_str h) as [n|].
  - rewrite result_bind_ok. unfold PyStr.format_int.
    destruct (PyStr.printable (n + 1)); [rewrite result_bind_ok; discriminate|].
    rewrite result_bind_raise. intros H. inversion H. reflexivity.
  - rewrite result_bind_raise. intros H. inversion H. reflexivity.
Qed.

Lemma map_result_peak_raises l : forall e,
  map_result peak_hour_range l = Raise e -> e = ValueError.
Proof.
  induction l as [|h l IH]; intros e H; simpl in H; [discriminate|].
  destruct (peak_hour_range h) as [b|e0] eqn:Eh.
  - rewrite result_bind_ok in H.
    destruct (map_result peak_hour_range l) as [bs|e1]; [discriminate|].
    rewrite result_bind_raise in H. inversion H. subst. apply IH. reflexivity.
  - rewrite result_bind_raise in H. inversion H. subst.
    apply (peak_hour_range_raises h), Eh.
Qed.

Lemma summarize_raises f st e :
  summarize f st = Raise e ->
  e = ZeroDivisionError \/ e = OverflowError \/ e = ValueError.
Proof.
  unfold summarize.
  destruct (compute_avg_bikes_per_hour _ _) as [avg|e0] eqn:Ea.
  2:{ rewrite result_bind_raise. intros H. inversion H. subst.
      unfold compute_avg_bikes_per_hour in Ea.
      destruct (set_len _ =? 0); [discriminate|].
      destruct (PyFloat.int_truediv _ _) as [x|e1] eqn:Ed.
      - rewrite result_bind_ok in Ea. apply round_raises in Ea. tauto.
      - rewrite result_bind_raise in Ea. inversion Ea. subst.
        apply int_truediv_raises in Ed. tauto. }
  rewrite result_bind_ok.
  destruct (compute_percentage_scooters_elm _) as [sc|e0] eqn:Es.
  2:{ rewrite result_bind_raise. intros H. inversion H. subst.
      unfold compute_percentage_scooters_elm in Es.
      destruct (0 <? _); [|discriminate]. apply percentage_raises in Es. tauto. }
  rewrite result_bind_ok.
  destruct (compute_percentage_trucks _) as [tr|e0] eqn:Et.
  2:{ rewrite result_bind_raise. intros H. inversion H. subst.
      apply percentage_raises in Et. tauto. }
  rewrite result_bind_ok.
  destruct (map_result _ _) as [rg|e0] eqn:Er.
  - rewrite result_bind_ok. discriminate.
  - rewrite result_bind_raise. intros H. inversion H. subst.
    apply map_result_peak_raises in Er. tauto.
Qed.

(** X2. Whatever [open] and the reader raise, [process_csv_data] raises
    only what its caller catches: [FileNotFoundError], exactly when the
    path does not exist at line 133, and otherwise a [RuntimeError]. The
    cause is the exception of [open] when the file does not open. When
    the reader gives up after some rows the call never returns a result,
    and the cause is the reader's exception or the [TypeError] or
    [AttributeError] of a short line before it. When the file is read to
    its end the cause is a [TypeError] or [AttributeError] of a short
    line, a [ZeroDivisionError], an [OverflowError] or a [ValueError]: a
    [KeyError] never leaves it. *)
Theorem process_csv_data_raises file_path rd e :
  process_csv_data_reading file_path rd = Raise e ->
  caught_by_caller e = true /\
  (e = FileNotFoundError <-> rd = NoFile) /\
  (rd <> NoFile -> exists cause, e = RuntimeError cause) /\
  (forall cause, rd = OpenFails cause -> e = RuntimeError cause) /\
  (forall rows stop,
     rd = Yields rows (Some stop) ->
     exists cause, e = RuntimeError cause /\ cause ∈ [TypeError; AttributeError; stop]) /\
  (forall rows,
     rd = Yields rows None ->
     process_csv_data_reading file_path rd = process_csv_data file_path (Some rows) /\
     exists cause,
       e = RuntimeError cause /\
       cause ∈ [TypeError; AttributeError; ZeroDivisionError; OverflowError; ValueError]) /\
  (forall rows stop r,
     process_csv_data_reading file_path (Yields rows (Some stop)) <> Ok r).
Proof.
  intros H.
  assert (Hnever : forall rows stop r,
             process_csv_data_reading file_path (Yields rows (Some stop)) <> Ok r).
  { intros rows stop r. unfold process_csv_data_reading. rewrite run_bind.
    destruct (for_rows rows init_acc) as [st [[]|e0]]; discriminate. }
  destruct rd as [|c|rows stop]; simpl in H.
  - inversion H. subst e. split; [reflexivity|]. split; [tauto|].
    split; [congruence|]. repeat split; try discriminate. exact Hnever.
  - inversion H. subst e. split; [reflexivity|]. split; [split; discriminate|].
    split; [eauto|]. split; [intros cause [= <-]; reflexivity|].
    repeat split; try discriminate. exact Hnever.
  - rewrite run_bind in H.
    destruct (for_rows rows init_acc) as [st [[]|e0]] eqn:E.
    + destruct stop as [s0|].
      * inversion H. subst e. split; [reflexivity|]. split; [split; discriminate|].
        split; [eauto|]. split; [discriminate|].
        split; [intros rows' stop' [= <- <-]; exists s0; split; [reflexivity|set_solver]|].
        split; [discriminate|exact Hnever].
      * rewrite finalize_run in H.
        destruct (summarize _ _) as [r|e1] eqn:Es; [discriminate|].
        inversion H. subst e. split; [reflexivity|]. split; [split; discriminate|].
        split; [eauto|]. split; [discriminate|]. split; [discriminate|].
        split; [|exact Hnever]. intros rows' [= <-]. split; [reflexivity|].
        exists e1. split; [reflexivity|]. apply summarize_raises in Es. set_solver.
    + inversion H. subst e. apply for_rows_raises in E.
      split; [reflexivity|]. split; [split; discriminate|].
      split; [eauto|]. split; [discriminate|].
      split; [intros rows' stop' _; exists e0; split; [reflexivity|set_solver]|].
      split; [|exact Hnever]. intros rows' [= <- Hs]. split; [subst stop; reflexivity|].
      exists e0. split; [reflexivity|set_solver].
Qed.

Lemma process_csv_data_raises_witness :
  let rd := Yields [Samples.truck_row] (Some (OtherException "_csv.Error")) in
  process_csv_data_reading "traffic_data.csv" rd
    = Raise (RuntimeError (OtherException "_csv.Error")) /\
  caught_by_caller (RuntimeError (OtherException "_csv.Error")) = true /\
  process_csv_data_reading "traffic_data.csv" (OpenFails (OtherException "IsADirectoryError"))
    = Raise (RuntimeError (OtherException "IsADirectoryError")).
Proof.
  intros rd.
  assert (H : process_csv_data_reading "traffic_data.csv" rd
              = Raise (RuntimeError (OtherException "_csv.Error")))
    by (vm_compute; reflexivity).
  split; [exact H|]. split; [|reflexivity].
  exact (proj1 (process_csv_data_raises "traffic_data.csv" rd _ H)).
Defined.

(** ** Totals as counts *)

Lemma count_events_le p q evs :
  (forall ev, p ev = true -> q ev = true) ->
  count_events p evs <= count_events q evs.
Proof.
  intros H. induction evs as [|ev evs IH]; simpl; [lia|].
  specialize (H ev). destruct (p ev), (q ev); try lia;
    try discriminate (H eq_refl).
Qed.

Lemma count_events_disjoint_sum p q r evs :
  (forall ev, r ev = p ev || q ev) ->
  (forall ev, p ev = true -> q ev = false) ->
  count_events r evs = count_events p evs + count_events q evs.
Proof.
  intros Hr Hd. induction evs as [|ev evs IH]; simpl; [lia|].
  rewrite Hr. specialize (Hd ev).
  destruct (p ev), (q ev); simpl; try lia; try discriminate (Hd eq_refl).
Qed.

Lemma count_events_disjoint_le p q r evs :
  (forall ev, p ev = true -> r ev = true) ->
  (forall ev, q ev = true -> r ev = true) ->
  (forall ev, p ev = true -> q ev = false) ->
  count_events p evs + count_events q evs <= count_events r evs.
Proof.
  intros Hp Hq Hd. induction evs as [|ev evs IH]; simpl; [lia|].
  specialize (Hp ev). specialize (Hq ev). specialize (Hd ev).
  destruct (p ev), (q ev), (r ev); simpl; try lia;
    try discriminate (Hp eq_refl); try discriminate (Hq eq_refl);
    try discriminate (Hd eq_refl).
Qed.

Lemma eqb_exclusive s a b :
  a <> b -> String.eqb s a = true -> String.eqb s b = false.
Proof.
  intros Hne H. apply String.eqb_eq in H. subst s.
  apply String.eqb_neq. exact Hne.
Qed.

Lemma out_totals_tget f rows r k :
  process_csv_data f (Some rows) = Ok r ->
  k <> Krain ->
  tget k (out_totals r) = count_events (counts_as k) (parsed_events rows).
Proof.
  intros H Hk. apply process_csv_data_ok, summarize_ok in H.
  destruct H as (_ & _ & _ & _ & -> & _). apply final_acc_tget, Hk.
Qed.

(** X3. In a returned result the two-wheeler total is the number of
    bicycles plus the number of motorcycles plus the number of scooters
    among the validated events (each event is counted once), so neither
    the bicycle total nor the Elm scooter total exceeds it. *)
Theorem bikes_total_is_sum file_path rows r :
  process_csv_data file_path (Some rows) = Ok r ->
  let evs := parsed_events rows in
  total_bikes (out_totals r) =
    count_events (is_type "Bicycle") evs + count_events (is_type "Motorcycle") evs
    + count_events (is_type "Scooter") evs /\
  total_bicycle (out_totals r) = count_events (is_type "Bicycle") evs /\
  total_bicycle (out_totals r) <= total_bikes (out_totals r) /\
  total_scooters_elm (out_totals r) <= total_bikes (out_totals r).
Proof.
  intros H evs.
  pose proof (out_totals_tget _ _ _ Kbikes H ltac:(discriminate)) as Hb.
  pose proof (out_totals_tget _ _ _ Kbicycle H ltac:(discriminate)) as Hc.
  pose proof (out_totals_tget _ _ _ Kscooters_elm H ltac:(discriminate)) as Hs.
  simpl tget in Hb, Hc, Hs. fold evs in Hb, Hc, Hs.
  assert (E : count_events (counts_as Kbikes) evs =
              count_events (is_type "Bicycle") evs
              + count_events (is_type "Motorcycle") evs
              + count_events (is_type "Scooter") evs).
  { rewrite (count_events_disjoint_sum
               (fun ev => is_type "Bicycle" ev || is_type "Motorcycle" ev)
               (is_type "Scooter") (counts_as Kbikes)).
    - f_equal. apply count_events_disjoint_sum; [reflexivity|].
      intros ev. apply eqb_exclusive. discriminate.
    - reflexivity.
    - intros ev Hor. apply orb_true_iff in Hor.
      destruct Hor as [Hor|Hor]; revert Hor; apply eqb_exclusive; discriminate. }
  rewrite Hb, Hc, Hs. split; [exact E|]. split; [reflexivity|]. split.
  - apply count_events_le. intros ev Hev. simpl in *. unfold is_bike_type.
    rewrite Hev. reflexivity.
  - apply count_events_le. intros ev Hev. simpl in *.
    apply andb_true_iff in Hev. destruct Hev as [_ Hev].
    unfold is_bike_type. rewrite Hev. apply orb_true_r.
Qed.

Lemma bikes_total_is_sum_witness :
  let rows := [Samples.bicycle_row "08:10"; Samples.truck_row; Samples.bicycle_row "09:00"] in
  exists r,
    process_csv_data "traffic_data.csv" (Some rows) = Ok r /\
    total_bikes (out_totals r) =
      count_events (is_type "Bicycle") (parsed_events rows)
      + count_events (is_type "Motorcycle") (parsed_events rows)
      + count_events (is_type "Scooter") (parsed_events rows) /\
    total_bicycle (out_totals r) = count_events (is_type "Bicycle") (parsed_events rows) /\
    total_bicycle (out_totals r) <= total_bikes (out_totals r) /\
    total_scooters_elm (out_totals r) <= total_bikes (out_totals r).
Proof.
  intros rows. eexists. split; [vm_compute; reflexivity|].
  apply (bikes_total_is_sum "traffic_data.csv" rows). vm_compute. reflexivity.
Defined.

(** X4. In a returned result the Elm and Hanley totals count disjoint
    sets of vehicles, and so do the buses heading north and the scooters
    at Elm: Elm total + Hanley total <= total vehicles, and buses north +
    scooters at Elm <= Elm total. *)
Theorem junction_totals_partition file_path rows r :
  process_csv_data file_path (Some rows) = Ok r ->
  total_elm_road (out_totals r) + total_hanley_road (out_totals r)
    <= total_vehicles (out_totals r) /\
  total_buses_north (out_totals r) + total_scooters_elm (out_totals r)
    <= total_elm_road (out_totals r).
Proof.
  intros H.
  pose proof (out_totals_tget _ _ _ Kelm H ltac:(discriminate)) as He.
  pose proof (out_totals_tget _ _ _ Khanley H ltac:(discriminate)) as Hh.
  pose proof (out_totals_tget _ _ _ Kvehicles H ltac:(discriminate)) as Hv.
  pose proof (out_totals_tget _ _ _ Kbuses_north H ltac:(discriminate)) as Hb.
  pose proof (out_totals_tget _ _ _ Kscooters_elm H ltac:(discriminate)) as Hs.
  simpl tget in *. rewrite He, Hh, Hv, Hb, Hs. split.
  - apply count_events_disjoint_le; try reflexivity.
    intros ev. simpl. apply eqb_exclusive. discriminate.
  - apply count_events_disjoint_le.
    + intros ev Hev. simpl in *. apply andb_true_iff in Hev.
      destruct Hev as [Hev _]. apply andb_true_iff in Hev. tauto.
    + intros ev Hev. simpl in *. apply andb_true_iff in Hev. tauto.
    + intros ev Hev. simpl in *. apply andb_true_iff in Hev.
      destruct Hev as [_ Hev].
      rewrite (eqb_exclusive _ "Buss" "Scooter" ltac:(discriminate) Hev).
      apply andb_false_r.
Qed.

Lemma junction_totals_partition_witness :
  exists r,
    process_csv_data "traffic_data.csv" (Some Samples.trucks_23_of_40) = Ok r /\
    total_elm_road (out_totals r) + total_hanley_road (out_totals r)
      <= total_vehicles (out_totals r) /\
    total_buses_north (out_totals r) + total_scooters_elm (out_totals r)
      <= total_elm_road (out_totals r).
Proof.
  eexists. split; [vm_compute; reflexivity|].
  apply (junction_totals_partition "traffic_data.csv" Samples.trucks_23_of_40).
  vm_compute. reflexivity.
Defined.

(** ** Scooters at Elm *)

(** X5. In a returned result the Elm scooter percentage is 0 when no
    validated event is at the Elm junction, and otherwise
    [round((scooters at Elm / Elm total) * 100)] evaluated in binary64;
    it lies in [0, 100] in both cases. *)
Theorem scooter_percentage_spec file_path rows r :
  process_csv_data file_path (Some rows) = Ok r ->
  let evs := parsed_events rows in
  let elm := count_events (counts_as Kelm) evs in
  let scooters := count_events (counts_as Kscooters_elm) evs in
  (elm = 0 -> percentage_scooters_elm r = 0) /\
  (0 < elm -> percentage scooters elm = Ok (percentage_scooters_elm r)) /\
  0 <= percentage_scooters_elm r <= 100.
Proof.
  intros H evs elm scooters.
  apply process_csv_data_ok, summarize_ok in H.
  destruct H as (_ & Hs & _).
  unfold compute_percentage_scooters_elm in Hs.
  change (total_elm_road (totals (final_acc (parsed_events rows))))
    with (tget Kelm (totals (final_acc (parsed_events rows)))) in Hs.
  change (total_scooters_elm (totals (final_acc (parsed_events rows))))
    with (tget Kscooters_elm (totals (final_acc (parsed_events rows)))) in Hs.
  rewrite !final_acc_tget in Hs by discriminate.
  fold evs in Hs. fold elm in Hs. fold scooters in Hs.
  assert (Hle : 0 <= scooters <= elm).
  { split; [apply count_events_nonneg|].
    apply count_events_le. intros ev Hev. simpl in *.
    apply andb_true_iff in Hev. tauto. }
  destruct (0 <? elm) eqn:E.
  - apply Z.ltb_lt in E.
    destruct (FloatFacts.percentage_bound scooters elm Hle E) as (p & Hp & Hr).
    rewrite Hp in Hs. inversion Hs. subst p.
    split; [lia|]. split; [intros _; exact Hp|exact Hr].
  - apply Z.ltb_ge in E. inversion Hs.
    split; [reflexivity|]. split; [lia|lia].
Qed.

Lemma scooter_percentage_spec_witness :
  let rows := [Samples.truck_row; Samples.car_row] in
  exists r,
    process_csv_data "traffic_data.csv" (Some rows) = Ok r /\
    (count_events (counts_as Kelm) (parsed_events rows) = 0 ->
     percentage_scooters_elm r = 0) /\
    (0 < count_events (counts_as Kelm) (parsed_events rows) ->
     percentage (count_events (counts_as Kscooters_elm) (parsed_events rows))
                (count_events (counts_as Kelm) (parsed_events rows))
       = Ok (percentage_scooters_elm r)) /\
    0 <= percentage_scooters_elm r <= 100.
Proof.
  intros rows. eexists. split; [vm_compute; reflexivity|].
  apply (scooter_percentage_spec "traffic_data.csv" rows). vm_compute. reflexivity.
Defined.

(** ** Rain hours *)

Section RainFacts.
Variable st : Acc.

Lemma rain_hours_when_incr b k :
  rain_hours (exec (when b (incr k)) st) = rain_hours st.
Proof. destruct b; reflexivity. Qed.

Lemma rain_hours_incr k : rain_hours (exec (incr k) st) = rain_hours st.
Proof. reflexivity. Qed.

Lemma rain_hours_when_rain b h :
  rain_hours (exec (when b (add_rain_hour h)) st) =
  if b then {[ h ]} ∪ rain_hours st else rain_hours st.
Proof. destruct b; reflexivity. Qed.

Lemma rain_hours_bump_hanley h :
  rain_hours (exec (bump_hanley h) st) = rain_hours st.
Proof. reflexivity. Qed.

Lemma rain_hours_when_bicycle b h :
  rain_hours (exec (when b (incr Kbicycle ;; add_bicycle_hour h)) st) = rain_hours st.
Proof. destruct b; reflexivity. Qed.
End RainFacts.

Lemma update_rain_hours ev st :
  rain_hours (exec (update ev) st) =
  if PyStr.contains "rain" (weather_condition ev)
  then {[ hour ev ]} ∪ rain_hours st
  else rain_hours st.
Proof.
  unfold update.
  rewrite !exec_seq by auto 20 with returns.
  rewrite rain_hours_when_bicycle.
  destruct (String.eqb (junction_name ev) "Elm Avenue/Rabbit Road");
    [|destruct (String.eqb (junction_name ev) "Hanley Highway/Westway")];
    rewrite ?exec_seq by auto 20 with returns;
    rewrite ?exec_mret, ?rain_hours_bump_hanley, ?rain_hours_when_incr,
      ?rain_hours_incr, rain_hours_when_rain, ?rain_hours_when_incr,
      ?rain_hours_incr; reflexivity.
Qed.

Lemma for_events_rain_hours evs : forall st,
  rain_hours (exec (for_events evs) st) = rain_hours st ∪ rain_hour_set evs.
Proof.
  induction evs as [|ev evs IH]; intros st; simpl.
  - rewrite exec_mret. set_solver.
  - rewrite exec_seq by auto with returns.
    rewrite IH, update_rain_hours.
    destruct (PyStr.contains "rain" (weather_condition ev)); set_solver.
Qed.

Lemma rain_hour_set_size evs :
  set_len (rain_hour_set evs) <=
  count_events (fun ev => PyStr.contains "rain" (weather_condition ev)) evs.
Proof.
  unfold set_len. induction evs as [|ev evs IH]; cbn [rain_hour_set count_events].
  - rewrite size_empty. lia.
  - destruct (PyStr.contains "rain" (weather_condition ev)); [|lia].
    rewrite size_union_alt.
    assert (size ({[hour ev]} ∖ rain_hour_set evs) <= 1)%nat.
    { rewrite <- (size_singleton (C:=gset string) (hour ev)).
      apply subseteq_size. set_solver. }
    lia.
Qed.

(** X6. In a returned result the rain-hour total is the number of
    distinct hour keys among the validated events whose lower-cased
    weather text contains "rain"; it is at most the number of such
    events, and 0 when there is none. *)
Theorem rain_hours_spec file_path rows r :
  process_csv_data file_path (Some rows) = Ok r ->
  let evs := parsed_events rows in
  let rainy := count_events (fun ev => PyStr.contains "rain" (weather_condition ev)) evs in
  total_rain_hours (out_totals r) = set_len (rain_hour_set evs) /\
  0 <= total_rain_hours (out_totals r) <= rainy.
Proof.
  intros H evs rainy.
  apply process_csv_data_ok, summarize_ok in H.
  destruct H as (_ & _ & _ & _ & -> & _). fold evs.
  assert (E : total_rain_hours (totals (final_acc evs)) = set_len (rain_hour_set evs)).
  { change (total_rain_hours (totals (final_acc evs)))
      with (tget Krain (totals (final_acc evs))).
    unfold final_acc. simpl totals. rewrite tget_tset.
    destruct (decide (Krain = Krain)); [|congruence].
    rewrite for_events_rain_hours. f_equal. simpl. set_solver. }
  rewrite E. split; [reflexivity|].
  split; [unfold set_len; lia|apply rain_hour_set_size].
Qed.

Lemma rain_hours_spec_witness :
  let rows := [Samples.truck_row; Samples.truck_row; Samples.car_row] in
  exists r,
    process_csv_data "traffic_data.csv" (Some rows) = Ok r /\
    total_rain_hours (out_totals r) = set_len (rain_hour_set (parsed_events rows)) /\
    0 <= total_rain_hours (out_totals r)
      <= count_events (fun ev => PyStr.contains "rain" (weather_condition ev))
           (parsed_events rows).
Proof.
  intros rows. eexists. split; [vm_compute; reflexivity|].
  apply (rain_hours_spec "traffic_data.csv" rows). vm_compute. reflexivity.
Defined.

(** ** The Hanley counter *)

Lemma dict_sum_set k d :
  dict_sum (dict_set k (dict_get k 0 d + 1) d) = dict_sum d + 1.
Proof.
  unfold dict_sum, dict_values, dict_get.
  induction d as [|[k0 v0] d IH]; simpl; [lia|].
  destruct (decide (k = k0)) as [->|Hne]; simpl; lia.
Qed.

Lemma dict_positive_set k d :
  Forall (fun item : string * Z => 1 <= snd item) d ->
  Forall (fun item : string * Z => 1 <= snd item) (dict_set k (dict_get k 0 d + 1) d).
Proof.
  unfold dict_get. induction d as [|[k0 v0] d IH]; simpl; intros H.
  - constructor; [simpl; lia|constructor].
  - inversion H as [|? ? H0 Hd]; subst. simpl in H0.
    destruct (decide (k = k0)) as [->|Hne]; simpl.
    + constructor; [simpl; lia|exact Hd].
    + constructor; [exact H0|apply IH, Hd].
Qed.

Lemma for_events_hanley_sum evs : forall st,
  dict_sum (hanley_counts_per_hour (exec (for_events evs) st)) =
  dict_sum (hanley_counts_per_hour st) + count_events (counts_as Khanley) evs.
Proof.
  induction evs as [|ev evs IH]; intros st; simpl.
  - rewrite exec_mret. lia.
  - rewrite exec_seq by auto with returns. rewrite IH, update_hanley.
    destruct (String.eqb (junction_name ev) "Hanley Highway/Westway"); [|lia].
    rewrite dict_sum_set. lia.
Qed.

Lemma for_events_hanley_positive evs : forall st,
  Forall (fun item : string * Z => 1 <= snd item) (hanley_counts_per_hour st) ->
  Forall (fun item : string * Z => 1 <= snd item)
    (hanley_counts_per_hour (exec (for_events evs) st)).
Proof.
  induction evs as [|ev evs IH]; intros st H; simpl.
  - rewrite exec_mret. exact H.
  - rewrite exec_seq by auto with returns. apply IH. rewrite update_hanley.
    destruct (String.eqb (junction_name ev) "Hanley Highway/Westway"); [|exact H].
    apply dict_positive_set, H.
Qed.

Lemma out_hanley f rows r :
  process_csv_data f (Some rows) = Ok r ->
  out_hanley_counts_per_hour r =
  hanley_counts_per_hour (exec (for_events (parsed_events rows)) init_acc).
Proof.
  intros H. apply process_csv_data_ok, summarize_ok in H.
  destruct H as (_ & _ & _ & _ & _ & -> & _). apply final_acc_hanley.
Qed.

Lemma hanley_counter_sum_positive file_path rows r :
  process_csv_data file_path (Some rows) = Ok r ->
  dict_sum (out_hanley_counts_per_hour r) = total_hanley_road (out_totals r) /\
  Forall (fun item : string * Z => 1 <= snd item) (out_hanley_counts_per_hour r).
Proof.
  intros H.
  pose proof (out_hanley _ _ _ H) as Ec.
  pose proof (out_totals_tget _ _ _ Khanley H ltac:(discriminate)) as Ht.
  simpl tget in Ht. rewrite Ec, Ht. split.
  - rewrite for_events_hanley_sum. reflexivity.
  - apply for_events_hanley_positive. constructor.
Qed.

(** X7. In a returned result the counts of the Hanley counter add up to
    the Hanley total, every hour key it holds has a count of at least 1,
    and an hour key is in the counter exactly when some validated Hanley
    event has that hour key: hours without events are absent, not 0. *)
Theorem hanley_counter_spec file_path rows r :
  process_csv_data file_path (Some rows) = Ok r ->
  let counts := out_hanley_counts_per_hour r in
  dict_sum counts = total_hanley_road (out_totals r) /\
  Forall (fun item => 1 <= snd item) counts /\
  (forall h, h ∈ dict_keys counts <->
             0 < count_events (at_hanley_hour h) (parsed_events rows)).
Proof.
  intros H counts.
  pose proof (out_hanley _ _ _ H) as Ec. fold counts in Ec.
  pose proof (out_totals_tget _ _ _ Khanley H ltac:(discriminate)) as Ht.
  simpl tget in Ht.
  assert (Hpos : Forall (fun item : string * Z => 1 <= snd item) counts).
  { rewrite Ec. apply for_events_hanley_positive. constructor. }
  split; [|split].
  - rewrite Ec, Ht, for_events_hanley_sum. reflexivity.
  - exact Hpos.
  - intros h.
    assert (Hg : count_events (at_hanley_hour h) (parsed_events rows) =
                 dict_get h 0 counts).
    { rewrite Ec, for_events_hanley_get. reflexivity. }
    rewrite Hg. unfold dict_get.
    destruct (dict_lookup h counts) as [c|] eqn:El.
    + split; intros _.
      * apply dict_lookup_elem_of in El.
        rewrite Forall_forall in Hpos. specialize (Hpos _ El). simpl in Hpos. lia.
      * eapply dict_lookup_Some_keys, El.
    + split; [|lia]. intros Hin.
      exfalso. exact (dict_lookup_None_keys h counts El Hin).
Qed.

Lemma hanley_counter_spec_witness :
  let rows := [Samples.truck_row; Samples.bicycle_row "23:10"; Samples.truck_row] in
  exists r,
    process_csv_data "traffic_data.csv" (Some rows) = Ok r /\
    dict_sum (out_hanley_counts_per_hour r) = total_hanley_road (out_totals r) /\
    Forall (fun item => 1 <= snd item) (out_hanley_counts_per_hour r) /\
    (forall h, h ∈ dict_keys (out_hanley_counts_per_hour r) <->
               0 < count_events (at_hanley_hour h) (parsed_events rows)).
Proof.
  intros rows. eexists. split; [vm_compute; reflexivity|].
  apply (hanley_counter_spec "traffic_data.csv" rows). vm_compute. reflexivity.
Defined.

Lemma dict_sum_positive d :
  Forall (fun item : string * Z => 1 <= snd item) d ->
  (dict_sum d = 0 <-> d = []) /\ 0 <= dict_sum d.
Proof.
  unfold dict_sum, dict_values. induction d as [|[k v] d IH]; simpl; intros H.
  - split; [tauto|lia].
  - inversion H as [|? ? H0 Hd]; subst. simpl in H0.
    destruct (IH Hd) as [_ Hnn]. split; [|lia].
    split; [lia|discriminate].
Qed.

Lemma peak_hours_spec_lemma :
  forall file_path rows r,
    process_csv_data file_path (Some rows) = Ok r ->
    Forall2 (fun h range => peak_hour_range h = Ok range)
      (map fst (filter (fun item => snd item =
                          max_default (dict_values (out_hanley_counts_per_hour r)) 0)
                  (out_hanley_counts_per_hour r)))
      (peak_hour_ranges r).
Proof.
  intros file_path rows r H.
  apply process_csv_data_ok, summarize_ok in H.
  destruct H as (_ & _ & _ & Hr & _ & Hc & _).
  apply map_result_Forall2 in Hr. rewrite <- Hc in Hr. exact Hr.
Qed.

(** X8. In a returned result the list of peak ranges is empty exactly
    when no validated event is at the Hanley junction; otherwise the
    maximum count is at least 1 and is the count of some hour key. *)
Theorem peak_ranges_empty_iff file_path rows r :
  process_csv_data file_path (Some rows) = Ok r ->
  let counts := out_hanley_counts_per_hour r in
  let max_count := max_default (dict_values counts) 0 in
  (peak_hour_ranges r = [] <-> total_hanley_road (out_totals r) = 0) /\
  (0 < total_hanley_road (out_totals r) ->
   1 <= max_count /\ exists h, (h, max_count) ∈ counts).
Proof.
  intros H counts max_count.
  destruct (hanley_counter_sum_positive _ _ _ H) as (Hsum & Hpos).
  fold counts in Hsum, Hpos.
  destruct (dict_sum_positive counts Hpos) as [Hz Hnn].
  pose proof (peak_hours_spec_lemma file_path rows r H) as Hf.
  fold counts in Hf. fold max_count in Hf.
  assert (Hmax : counts <> [] -> 1 <= max_count /\ exists h, (h, max_count) ∈ counts).
  { intros Hne.
    assert (Hin : max_count ∈ dict_values counts).
    { apply max_default_in. unfold dict_values. destruct counts; [congruence|discriminate]. }
    unfold dict_values in Hin. apply list_elem_of_fmap in Hin.
    destruct Hin as ([h c] & Hc & Hin). simpl in Hc. subst c.
    split; [|exists h; exact Hin].
    rewrite Forall_forall in Hpos. apply (Hpos _ Hin). }
  split.
  - rewrite <- Hsum, Hz. split.
    + intros Hr. rewrite Hr in Hf. apply Forall2_nil_inv_r in Hf.
      destruct (decide (counts = [])) as [Hnil|Hne]; [exact Hnil|].
      destruct (Hmax Hne) as (_ & h & Hin).
      assert (Hh : h ∈ map fst (filter (fun item => snd item = max_count) counts)).
      { apply list_elem_of_fmap. exists (h, max_count). split; [reflexivity|].
        apply list_elem_of_filter. split; [reflexivity|exact Hin]. }
      rewrite Hf in Hh. apply elem_of_nil in Hh. contradiction.
    + intros Hc. rewrite Hc in Hf. simpl in Hf.
      apply Forall2_nil_inv_l in Hf. exact Hf.
  - intros Hgt. apply Hmax. intros Hc. apply Hz in Hc. lia.
Qed.

Lemma peak_ranges_empty_iff_witness :
  let rows := [Samples.truck_row; Samples.car_row] in
  exists r,
    process_csv_data "traffic_data.csv" (Some rows) = Ok r /\
    (peak_hour_ranges r = [] <-> total_hanley_road (out_totals r) = 0) /\
    (0 < total_hanley_road (out_totals r) ->
     1 <= max_default (dict_values (out_hanley_counts_per_hour r)) 0 /\
     exists h, (h, max_default (dict_values (out_hanley_counts_per_hour r)) 0)
               ∈ out_hanley_counts_per_hour r).
Proof.
  intros rows. eexists. split; [vm_compute; reflexivity|].
  apply (peak_ranges_empty_iff "traffic_data.csv" rows). vm_compute. reflexivity.
Defined.

(** ** When [process_csv_data] returns *)

Section DictNoDup.
Context {K V : Type} `{EqDecision K}.

Lemma dict_elem_of_lookup (k : K) (v : V) (d : pydict K V) :
  NoDup (dict_keys d) -> (k, v) ∈ d -> dict_lookup k d = Some v.
Proof.
  induction d as [|[k0 v0] d IH]; simpl; intros Hnd Hin.
  - apply elem_of_nil in Hin. contradiction.
  - apply NoDup_cons in Hnd as [Hk0 Hnd].
    apply elem_of_cons in Hin as [Heq|Hin].
    + inversion Heq; subst. destruct (decide (k0 = k0)); congruence.
    + destruct (decide (k = k0)) as [->|Hne]; [|apply IH; assumption].
      exfalso. apply Hk0. apply list_elem_of_fmap.
      exists (k0, v). split; [reflexivity|exact Hin].
Qed.
End DictNoDup.

Lemma hanley_get_count evs h :
  dict_get h 0 (hanley_counts_per_hour (final_acc evs)) =
  count_events (at_hanley_hour h) evs.
Proof. rewrite final_acc_hanley, for_events_hanley_get. reflexivity. Qed.

Lemma hanley_elem_count evs h c :
  (h, c) ∈ hanley_counts_per_hour (final_acc evs) ->
  c = count_events (at_hanley_hour h) evs /\ 1 <= c.
Proof.
  intros Hin. split.
  - rewrite <- hanley_get_count. unfold dict_get.
    rewrite (dict_elem_of_lookup h c); [reflexivity| |exact Hin].
    rewrite final_acc_hanley. apply for_events_hanley_NoDup. constructor.
  - pose proof (for_events_hanley_positive evs init_acc ltac:(constructor)) as Hp.
    rewrite Forall_forall in Hp. rewrite final_acc_hanley in Hin.
    apply (Hp _ Hin).
Qed.

Lemma hanley_count_elem evs h :
  0 < count_events (at_hanley_hour h) evs ->
  (h, count_events (at_hanley_hour h) evs) ∈ hanley_counts_per_hour (final_acc evs).
Proof.
  intros Hpos. rewrite <- hanley_get_count in Hpos |- *. unfold dict_get in *.
  destruct (dict_lookup h (hanley_counts_per_hour (final_acc evs))) as [c|] eqn:E; [|lia].
  apply dict_lookup_elem_of, E.
Qed.

(** The keys line 228 selects are the peak hours. *)
Lemma compute_peak_hours_spec evs h :
  h ∈ compute_peak_hours (hanley_counts_per_hour (final_acc evs)) <-> peak_hour evs h.
Proof.
  unfold compute_peak_hours, peak_hour.
  set (counts := hanley_counts_per_hour (final_acc evs)).
  set (max_count := max_default (dict_values counts) 0).
  assert (Hup : forall k c, (k, c) ∈ counts -> c <= max_count).
  { intros k c Hin. apply max_default_upper. unfold dict_values.
    apply list_elem_of_fmap. exists (k, c). split; [reflexivity|exact Hin]. }
  assert (Hle : forall k, count_events (at_hanley_hour k) evs <= max_count \/
                          count_events (at_hanley_hour k) evs <= 0).
  { intros k. destruct (Z_lt_le_dec 0 (count_events (at_hanley_hour k) evs)) as [Hk|Hk];
      [left|right; exact Hk].
    apply (Hup k), hanley_count_elem, Hk. }
  split.
  - intros Hin. apply list_elem_of_fmap in Hin as ([k c] & -> & Hin).
    apply list_elem_of_filter in Hin as [Hc Hin]. simpl in Hc. subst c. simpl.
    apply hanley_elem_count in Hin as [Hm H1]. rewrite <- Hm.
    split; [lia|]. intros h'. destruct (Hle h'); lia.
  - intros [Hpos Hmax].
    apply list_elem_of_fmap. exists (h, count_events (at_hanley_hour h) evs).
    split; [reflexivity|]. apply list_elem_of_filter.
    split; [|apply hanley_count_elem, Hpos]. simpl.
    pose proof (Hup _ _ (hanley_count_elem evs h Hpos)) as Hle1.
    assert (Hin : max_count ∈ dict_values counts).
    { apply max_default_in. pose proof (hanley_count_elem evs h Hpos) as Hin.
      fold counts in Hin. unfold dict_values. destruct counts; [|discriminate].
      apply elem_of_nil in Hin. contradiction. }
    unfold dict_values in Hin. apply list_elem_of_fmap in Hin as ([k c] & Hc & Hin).
    simpl in Hc. subst c. apply hanley_elem_count in Hin as [Hm _].
    specialize (Hmax k). lia.
Qed.

Lemma map_result_ok {A B} (f : A -> result B) l :
  Forall (fun a => exists b, f a = Ok b) l -> exists l', map_result f l = Ok l'.
Proof.
  induction l as [|a l IH]; intros H; simpl; [eauto|].
  inversion H as [|? ? [b Hb] Hl]; subst.
  destruct (IH Hl) as [l' Hl']. rewrite Hb, result_bind_ok, Hl', result_bind_ok. eauto.
Qed.

Lemma map_result_raise {A B} (f : A -> result B) e l :
  (forall a e', f a = Raise e' -> e' = e) ->
  (exists a, a ∈ l /\ f a = Raise e) -> map_result f l = Raise e.
Proof.
  intros He. induction l as [|a l IH]; intros (x & Hin & Hx); simpl.
  - apply elem_of_nil in Hin. contradiction.
  - destruct (f a) as [b|e'] eqn:Ea.
    + rewrite result_bind_ok.
      apply elem_of_cons in Hin as [->|Hin]; [congruence|].
      rewrite IH by eauto. reflexivity.
    + rewrite (He a e' Ea). reflexivity.
Qed.

(** The three rounded metrics of lines 222-224 on the totals of a pass
    over at least one and fewer than 2^53 events. *)
Lemma metrics_ok evs :
  evs <> [] -> Z.of_nat (length evs) < 2 ^ 53 ->
  exists avg scooters trucks,
    compute_avg_bikes_per_hour (totals (final_acc evs)) (bicycle_hours (final_acc evs))
      = Ok avg /\
    compute_percentage_scooters_elm (totals (final_acc evs)) = Ok scooters /\
    compute_percentage_trucks (totals (final_acc evs)) = Ok trucks.
Proof.
  intros Hne Hlen.
  assert (Ht : forall k, k <> Krain ->
                 tget k (totals (final_acc evs)) = count_events (counts_as k) evs).
  { intros k Hk. apply final_acc_tget, Hk. }
  assert (Hv : total_vehicles (totals (final_acc evs)) = Z.of_nat (length evs)).
  { change (total_vehicles (totals (final_acc evs)))
      with (tget Kvehicles (totals (final_acc evs))).
    rewrite Ht by discriminate. apply count_events_all. }
  assert (Hpos : 0 < Z.of_nat (length evs)).
  { destruct evs; [congruence|simpl length; lia]. }
  assert (Havg : exists avg, compute_avg_bikes_per_hour (totals (final_acc evs))
                               (bicycle_hours (final_acc evs)) = Ok avg).
  { unfold compute_avg_bikes_per_hour.
    destruct (set_len (bicycle_hours (final_acc evs)) =? 0) eqn:E; [eauto|].
    apply Z.eqb_neq in E.
    change (total_bicycle (totals (final_acc evs)))
      with (tget Kbicycle (totals (final_acc evs))).
    rewrite Ht by discriminate.
    pose proof (count_events_nonneg (counts_as Kbicycle) evs) as H0.
    pose proof (count_events_le_length (counts_as Kbicycle) evs) as H1.
    assert (Hs : 0 < set_len (bicycle_hours (final_acc evs))).
    { unfold set_len in *. lia. }
    destruct (FloatFacts.round_truediv_bound
                (count_events (counts_as Kbicycle) evs)
                (set_len (bicycle_hours (final_acc evs)))
                (count_events (counts_as Kbicycle) evs)) as (p & Hp & _);
      [nia|exact Hs|lia|eauto]. }
  assert (Hsc : exists p, compute_percentage_scooters_elm (totals (final_acc evs)) = Ok p).
  { unfold compute_percentage_scooters_elm.
    change (total_elm_road (totals (final_acc evs)))
      with (tget Kelm (totals (final_acc evs))).
    change (total_scooters_elm (totals (final_acc evs)))
      with (tget Kscooters_elm (totals (final_acc evs))).
    rewrite !Ht by discriminate.
    destruct (0 <? count_events (counts_as Kelm) evs) eqn:E; [|eauto].
    apply Z.ltb_lt in E.
    destruct (FloatFacts.percentage_bound (count_events (counts_as Kscooters_elm) evs)
                (count_events (counts_as Kelm) evs)) as (p & Hp & _); [|exact E|eauto].
    split; [apply count_events_nonneg|].
    apply count_events_le. intros ev Hev. simpl in *.
    apply andb_true_iff in Hev. tauto. }
  assert (Htr : exists p, compute_percentage_trucks (totals (final_acc evs)) = Ok p).
  { unfold compute_percentage_trucks. rewrite Hv.
    change (total_trucks (totals (final_acc evs)))
      with (tget Ktrucks (totals (final_acc evs))).
    rewrite Ht by discriminate.
    destruct (FloatFacts.percentage_bound (count_events (counts_as Ktrucks) evs)
                (Z.of_nat (length evs))) as (p & Hp & _); [|exact Hpos|eauto].
    split; [apply count_events_nonneg|apply count_events_le_length]. }
  destruct Havg as [avg Havg], Hsc as [sc Hsc], Htr as [tr Htr].
  exists avg, sc, tr. repeat split; assumption.
Qed.

Lemma parsed_events_length rows :
  (length (parsed_events rows) <= length rows)%nat.
Proof.
  unfold parsed_events. induction rows as [|row rows IH]; simpl; [lia|].
  fold (omap parsed rows). destruct (parsed row); simpl; lia.
Qed.

(** X9. For a file of complete lines with at least one validated row
    and fewer than 2^53 rows, the hour keys of the peak hours decide the
    call. It returns a result when, for every peak hour key, [int] reads
    the key and the number after it is printable. It raises
    [RuntimeError] from a [ValueError] when [int] refuses some peak hour
    key (a time such as [noon]), or when the number after one is not
    printable (a key of 4300 nines), although every row was counted
    without error. *)
Theorem peak_keys_decide_return file_path rows :
  Forall all_text rows -> parsed_events rows <> [] ->
  Z.of_nat (length rows) < 2 ^ 53 ->
  ((forall h, peak_hour (parsed_events rows) h ->
      exists n, PyStr.int_of_str h = Some n /\ PyStr.printable (n + 1) = true) ->
   exists r, process_csv_data file_path (Some rows) = Ok r) /\
  (forall h, peak_hour (parsed_events rows) h ->
     PyStr.int_of_str h = None \/
     (exists n, PyStr.int_of_str h = Some n /\ PyStr.printable (n + 1) = false) ->
   process_csv_data file_path (Some rows) = Raise (RuntimeError ValueError)).
Proof.
  intros Htext Hne Hlen.
  rewrite (process_csv_data_all_text file_path rows Htext).
  destruct (metrics_ok (parsed_events rows) Hne) as (avg & sc & tr & Ha & Hs & Ht).
  { pose proof (parsed_events_length rows). lia. }
  unfold summarize. rewrite Ha, Hs, Ht, !result_bind_ok.
  split.
  - intros Hkeys.
    destruct (map_result_ok peak_hour_range
                (compute_peak_hours (hanley_counts_per_hour (final_acc (parsed_events rows)))))
      as [ranges Hr].
    { apply Forall_forall. intros h Hh. apply compute_peak_hours_spec in Hh.
      destruct (Hkeys h Hh) as (n & Hn & Hp). unfold peak_hour_range, PyStr.format_int.
      simpl py_int. rewrite Hn, result_bind_ok, Hp, result_bind_ok. eauto. }
    rewrite Hr, result_bind_ok. eauto.
  - intros h Hh Hi.
    rewrite (map_result_raise peak_hour_range ValueError); [reflexivity| |].
    + intros a e. apply peak_hour_range_raises.
    + exists h. split; [apply compute_peak_hours_spec, Hh|].
      unfold peak_hour_range, PyStr.format_int. simpl py_int.
      destruct Hi as [Hi|(n & Hn & Hp)].
      * rewrite Hi. reflexivity.
      * rewrite Hn, result_bind_ok, Hp. reflexivity.
Qed.

Lemma peak_keys_decide_return_witness :
  let rows := [Samples.car_row; Samples.bicycle_row "noon"] in
  peak_hour (parsed_events rows) "noon" /\
  process_csv_data "traffic_data.csv" (Some rows) = Raise (RuntimeError ValueError).
Proof.
  intros rows.
  assert (Hp : peak_hour (parsed_events rows) "noon").
  { split; [vm_compute; reflexivity|]. intros h'.
    change (count_events (at_hanley_hour "noon") (parsed_events rows)) with 1.
    change (count_events (at_hanley_hour h') (parsed_events rows))
      with (0 + ((if String.eqb "noon" h' then 1 else 0) + 0)).
    destruct (String.eqb "noon" h'); lia. }
  split; [exact Hp|].
  refine (proj2 (peak_keys_decide_return "traffic_data.csv" rows _ _ _) "noon" Hp _).
  - repeat constructor; unfold Samples.bicycle_row, Samples.car_row; auto with returns.
  - vm_compute. discriminate.
  - vm_compute. reflexivity.
  - left. vm_compute. reflexivity.
Defined.

(** ** The date dialogue *)

Section DateInputFacts.
Import DateInput.

Lemma read_field_got lo hi inputs n rest :
  read_field lo hi inputs = Got n rest ->
  exists line, inputs = line :: rest /\ accepted lo hi line n.
Proof.
  unfold read_field, accepted. destruct inputs as [|line rest0]; [discriminate|].
  destruct (isdigit (PyStr.strip line)) eqn:Hd; simpl; [|discriminate].
  destruct (int_of_input (PyStr.strip line)) as [m|] eqn:Hi; [|discriminate].
  destruct ((lo <=? m) && (m <=? hi)) eqn:Hr; [|discriminate].
  intros [= -> ->]. exists line. rewrite Hd, Hi.
  repeat split; try reflexivity; lia.
Qed.

Lemma read_field_continue lo hi inputs rest :
  read_field lo hi inputs = Stop (Continue rest) ->
  exists line, inputs = line :: rest /\ rejected lo hi line.
Proof.
  unfold read_field, rejected. destruct inputs as [|line rest0]; [discriminate|].
  destruct (isdigit (PyStr.strip line)) eqn:Hd; simpl.
  - destruct (int_of_input (PyStr.strip line)) as [m|] eqn:Hi; [|discriminate].
    destruct ((lo <=? m) && (m <=? hi)) eqn:Hr; [discriminate|].
    intros [= ->]. exists line. split; [reflexivity|]. right. exists m.
    rewrite Hd, Hi. repeat split. lia.
  - intros [= ->]. exists line. split; [reflexivity|]. left. exact Hd.
Qed.

Lemma read_field_return lo hi inputs r rest :
  read_field lo hi inputs = Stop (Return r rest) ->
  r = None /\ (length rest <= length inputs)%nat.
Proof.
  unfold read_field. destruct inputs as [|line rest0].
  - intros [= <- <-]. split; [reflexivity|simpl; lia].
  - destruct (isdigit (PyStr.strip line)); simpl; [|discriminate].
    destruct (int_of_input (PyStr.strip line)) as [m|].
    + destruct ((lo <=? m) && (m <=? hi)); discriminate.
    + intros [= <- <-]. split; [reflexivity|simpl; lia].
Qed.

Lemma read_field_accepted lo hi line n rest :
  accepted lo hi line n -> read_field lo hi (line :: rest) = Got n rest.
Proof.
  intros (Hd & Hi & Hr). unfold read_field. rewrite Hd, Hi. simpl.
  replace ((lo <=? n) && (n <=? hi)) with true by lia. reflexivity.
Qed.

Lemma read_field_rejected lo hi line rest :
  rejected lo hi line -> read_field lo hi (line :: rest) = Stop (Continue rest).
Proof.
  intros [Hd|(n & Hd & Hi & Hr)]; unfold read_field; rewrite Hd; simpl.
  - reflexivity.
  - rewrite Hi. replace ((lo <=? n) && (n <=? hi)) with false by lia. reflexivity.
Qed.

Lemma choose_return files date inputs : forall o,
  choose files date inputs = o ->
  exists r rest, o = Return r rest /\ (length rest <= length inputs)%nat /\
    forall p d, r = Some (p, d) ->
      d = date /\ (length rest < length inputs)%nat /\
      exists f, f ∈ files /\ p = path_join f.
Proof.
  induction inputs as [|line inputs IH]; intros o; simpl.
  - intros <-. exists None, []. repeat split; try discriminate. simpl; lia.
  - destruct (int_of_input (PyStr.strip line)) as [n|].
    + destruct ((0 <=? n - 1) && (n - 1 <? Z.of_nat (length files))).
      * destruct (nth_error files (Z.to_nat (n - 1))) as [f|] eqn:Ef; intros <-.
        -- exists (Some (path_join f, date)), inputs.
           split; [reflexivity|]. split; [lia|]. intros p d [= <- <-].
           split; [reflexivity|]. split; [lia|]. exists f. split; [|reflexivity].
           apply list_elem_of_In. eapply nth_error_In, Ef.
        -- exists None, inputs. split; [reflexivity|]. split; [lia|]. discriminate.
      * intros Ho. destruct (IH _ Ho) as (r & rest & -> & Hl & Hs).
        exists r, rest. split; [reflexivity|]. split; [lia|].
        intros p d Hr. destruct (Hs p d Hr) as (? & ? & ?). repeat split; auto; lia.
    + intros Ho. destruct (IH _ Ho) as (r & rest & -> & Hl & Hs).
      exists r, rest. split; [reflexivity|]. split; [lia|].
      intros p d Hr. destruct (Hs p d Hr) as (? & ? & ?). repeat split; auto; lia.
Qed.

Lemma date_str_ok year month day date :
  date_str year month day = Ok date ->
  1 <= year <= 9999 /\ valid_date year month day /\
  date = (zero_pad 2 day ++ zero_pad 2 month ++ zero_pad 4 year)%string.
Proof.
  unfold date_str, valid_date.
  destruct ((1 <=? year) && (year <=? 9999) && (1 <=? month) && (month <=? 12)
            && (1 <=? day) && (day <=? days_in_month year month)) eqn:E;
    [|discriminate].
  intros [= <-]. repeat split; lia.
Qed.

Lemma date_str_raise year month day :
  1 <= year <= 9999 -> ~ valid_date year month day ->
  date_str year month day = Raise ValueError.
Proof.
  unfold date_str, valid_date. intros Hy Hv.
  destruct ((1 <=? year) && (year <=? 9999) && (1 <=? month) && (month <=? 12)
            && (1 <=? day) && (day <=? days_in_month year month)) eqn:E;
    [|reflexivity].
  exfalso. apply Hv. lia.
Qed.

Lemma files_found_spec listing date f :
  f ∈ files_found listing date <->
  f ∈ listing /\ ends_with ".csv" f = true /\
  PyStr.contains ("traffic_data" ++ date ++ ".csv") f = true.
Proof.
  unfold files_found. rewrite list_elem_of_In, filter_In, <- list_elem_of_In.
  rewrite andb_true_iff. tauto.
Qed.

(** What a pass returns, and that a pass which continues has read a
    line. *)
Lemma pass_spec listing inputs :
  match pass listing inputs with
  | Continue rest => (length rest < length inputs)%nat
  | Return None rest => (length rest <= length inputs)%nat
  | Return (Some (path, date)) rest =>
      (length rest + 3 <= length inputs)%nat /\
      exists l1 l2 l3 tail day month year f,
        inputs = l1 :: l2 :: l3 :: tail /\
        accepted 1 31 l1 day /\ accepted 1 12 l2 month /\
        accepted 2000 2024 l3 year /\
        date_str year month day = Ok date /\
        f ∈ files_found listing date /\ path = path_join f
  end.
Proof.
  unfold pass.
  destruct (read_field 1 31 inputs) as [day rest1|o] eqn:E1.
  2:{ destruct o as [r rest|rest].
      - apply read_field_return in E1 as [-> Hl]. exact Hl.
      - apply read_field_continue in E1 as (line & -> & _). simpl; lia. }
  apply read_field_got in E1 as (l1 & -> & A1).
  destruct (read_field 1 12 rest1) as [month rest2|o] eqn:E2.
  2:{ destruct o as [r rest|rest].
      - apply read_field_return in E2 as [-> Hl]. simpl; lia.
      - apply read_field_continue in E2 as (line & -> & _). simpl; lia. }
  apply read_field_got in E2 as (l2 & -> & A2).
  destruct (read_field 2000 2024 rest2) as [year rest3|o] eqn:E3.
  2:{ destruct o as [r rest|rest].
      - apply read_field_return in E3 as [-> Hl]. simpl; lia.
      - apply read_field_continue in E3 as (line & -> & _). simpl; lia. }
  apply read_field_got in E3 as (l3 & -> & A3).
  destruct (date_str year month day) as [date|e] eqn:Ed; [|simpl; lia].
  destruct (files_found listing date) as [|f [|f' files]] eqn:Ef; [simpl; lia| |].
  - split; [simpl; lia|].
    exists l1, l2, l3, rest3, day, month, year, f.
    repeat split; try assumption; try apply A1; try apply A2; try apply A3.
    rewrite Ef. apply list_elem_of_here.
  - destruct (choose_return (f :: f' :: files) date rest3 _ eq_refl)
      as (r & rest & -> & Hl & Hs).
    destruct r as [[p d]|]; [|simpl; lia].
    destruct (Hs p d eq_refl) as (-> & Hlt & f0 & Hin & ->).
    split; [simpl; lia|].
    exists l1, l2, l3, rest3, day, month, year, f0.
    repeat split; try assumption; try apply A1; try apply A2; try apply A3.
    rewrite Ef. exact Hin.
Qed.

Lemma loop_total listing : forall fuel inputs,
  (length inputs < fuel)%nat ->
  exists r rest, loop fuel listing inputs = Some (r, rest) /\
                 (length rest <= length inputs)%nat.
Proof.
  induction fuel as [|fuel IH]; intros inputs Hl; [lia|]. simpl.
  pose proof (pass_spec listing inputs) as Hp.
  destruct (pass listing inputs) as [r rest|rest].
  - exists r, rest. split; [reflexivity|]. destruct r as [[p d]|]; [|exact Hp].
    destruct Hp as [Hp _]. lia.
  - destruct (IH rest ltac:(lia)) as (r & rest' & -> & Hr).
    exists r, rest'. split; [reflexivity|lia].
Qed.

Lemma loop_fuel listing : forall fuel fuel' inputs x,
  loop fuel listing inputs = Some x -> (fuel <= fuel')%nat ->
  loop fuel' listing inputs = Some x.
Proof.
  induction fuel as [|fuel IH]; intros fuel' inputs x; [discriminate|].
  destruct fuel' as [|fuel']; [lia|]. simpl.
  destruct (pass listing inputs) as [r rest|rest]; [auto|].
  intros H Hle. apply (IH fuel' rest x H). lia.
Qed.

Lemma run_continue listing inputs rest :
  pass listing inputs = Continue rest -> run listing inputs = run listing rest.
Proof.
  intros Hp. unfold run.
  pose proof (pass_spec listing inputs) as Hl. rewrite Hp in Hl.
  destruct (loop_total listing (S (length rest)) rest ltac:(lia)) as (r & rest' & E & _).
  rewrite E. simpl. rewrite Hp. apply (loop_fuel listing _ _ _ _ E). lia.
Qed.

Lemma validate_continue listing inputs rest :
  pass listing inputs = Continue rest ->
  validate_date_input listing inputs = validate_date_input listing rest.
Proof.
  intros Hp. unfold validate_date_input. rewrite (run_continue _ _ _ Hp). reflexivity.
Qed.

Lemma run_sound listing : forall fuel inputs path date rest,
  loop fuel listing inputs = Some (Some (path, date), rest) ->
  (length rest + 3 <= length inputs)%nat /\
  exists day month year f,
    date_str year month day = Ok date /\ 2000 <= year <= 2024 /\
    f ∈ files_found listing date /\ path = path_join f.
Proof.
  induction fuel as [|fuel IH]; intros inputs path date rest; [discriminate|].
  simpl. pose proof (pass_spec listing inputs) as Hp.
  destruct (pass listing inputs) as [r rest0|rest0].
  - intros [= -> ->]. destruct Hp as (Hl & l1 & l2 & l3 & tail & day & month & year & f
                                       & _ & _ & _ & A3 & Hd & Hf & ->).
    split; [exact Hl|]. exists day, month, year, f.
    repeat split; try assumption; apply A3.
  - intros H. destruct (IH _ _ _ _ H) as (Hl & Hex). split; [lia|exact Hex].
Qed.

Lemma isdigit_not_int_space c : isdigit_char c = true -> PyStr.is_int_space c = false.
Proof.
  destruct c as [[] [] [] [] [] [] [] []]; vm_compute; congruence.
Qed.

Lemma int_rstrip_digits s : all_chars isdigit_char s = true -> PyStr.int_rstrip s = s.
Proof.
  induction s as [|c s IH]; simpl; [reflexivity|].
  intros H. apply andb_prop in H as [Hc Hs]. rewrite (IH Hs).
  destruct s; [|reflexivity]. rewrite (isdigit_not_int_space c Hc). reflexivity.
Qed.

Lemma int_strip_digits s : all_chars isdigit_char s = true -> PyStr.int_strip s = s.
Proof.
  intros H. unfold PyStr.int_strip.
  replace (PyStr.int_lstrip s) with s; [apply int_rstrip_digits, H|].
  destruct s as [|c s]; [reflexivity|]. simpl in *.
  apply andb_prop in H as [Hc _]. rewrite (isdigit_not_int_space c Hc). reflexivity.
Qed.

Lemma int_digits_not_decimal s : forall acc,
  all_chars isdigit_char s = true -> all_chars PyStr.is_digit s = false ->
  PyStr.int_digits acc s = None.
Proof.
  induction s as [|c s IH]; intros acc; simpl; [discriminate|].
  intros H Hn. apply andb_prop in H as [Hc Hs].
  destruct (PyStr.is_digit c) eqn:Ec; simpl in Hn.
  - apply IH; assumption.
  - replace (Ascii.eqb c "_") with false; [reflexivity|].
    clear -Hc. destruct c as [[] [] [] [] [] [] [] []]; vm_compute in Hc |- *; congruence.
Qed.

Lemma int_of_str_not_decimal s :
  isdigit s = true -> all_chars PyStr.is_digit s = false ->
  PyStr.int_of_str s = None.
Proof.
  intros Hd Hn. unfold PyStr.int_of_str.
  destruct (PyStr.max_str_digits <? PyStr.count_digits s); [reflexivity|].
  assert (Ha : all_chars isdigit_char s = true).
  { destruct s; [discriminate|exact Hd]. }
  rewrite (int_strip_digits s Ha).
  destruct s as [|c s]; [reflexivity|].
  simpl in Ha, Hn. apply andb_prop in Ha as [Hc Hs].
  assert (Hu : PyStr.int_unsigned (String c s) = None).
  { simpl. destruct (PyStr.is_digit c) eqn:Ec; [|reflexivity].
    apply int_digits_not_decimal; assumption. }
  assert (Hsign : c <> "-"%char /\ c <> "+"%char).
  { clear -Hc. split; intros ->; vm_compute in Hc; discriminate. }
  destruct Hsign as [Hm Hp].
  destruct c as [[] [] [] [] [] [] [] []]; try exact Hu; congruence.
Qed.

Lemma count_digits_length s :
  all_chars PyStr.is_digit s = true -> count_digits s = Z.of_nat (String.length s).
Proof.
  induction s as [|c s IH]; simpl; [reflexivity|].
  intros H. apply andb_prop in H as [-> Hs]. rewrite (IH Hs). lia.
Qed.

Lemma int_of_input_none s :
  isdigit s = true ->
  all_chars PyStr.is_digit s = false \/ max_str_digits < Z.of_nat (String.length s) ->
  int_of_input s = None.
Proof.
  intros Hd H. unfold int_of_input.
  destruct (all_chars PyStr.is_digit s) eqn:Ea.
  - destruct H as [H|H]; [discriminate|].
    rewrite (count_digits_length s Ea).
    replace (max_str_digits <? Z.of_nat (String.length s)) with true by lia.
    reflexivity.
  - rewrite (int_of_str_not_decimal s Hd Ea).
    destruct (max_str_digits <? count_digits s); reflexivity.
Qed.

Lemma choose_skips files date bad : forall rest,
  Forall (bad_choice files) bad ->
  choose files date (bad ++ rest) = choose files date rest.
Proof.
  induction bad as [|line bad IH]; intros rest Hb; [reflexivity|].
  inversion Hb as [|? ? Hl Hbad]; subst. simpl. rewrite (IH rest Hbad).
  unfold bad_choice in Hl.
  destruct (int_of_input (PyStr.strip line)) as [n|]; [|reflexivity].
  replace ((0 <=? n - 1) && (n - 1 <? Z.of_nat (length files))) with false by lia.
  reflexivity.
Qed.

End DateInputFacts.

(** X10. Whatever the directory holds and whatever is typed, the date
    dialogue ends on a finite script of input lines: it returns, having
    read a prefix of the script; and it returns a path only after it has
    read at least three lines. *)
Theorem date_dialogue_returns listing inputs :
  exists r rest,
    DateInput.run listing inputs = Some (r, rest) /\
    (length rest <= length inputs)%nat /\
    DateInput.validate_date_input listing inputs = r /\
    (r <> None -> (length rest + 3 <= length inputs)%nat).
Proof.
  destruct (loop_total listing (S (length inputs)) inputs ltac:(lia))
    as (r & rest & E & Hl).
  exists r, rest. split; [exact E|]. split; [exact Hl|].
  split; [unfold DateInput.validate_date_input, DateInput.run; rewrite E; reflexivity|].
  intros Hr. destruct r as [[p d]|]; [|congruence].
  apply (run_sound listing _ _ _ _ _ E).
Qed.

(** X11. A returned pair is sound: the date text is day, month and year
    of a date of the calendar with the year between 2000 and 2024, written
    with two, two and four digits; the path is [./] joined to a name of
    the directory listing that ends in [.csv] and contains
    [traffic_data<date>.csv]. *)
Theorem date_dialogue_sound listing inputs path date :
  DateInput.validate_date_input listing inputs = Some (path, date) ->
  exists day month year f,
    2000 <= year <= 2024 /\ DateInput.valid_date year month day /\
    date = (DateInput.zero_pad 2 day ++ DateInput.zero_pad 2 month
            ++ DateInput.zero_pad 4 year)%string /\
    f ∈ listing /\ path = DateInput.path_join f /\
    DateInput.ends_with ".csv" f = true /\
    PyStr.contains ("traffic_data" ++ date ++ ".csv") f = true.
Proof.
  unfold DateInput.validate_date_input, DateInput.run.
  destruct (DateInput.loop (S (length inputs)) listing inputs) as [[r rest]|] eqn:E;
    [|discriminate].
  intros ->. apply run_sound in E as (_ & day & month & year & f & Hd & Hy & Hf & ->).
  apply date_str_ok in Hd as (_ & Hv & ->).
  apply files_found_spec in Hf as (Hin & He & Hc).
  exists day, month, year, f. repeat split; try assumption; try apply Hy; apply Hv.
Qed.

Lemma date_dialogue_sound_witness :
  let listing := ["notes.txt"; "traffic_data15062024.csv"] in
  let inputs := ["abc"; " 15 "; "06"; "2024"; "unread"] in
  DateInput.validate_date_input listing inputs
    = Some ("./traffic_data15062024.csv", "15062024") /\
  exists day month year f,
    2000 <= year <= 2024 /\ DateInput.valid_date year month day /\
    "15062024" = (DateInput.zero_pad 2 day ++ DateInput.zero_pad 2 month
                  ++ DateInput.zero_pad 4 year)%string /\
    f ∈ listing /\ "./traffic_data15062024.csv" = DateInput.path_join f /\
    DateInput.ends_with ".csv" f = true /\
    PyStr.contains ("traffic_data" ++ "15062024" ++ ".csv") f = true.
Proof.
  intros listing inputs. split; [vm_compute; reflexivity|].
  apply (date_dialogue_sound listing inputs). vm_compute. reflexivity.
Defined.

(** X12. A rejected answer restarts the dialogue at the day: after a
    rejected day, after an accepted day and a rejected month, and after
    an accepted day and month and a rejected year, the function goes on
    as if called afresh on the lines that follow. *)
Theorem rejected_field_restarts listing l1 l2 l3 day month rest :
  (DateInput.rejected 1 31 l1 ->
   DateInput.validate_date_input listing (l1 :: rest)
   = DateInput.validate_date_input listing rest) /\
  (DateInput.accepted 1 31 l1 day -> DateInput.rejected 1 12 l2 ->
   DateInput.validate_date_input listing (l1 :: l2 :: rest)
   = DateInput.validate_date_input listing rest) /\
  (DateInput.accepted 1 31 l1 day -> DateInput.accepted 1 12 l2 month ->
   DateInput.rejected 2000 2024 l3 ->
   DateInput.validate_date_input listing (l1 :: l2 :: l3 :: rest)
   = DateInput.validate_date_input listing rest).
Proof.
  split; [|split].
  - intros R1. apply validate_continue. unfold DateInput.pass.
    rewrite (read_field_rejected _ _ _ _ R1). reflexivity.
  - intros A1 R2. apply validate_continue. unfold DateInput.pass.
    rewrite (read_field_accepted _ _ _ _ _ A1), (read_field_rejected _ _ _ _ R2).
    reflexivity.
  - intros A1 A2 R3. apply validate_continue. unfold DateInput.pass.
    rewrite (read_field_accepted _ _ _ _ _ A1), (read_field_accepted _ _ _ _ _ A2),
      (read_field_rejected _ _ _ _ R3).
    reflexivity.
Qed.

Lemma rejected_field_restarts_witness :
  DateInput.rejected 1 31 "32" /\ DateInput.accepted 1 31 "07" 7 /\
  DateInput.rejected 1 12 "x" /\ DateInput.accepted 1 12 "12" 12 /\
  DateInput.rejected 2000 2024 "1999" /\
  DateInput.validate_date_input [] ["32"; "1"]
  = DateInput.validate_date_input [] ["1"] /\
  DateInput.validate_date_input [] ["07"; "x"; "1"]
  = DateInput.validate_date_input [] ["1"] /\
  DateInput.validate_date_input [] ["07"; "12"; "1999"; "1"]
  = DateInput.validate_date_input [] ["1"].
Proof.
  assert (R1 : DateInput.rejected 1 31 "32").
  { right. exists 32. vm_compute. repeat split; try reflexivity. intros [_ H]. exact (H eq_refl). }
  assert (A1 : DateInput.accepted 1 31 "07" 7).
  { vm_compute. repeat split; discriminate. }
  assert (R2 : DateInput.rejected 1 12 "x").
  { left. vm_compute. reflexivity. }
  assert (A2 : DateInput.accepted 1 12 "12" 12).
  { vm_compute. repeat split; discriminate. }
  assert (R3 : DateInput.rejected 2000 2024 "1999").
  { right. exists 1999. vm_compute. repeat split; try reflexivity. intros [H _]. exact (H eq_refl). }
  split; [exact R1|]. split; [exact A1|]. split; [exact R2|].
  split; [exact A2|]. split; [exact R3|]. split; [|split].
  - exact (proj1 (rejected_field_restarts [] "32" "" "" 0 0 ["1"]) R1).
  - exact (proj1 (proj2 (rejected_field_restarts [] "07" "x" "" 7 0 ["1"])) A1 R2).
  - exact (proj2 (proj2 (rejected_field_restarts [] "07" "12" "1999" 7 12 ["1"])) A1 A2 R3).
Defined.

(** X13. Three accepted answers that name no date of the calendar (the
    30th of February, say) restart the dialogue; three that name a date
    for which the directory holds exactly one matching file end it with
    that file, and leave the lines that follow unread. *)
Theorem three_answers_spec listing l1 l2 l3 day month year rest :
  DateInput.accepted 1 31 l1 day -> DateInput.accepted 1 12 l2 month ->
  DateInput.accepted 2000 2024 l3 year ->
  (~ DateInput.valid_date year month day ->
   DateInput.validate_date_input listing (l1 :: l2 :: l3 :: rest)
   = DateInput.validate_date_input listing rest) /\
  (forall date f,
     DateInput.date_str year month day = Ok date ->
     DateInput.files_found listing date = [f] ->
     DateInput.run listing (l1 :: l2 :: l3 :: rest)
     = Some (Some (DateInput.path_join f, date), rest)) /\
  (forall date,
     DateInput.date_str year month day = Ok date ->
     DateInput.files_found listing date = [] ->
     DateInput.validate_date_input listing (l1 :: l2 :: l3 :: rest)
     = DateInput.validate_date_input listing rest).
Proof.
  intros A1 A2 A3.
  assert (Hp : DateInput.pass listing (l1 :: l2 :: l3 :: rest) =
               match DateInput.date_str year month day with
               | Raise _ => DateInput.Continue rest
               | Ok date =>
                   match DateInput.files_found listing date with
                   | [] => DateInput.Continue rest
                   | [f] => DateInput.Return (Some (DateInput.path_join f, date)) rest
                   | files => DateInput.choose files date rest
                   end
               end).
  { unfold DateInput.pass.
    rewrite (read_field_accepted _ _ _ _ _ A1), (read_field_accepted _ _ _ _ _ A2),
      (read_field_accepted _ _ _ _ _ A3). reflexivity. }
  split; [|split].
  - intros Hv. apply validate_continue. rewrite Hp.
    rewrite date_str_raise; [reflexivity| |exact Hv].
    destruct A3 as (_ & _ & ?). lia.
  - intros date f Hd Hf. unfold DateInput.run. simpl DateInput.loop.
    rewrite Hp, Hd, Hf. reflexivity.
  - intros date Hd Hf. apply validate_continue. rewrite Hp, Hd, Hf. reflexivity.
Qed.

Lemma three_answers_spec_witness :
  DateInput.accepted 1 31 "30" 30 /\ DateInput.accepted 1 12 "02" 2 /\
  DateInput.accepted 2000 2024 "2024" 2024 /\
  ~ DateInput.valid_date 2024 2 30 /\
  DateInput.validate_date_input ["traffic_data30022024.csv"] ["30"; "02"; "2024"; "x"]
  = DateInput.validate_date_input ["traffic_data30022024.csv"] ["x"].
Proof.
  assert (A1 : DateInput.accepted 1 31 "30" 30).
  { vm_compute. repeat split; discriminate. }
  assert (A2 : DateInput.accepted 1 12 "02" 2).
  { vm_compute. repeat split; discriminate. }
  assert (A3 : DateInput.accepted 2000 2024 "2024" 2024).
  { vm_compute. repeat split; discriminate. }
  assert (Hv : ~ DateInput.valid_date 2024 2 30).
  { vm_compute. intros [_ [_ H]]. exact (H eq_refl). }
  split; [exact A1|]. split; [exact A2|]. split; [exact A3|]. split; [exact Hv|].
  exact (proj1 (three_answers_spec ["traffic_data30022024.csv"]
                  "30" "02" "2024" 30 2 2024 ["x"] A1 A2 A3) Hv).
Defined.

(** X14. An answer that [isdigit] accepts and [int] refuses ends the whole
    dialogue with [None] at the first prompt: a text with a superscript
    digit, or one of more than 4300 digits. It is not asked again. *)
Theorem non_decimal_digits_abort listing line rest :
  DateInput.isdigit (PyStr.strip line) = true ->
  DateInput.all_chars PyStr.is_digit (PyStr.strip line) = false \/
  DateInput.max_str_digits < Z.of_nat (String.length (PyStr.strip line)) ->
  DateInput.run listing (line :: rest) = Some (None, rest).
Proof.
  intros Hd H. unfold DateInput.run. simpl DateInput.loop.
  unfold DateInput.pass, DateInput.read_field.
  rewrite Hd, (int_of_input_none _ Hd H). reflexivity.
Qed.

Lemma non_decimal_digits_abort_witness :
  let line := String (ascii_of_nat 178) "" in
  DateInput.isdigit (PyStr.strip line) = true /\
  DateInput.all_chars PyStr.is_digit (PyStr.strip line) = false /\
  DateInput.run ["traffic_data15062024.csv"] [line; "15"; "06"; "2024"]
  = Some (None, ["15"; "06"; "2024"]).
Proof.
  intros line. split; [reflexivity|]. split; [reflexivity|].
  apply (non_decimal_digits_abort ["traffic_data15062024.csv"] line);
    [reflexivity|left; reflexivity].
Defined.

(** X15. When several names of the directory match the date, the answers
    to the question which file are numbered from 1 in the order of the
    listing; answers that are no number or out of range are asked again
    without asking for the date again, and the first good answer ends the
    dialogue with that file. *)
Theorem file_choice_spec listing l1 l2 l3 day month year date bad line n f rest :
  DateInput.accepted 1 31 l1 day -> DateInput.accepted 1 12 l2 month ->
  DateInput.accepted 2000 2024 l3 year ->
  DateInput.date_str year month day = Ok date ->
  (2 <= length (DateInput.files_found listing date))%nat ->
  Forall (DateInput.bad_choice (DateInput.files_found listing date)) bad ->
  DateInput.int_of_input (PyStr.strip line) = Some n -> 1 <= n ->
  nth_error (DateInput.files_found listing date) (Z.to_nat (n - 1)) = Some f ->
  DateInput.run listing (l1 :: l2 :: l3 :: bad ++ line :: rest)
  = Some (Some (DateInput.path_join f, date), rest).
Proof.
  intros A1 A2 A3 Hd Hlen Hbad Hi Hn Hf.
  unfold DateInput.run. simpl DateInput.loop. unfold DateInput.pass.
  rewrite (read_field_accepted _ _ _ _ _ A1), (read_field_accepted _ _ _ _ _ A2),
    (read_field_accepted _ _ _ _ _ A3), Hd.
  assert (Hc : DateInput.choose (DateInput.files_found listing date) date
                 (bad ++ line :: rest)
               = DateInput.Return (Some (DateInput.path_join f, date)) rest).
  { rewrite (choose_skips _ _ _ _ Hbad). simpl. rewrite Hi.
    assert (Hlt : (Z.to_nat (n - 1) < length (DateInput.files_found listing date))%nat).
    { apply nth_error_Some. rewrite Hf. discriminate. }
    replace ((0 <=? n - 1) && (n - 1 <? Z.of_nat (length (DateInput.files_found listing date))))
      with true by lia.
    rewrite Hf. reflexivity. }
  destruct (DateInput.files_found listing date) as [|f1 [|f2 files]] eqn:Ef;
    [simpl in Hlen; lia|simpl in Hlen; lia|].
  rewrite Hc. reflexivity.
Qed.

Lemma file_choice_spec_witness :
  let listing := ["traffic_data15062024.csv"; "old_traffic_data15062024.csv"] in
  DateInput.run listing ["15"; "6"; "2024"; "0"; "two"; "3"; "2"; "unread"]
  = Some (Some ("./old_traffic_data15062024.csv", "15062024"), ["unread"]).
Proof.
  intros listing.
  apply (file_choice_spec listing "15" "6" "2024" 15 6 2024 "15062024"
           ["0"; "two"; "3"] "2" 2 "old_traffic_data15062024.csv" ["unread"]).
  - vm_compute. repeat split; discriminate.
  - vm_compute. repeat split; discriminate.
  - vm_compute. repeat split; discriminate.
  - reflexivity.
  - vm_compute. lia.
  - repeat constructor; vm_compute; try exact I; intros [H1 H2];
      try exact (H1 eq_refl); try exact (H2 eq_refl).
  - reflexivity.
  - lia.
  - reflexivity.
Defined.

(** ** Which rows the chart tally survives *)

Section ChartRows.
Import HistogramApp.

Lemma shape_lookup hc h :
  tally_shape hc -> (is_Some (dict_lookup h hc) <-> 0 <= h < 24).
Proof.
  intros [Hkeys _]. split.
  - intros [counts Hl]. apply dict_lookup_Some_keys in Hl.
    rewrite Hkeys in Hl. apply list_elem_of_fmap in Hl as (n & -> & Hn).
    apply elem_of_seq in Hn. lia.
  - intros Hh. destruct (dict_lookup h hc) as [counts|] eqn:E; [eauto|].
    exfalso. apply (dict_lookup_None_keys h hc E). rewrite Hkeys.
    apply list_elem_of_fmap. exists (Z.to_nat h). split; [lia|].
    apply elem_of_seq. lia.
Qed.

(** One row: it is read when it is chartable, and otherwise raises
    [KeyError] or [AttributeError] and leaves the tally as it was. *)
Lemma tally_row_outcome row hc :
  tally_shape hc ->
  (chartable row /\ snd (tally_row row hc) = Ok tt) \/
  (~ chartable row /\ fst (tally_row row hc) = hc /\
   (snd (tally_row row hc) = Raise KeyError \/
    snd (tally_row row hc) = Raise AttributeError)).
Proof.
  intros Hs. rewrite TallyFacts.tally_row_run. unfold chartable.
  destruct (row !! "timeOfDay") as [[t|]|] eqn:Et.
  - destruct (PyStr.int_of_str (PyStr.split_colon_head t)) as [h|] eqn:Eh.
    + destruct (row !! "JunctionName") as [c|] eqn:Ej.
      * destruct (dict_lookup h hc) as [counts|] eqn:El.
        -- left. split.
           ++ exists t. split; [reflexivity|]. intros h' Hh'.
              assert (h' = h) by congruence. subst h'.
              split; [apply (proj1 (shape_lookup hc h Hs)); rewrite El; eauto|eauto].
           ++ destruct c as [j|]; [|reflexivity].
              destruct (dict_lookup j counts); reflexivity.
        -- right. split; [|split; [reflexivity|left; reflexivity]].
           intros (t' & [= <-] & Hh). destruct (Hh h Eh) as [Hr _].
           apply (proj2 (shape_lookup hc h Hs)) in Hr. rewrite El in Hr.
           destruct Hr; discriminate.
      * right. split; [|split; [reflexivity|left; reflexivity]].
        intros (t' & [= <-] & Hh). destruct (Hh h Eh) as [_ [? ?]]. discriminate.
    + left. split; [|reflexivity]. exists t. split; [reflexivity|].
      intros h Hh. rewrite Eh in Hh. discriminate.
  - right. split; [|split; [reflexivity|right; reflexivity]].
    intros (t & ? & _). discriminate.
  - right. split; [|split; [reflexivity|left; reflexivity]].
    intros (t & ? & _). discriminate.
Qed.

Lemma tally_rows_outcome rows : forall hc,
  tally_shape hc ->
  (Forall chartable rows /\ snd (tally_rows rows hc) = Ok tt) \/
  (exists good bad rest,
      rows = (good ++ bad :: rest)%list /\ Forall chartable good /\ ~ chartable bad /\
      snd (tally_rows good hc) = Ok tt /\
      fst (tally_rows rows hc) = fst (tally_rows good hc) /\
      (snd (tally_rows rows hc) = Raise KeyError \/
       snd (tally_rows rows hc) = Raise AttributeError)).
Proof.
  induction rows as [|row rows IH]; intros hc Hs.
  - left. split; [constructor|reflexivity].
  - simpl. rewrite (@run_bind Tally).
    pose proof (TallyFacts.tally_row_step row hc Hs) as [Hs' _].
    destruct (tally_row_outcome row hc Hs) as [[Hc Hok]|(Hc & Hfst & Hsnd)].
    + destruct (tally_row row hc) as [hc' [[]|e]] eqn:E; simpl in Hok; [|discriminate].
      simpl in Hs'.
      destruct (IH hc' Hs') as [[Hall Hok']|(good & bad & rest & -> & Hg & Hb & Hgo & Hf & He)].
      * left. split; [constructor; assumption|exact Hok'].
      * right. exists (row :: good), bad, rest.
        split; [reflexivity|]. split; [constructor; assumption|].
        split; [exact Hb|]. simpl. rewrite (@run_bind Tally), E.
        repeat split; assumption.
    + right. exists [], row, rows. split; [reflexivity|].
      split; [constructor|]. split; [exact Hc|]. split; [reflexivity|].
      destruct (tally_row row hc) as [hc' [[]|e]]; simpl in *;
        [destruct Hsnd; discriminate|].
      split; [exact Hfst|exact Hsnd].
Qed.

Lemma tally_rows_app rows : forall hc,
  snd (tally_rows rows hc) = Ok tt ->
  forall more,
    tally_rows (rows ++ more)%list hc = tally_rows more (fst (tally_rows rows hc)).
Proof.
  induction rows as [|row rows IH]; intros hc H more; [reflexivity|].
  simpl in H |- *. rewrite (@run_bind Tally) in H. rewrite !(@run_bind Tally).
  destruct (tally_row row hc) as [hc' [[]|e]]; simpl in H |- *; [|discriminate].
  apply IH, H.
Qed.

End ChartRows.

(** X16. [process_data] returns exactly when every row is chartable:
    its time cell is text and, when the text before the colon reads as a
    number, that number is between 0 and 23 and the row has a junction
    cell. The only exceptions that leave it are [KeyError] and
    [AttributeError]; rows whose hour text is no number are skipped. *)
Theorem process_data_returns_iff rows :
  (snd (HistogramApp.process_data rows) = Ok tt <-> Forall chartable rows) /\
  (forall e, snd (HistogramApp.process_data rows) = Raise e ->
             e = KeyError \/ e = AttributeError).
Proof.
  unfold HistogramApp.process_data.
  destruct (tally_rows_outcome rows _ TallyFacts.init_shape)
    as [[Hall Hok]|(good & bad & rest & -> & Hg & Hb & _ & _ & He)].
  - split; [tauto|]. intros e He. rewrite Hok in He. discriminate.
  - split.
    + split.
      * intros Hok. destruct He as [He|He]; rewrite He in Hok; discriminate.
      * intros Hall. apply Forall_app in Hall as [_ Hall].
        inversion Hall; subst. contradiction.
    + intros e H. destruct He as [He|He]; rewrite He in H; inversion H; tauto.
Qed.

(** X17. The tally stops at the first row that is not chartable: the
    exception leaves [process_data] there, the rows after it are not
    read, and the tally holds the counts of the rows before it. *)
Theorem process_data_stops_at_first_bad_row good bad rest :
  Forall chartable good -> ~ chartable bad ->
  fst (HistogramApp.process_data (good ++ bad :: rest)%list)
    = fst (HistogramApp.process_data good) /\
  snd (HistogramApp.process_data good) = Ok tt /\
  (snd (HistogramApp.process_data (good ++ bad :: rest)%list) = Raise KeyError \/
   snd (HistogramApp.process_data (good ++ bad :: rest)%list) = Raise AttributeError).
Proof.
  intros Hg Hb. unfold HistogramApp.process_data.
  assert (Hok : snd (HistogramApp.tally_rows good HistogramApp.init_hourly_counts) = Ok tt).
  { destruct (tally_rows_outcome good _ TallyFacts.init_shape)
      as [[_ Hok]|(g & b & r & -> & _ & Hnb & _)]; [exact Hok|].
    apply Forall_app in Hg as [_ Hg]. inversion Hg; subst. contradiction. }
  pose proof (TallyFacts.tally_rows_shape good _ TallyFacts.init_shape) as Hs.
  rewrite (tally_rows_app good _ Hok). simpl HistogramApp.tally_rows.
  rewrite (@run_bind HistogramApp.Tally).
  destruct (tally_row_outcome bad _ Hs) as [[Hc _]|(_ & Hfst & Hsnd)]; [contradiction|].
  destruct (HistogramApp.tally_row bad _) as [hc' [[]|e]]; simpl in *;
    [destruct Hsnd; discriminate|].
  split; [exact Hfst|]. split; [exact Hok|exact Hsnd].
Qed.

Lemma process_data_stops_at_first_bad_row_witness :
  let good := [Samples.truck_row; Samples.car_row] in
  let bad := <["timeOfDay" := Missing]> Samples.car_row in
  fst (HistogramApp.process_data (good ++ bad :: [Samples.truck_row])%list)
    = fst (HistogramApp.process_data good) /\
  snd (HistogramApp.process_data (good ++ bad :: [Samples.truck_row])%list)
    = Raise AttributeError.
Proof.
  intros good bad.
  assert (Hg : Forall chartable good).
  { repeat constructor.
    - exists "08:15". split; [reflexivity|]. intros h Hh. vm_compute in Hh.
      injection Hh as <-. split; [lia|eexists; reflexivity].
    - exists "17:05". split; [reflexivity|]. intros h Hh. vm_compute in Hh.
      injection Hh as <-. split; [lia|eexists; reflexivity]. }
  assert (Hb : ~ chartable bad).
  { intros (t & Ht & _). vm_compute in Ht. discriminate. }
  destruct (process_data_stops_at_first_bad_row good bad [Samples.truck_row] Hg Hb)
    as (H1 & _ & _).
  split; [exact H1|]. vm_compute. reflexivity.
Defined.

(** ** The chart of a tally that was read to its end *)


(** X18. For the tally of a [process_data] that returned on fewer than
    2^53 rows, [draw_histogram] returns: no division by zero, no missing
    colour, no overflow. It makes 120 canvas calls: for each hour, in
    order, a gray and a lightblue rectangle that stand on the baseline,
    above each the number of rows of that hour and junction, at
    x = 70 + 51 h and x = 91 + 51 h, and below them the label HH:00 at
    x = 90 + 51 h. *)
Theorem draw_histogram_spec rows :
  snd (HistogramApp.process_data rows) = Ok tt ->
  Z.of_nat (length rows) < 2 ^ 53 ->
  let hours := map Z.of_nat (seq 0 24) in
  exists cmds,
    HistogramApp.draw_histogram (fst (HistogramApp.process_data rows)) = Ok cmds /\
    length cmds = 120%nat /\
    omap rectangle_fill cmds = flat_map (fun _ => ["gray"; "lightblue"]) hours /\
    Forall (fun tb => snd tb = HistogramApp.NInt HistogramApp.baseline)
      (omap rectangle_top_bottom cmds) /\
    omap (label "s") cmds
      = flat_map (fun h =>
          [(HistogramApp.NInt (70 + 51 * h),
            PyStr.str_of_int (count_rows (in_cell h HistogramApp.elm) rows));
           (HistogramApp.NInt (91 + 51 * h),
            PyStr.str_of_int (count_rows (in_cell h HistogramApp.hanley) rows))]) hours /\
    omap (label "n") cmds
      = map (fun h => (HistogramApp.NInt (90 + 51 * h),
                       (HistogramApp.format_02d h ++ ":00")%string)) hours.
Proof.
  intros Hok Hlen hours.
  destruct (draw_histogram_ok rows Hok Hlen) as (cmds & Hd & Hl & Hf & Hb & Hs & Hn & _).
  exists cmds.
  split; [exact Hd|]. split; [exact Hl|]. split; [exact Hf|].
  split; [exact Hb|]. split; [exact Hs|exact Hn].
Qed.

Lemma draw_histogram_spec_witness :
  let rows := [Samples.truck_row; Samples.truck_row; Samples.car_row] in
  exists cmds,
    HistogramApp.draw_histogram (fst (HistogramApp.process_data rows)) = Ok cmds /\
    length cmds = 120%nat /\
    nth_error (omap (label "s") cmds) 17
      = Some (HistogramApp.NInt 499, "2").
Proof.
  intros rows.
  destruct (draw_histogram_spec rows) as (cmds & Hd & Hl & _ & _ & Hs & _).
  - vm_compute. reflexivity.
  - vm_compute. reflexivity.
  - exists cmds. split; [exact Hd|]. split; [exact Hl|].
    rewrite Hs. vm_compute. reflexivity.
Defined.

(** ** The order of the rows *)

Lemma for_rows_passes rows : forall st,
  Forall (fun row => passes row = true) rows ->
  for_rows rows st = (exec (for_events (parsed_events rows)) st, Ok tt).
Proof.
  induction rows as [|row rows IH]; intros st H; simpl.
  - reflexivity.
  - inversion H as [|? ? Hrow Hrows]; subst.
    rewrite run_bind, try_row_run.
    unfold parsed_events. simpl. fold (parsed_events rows). unfold parsed.
    unfold passes in Hrow.
    destruct (parse_row row) as [ev|e].
    + simpl. rewrite exec_seq by auto with returns. apply IH. assumption.
    + destruct e; try discriminate Hrow; apply IH; assumption.
Qed.

Lemma for_rows_ok_passes rows : forall st st',
  for_rows rows st = (st', Ok tt) -> Forall (fun row => passes row = true) rows.
Proof.
  induction rows as [|row rows IH]; intros st st' H; [constructor|].
  simpl in H. rewrite run_bind, try_row_run in H. unfold passes.
  destruct (parse_row row) as [ev|e] eqn:E.
  - constructor; [rewrite E; reflexivity|eapply IH, H].
  - destruct e; try discriminate H;
      (constructor; [rewrite E; reflexivity|eapply IH, H]).
Qed.

Lemma process_csv_data_passes f rows :
  Forall (fun row => passes row = true) rows ->
  process_csv_data f (Some rows) =
  match summarize f (final_acc (parsed_events rows)) with
  | Ok r => Ok r
  | Raise e => Raise (RuntimeError e)
  end.
Proof.
  intros H. unfold process_csv_data, aggregate.
  rewrite run_bind, (for_rows_passes rows init_acc H), finalize_run.
  reflexivity.
Qed.

Lemma process_csv_data_ok_passes f rows r :
  process_csv_data f (Some rows) = Ok r -> Forall (fun row => passes row = true) rows.
Proof.
  unfold process_csv_data, aggregate. rewrite run_bind.
  destruct (for_rows rows init_acc) as [st [[]|e]] eqn:E; [|discriminate].
  intros _. eapply for_rows_ok_passes, E.
Qed.

Lemma count_events_perm p evs evs' :
  evs ≡ₚ evs' -> count_events p evs = count_events p evs'.
Proof.
  induction 1 as [|ev l l' _ IH|x y l|l1 l2 l3 _ IH1 _ IH2]; simpl; try lia.
Qed.

Lemma rain_hour_set_perm evs evs' :
  evs ≡ₚ evs' -> rain_hour_set evs = rain_hour_set evs'.
Proof.
  induction 1 as [|ev l l' _ IH|x y l|l1 l2 l3 _ IH1 _ IH2]; simpl.
  - reflexivity.
  - rewrite IH. reflexivity.
  - destruct (PyStr.contains "rain" (weather_condition x)),
             (PyStr.contains "rain" (weather_condition y)); set_solver.
  - congruence.
Qed.

Lemma bicycle_hour_set_perm evs evs' :
  evs ≡ₚ evs' -> bicycle_hour_set evs = bicycle_hour_set evs'.
Proof.
  induction 1 as [|ev l l' _ IH|x y l|l1 l2 l3 _ IH1 _ IH2]; simpl.
  - reflexivity.
  - rewrite IH. reflexivity.
  - destruct (String.eqb (vehicle_type x) "Bicycle"),
             (String.eqb (vehicle_type y) "Bicycle"); set_solver.
  - congruence.
Qed.

Lemma totals_ext t t' : (forall k, tget k t = tget k t') -> t = t'.
Proof.
  intros H. destruct t, t'.
  pose proof (H Kvehicles). pose proof (H Ktrucks). pose proof (H Kbikes).
  pose proof (H Kelectric). pose proof (H Kno_turn). pose proof (H Kspeed).
  pose proof (H Krain). pose proof (H Kelm). pose proof (H Khanley).
  pose proof (H Kbuses_north). pose proof (H Kscooters_elm). pose proof (H Kbicycle).
  simpl in *. congruence.
Qed.

Lemma final_acc_rain evs :
  tget Krain (totals (final_acc evs)) = set_len (rain_hour_set evs).
Proof.
  unfold final_acc. simpl totals. rewrite tget_tset.
  destruct (decide (Krain = Krain)); [|congruence].
  rewrite for_events_rain_hours. f_equal. simpl. set_solver.
Qed.

Lemma final_acc_totals_perm evs evs' :
  evs ≡ₚ evs' -> totals (final_acc evs) = totals (final_acc evs').
Proof.
  intros Hp. apply totals_ext. intros k.
  destruct (decide (k = Krain)) as [->|Hk].
  - rewrite !final_acc_rain, (rain_hour_set_perm _ _ Hp). reflexivity.
  - rewrite !final_acc_tget by assumption. apply count_events_perm, Hp.
Qed.

Lemma hanley_elem_iff evs h c :
  (h, c) ∈ hanley_counts_per_hour (final_acc evs) <->
  c = count_events (at_hanley_hour h) evs /\ 0 < c.
Proof.
  split.
  - intros Hin. destruct (hanley_elem_count evs h c Hin). split; [assumption|lia].
  - intros [-> Hpos]. apply hanley_count_elem, Hpos.
Qed.

Lemma final_acc_hanley_NoDup evs :
  NoDup (dict_keys (hanley_counts_per_hour (final_acc evs))).
Proof. rewrite final_acc_hanley. apply for_events_hanley_NoDup. constructor. Qed.

Lemma final_acc_hanley_perm evs evs' :
  evs ≡ₚ evs' ->
  hanley_counts_per_hour (final_acc evs) ≡ₚ hanley_counts_per_hour (final_acc evs').
Proof.
  intros Hp. apply NoDup_Permutation.
  - eapply NoDup_fmap_1, final_acc_hanley_NoDup.
  - eapply NoDup_fmap_1, final_acc_hanley_NoDup.
  - intros [h c]. rewrite !hanley_elem_iff, (count_events_perm _ _ _ Hp). reflexivity.
Qed.

Lemma NoDup_keys_filter (P : string * Z -> Prop) `{forall x, Decision (P x)}
    (d : list (string * Z)) :
  NoDup (dict_keys d) -> NoDup (map fst (filter P d)).
Proof.
  unfold dict_keys. induction d as [|[k v] d IH]; intros Hnd; [constructor|].
  simpl in Hnd. apply NoDup_cons in Hnd as [Hk Hnd]. rewrite filter_cons.
  destruct (decide (P (k, v))); [|apply IH, Hnd]. simpl.
  apply NoDup_cons. split; [|apply IH, Hnd].
  intros Hin. apply Hk. apply list_elem_of_fmap in Hin as (x & -> & Hx).
  apply list_elem_of_filter in Hx as [_ Hx].
  apply list_elem_of_fmap. exists x. split; [reflexivity|exact Hx].
Qed.

Lemma peak_hour_perm evs evs' h : evs ≡ₚ evs' -> peak_hour evs h <-> peak_hour evs' h.
Proof.
  intros Hp. unfold peak_hour.
  rewrite (count_events_perm _ _ _ Hp).
  split; intros [H1 H2]; (split; [exact H1|]); intros h';
    specialize (H2 h'); rewrite (count_events_perm _ _ _ Hp) in *; exact H2.
Qed.

Lemma compute_peak_hours_perm evs evs' :
  evs ≡ₚ evs' ->
  compute_peak_hours (hanley_counts_per_hour (final_acc evs))
  ≡ₚ compute_peak_hours (hanley_counts_per_hour (final_acc evs')).
Proof.
  intros Hp. apply NoDup_Permutation.
  - apply NoDup_keys_filter, final_acc_hanley_NoDup.
  - apply NoDup_keys_filter, final_acc_hanley_NoDup.
  - intros h. rewrite !compute_peak_hours_spec. apply peak_hour_perm, Hp.
Qed.

Lemma map_result_cons_ok {A B} (f : A -> result B) a l bs :
  map_result f (a :: l) = Ok bs ->
  exists b bs0, f a = Ok b /\ map_result f l = Ok bs0 /\ bs = b :: bs0.
Proof.
  simpl. destruct (f a) as [b|]; [|discriminate]. rewrite result_bind_ok.
  destruct (map_result f l) as [bs0|]; [|discriminate]. rewrite result_bind_ok.
  intros [= <-]. eauto.
Qed.

Lemma map_result_perm {A B} (f : A -> result B) l l' :
  l ≡ₚ l' -> forall bs, map_result f l = Ok bs ->
  exists bs', map_result f l' = Ok bs' /\ bs' ≡ₚ bs.
Proof.
  induction 1 as [|x l l' _ IH|x y l|l1 l2 l3 _ IH1 _ IH2]; intros bs H.
  - exists bs. split; [exact H|reflexivity].
  - apply map_result_cons_ok in H as (b & bs0 & Hb & Hl & ->).
    destruct (IH bs0 Hl) as (bs' & E & Hp).
    exists (b :: bs'). simpl. rewrite Hb, result_bind_ok, E, result_bind_ok.
    split; [reflexivity|]. constructor. exact Hp.
  - apply map_result_cons_ok in H as (b1 & bs1 & Hb1 & Hl & ->).
    apply map_result_cons_ok in Hl as (b2 & bs2 & Hb2 & Hl & ->).
    exists (b2 :: b1 :: bs2). simpl.
    rewrite Hb2, result_bind_ok, Hb1, result_bind_ok, Hl, !result_bind_ok.
    split; [reflexivity|]. apply perm_swap.
  - destruct (IH1 bs H) as (bs1 & E1 & P1).
    destruct (IH2 bs1 E1) as (bs2 & E2 & P2).
    exists bs2. split; [exact E2|]. etransitivity; eassumption.
Qed.

(** X19. The report does not depend on the order of the rows: when the
    call returns on a file, it returns on every reordering of its rows,
    with the same totals, the same average and the same percentages;
    the peak ranges and the entries of the Hanley counter are the same up
    to their order. *)
Theorem row_order_irrelevant file_path rows rows' r :
  rows ≡ₚ rows' ->
  process_csv_data file_path (Some rows) = Ok r ->
  exists r',
    process_csv_data file_path (Some rows') = Ok r' /\
    out_totals r' = out_totals r /\
    avg_bikes_per_hour r' = avg_bikes_per_hour r /\
    percentage_scooters_elm r' = percentage_scooters_elm r /\
    percentage_trucks r' = percentage_trucks r /\
    peak_hour_ranges r' ≡ₚ peak_hour_ranges r /\
    out_hanley_counts_per_hour r' ≡ₚ out_hanley_counts_per_hour r.
Proof.
  intros Hperm H.
  pose proof (process_csv_data_ok_passes _ _ _ H) as Hpass.
  assert (Hpass' : Forall (fun row => passes row = true) rows').
  { rewrite <- Hperm. exact Hpass. }
  assert (Hevs : parsed_events rows ≡ₚ parsed_events rows').
  { unfold parsed_events. rewrite Hperm. reflexivity. }
  rewrite (process_csv_data_passes _ _ Hpass').
  apply process_csv_data_ok, summarize_ok in H.
  destruct H as (Ha & Hs & Ht & Hr & Hto & Hh & Hf).
  destruct (map_result_perm peak_hour_range _ _
              (compute_peak_hours_perm _ _ Hevs) _ Hr) as (ranges' & Er & Pr).
  unfold summarize.
  rewrite <- (final_acc_totals_perm _ _ Hevs).
  rewrite !final_acc_bicycle_hours in *.
  rewrite <- (bicycle_hour_set_perm _ _ Hevs).
  rewrite Ha, result_bind_ok, Hs, result_bind_ok, Ht, result_bind_ok, Er, result_bind_ok.
  eexists. split; [reflexivity|]. simpl.
  split; [symmetry; exact Hto|].
  split; [reflexivity|]. split; [reflexivity|]. split; [reflexivity|].
  split; [exact Pr|]. rewrite Hh. symmetry. apply final_acc_hanley_perm, Hevs.
Qed.

Lemma row_order_irrelevant_witness :
  let rows := [Samples.truck_row; Samples.bad_speed_row; Samples.bicycle_row "17:40";
               Samples.car_row] in
  let rows' := [Samples.car_row; Samples.bicycle_row "17:40"; Samples.bad_speed_row;
                Samples.truck_row] in
  exists r r',
    process_csv_data "traffic_data.csv" (Some rows) = Ok r /\
    process_csv_data "traffic_data.csv" (Some rows') = Ok r' /\
    out_totals r' = out_totals r /\
    peak_hour_ranges r = ["Between 08:00 and 9:00"; "Between 17:00 and 18:00"] /\
    peak_hour_ranges r' = ["Between 17:00 and 18:00"; "Between 08:00 and 9:00"].
Proof.
  intros rows rows'.
  assert (Hp : rows ≡ₚ rows').
  { change rows' with (rev rows). apply Permutation_rev. }
  destruct (process_csv_data "traffic_data.csv" (Some rows)) as [r|e] eqn:E;
    [|vm_compute in E; discriminate].
  destruct (row_order_irrelevant "traffic_data.csv" rows rows' r Hp E)
    as (r' & E' & Ht & _).
  exists r, r'. split; [reflexivity|]. split; [exact E'|]. split; [exact Ht|].
  assert (Er : Ok r = process_csv_data "traffic_data.csv" (Some rows)) by (symmetry; exact E).
  vm_compute in Er. injection Er as ->.
  vm_compute in E'. injection E' as <-.
  split; reflexivity.
Defined.

(** ** The session *)

Section SessionFacts.
Import MultiCSVProcessor.

Lemma process_csv_data_caught f file e :
  process_csv_data f file = Raise e -> caught_by_caller e = true.
Proof.
  unfold process_csv_data. destruct file as [rows|]; [|intros [= <-]; reflexivity].
  destruct (aggregate f rows) as [st [r|e0]]; [discriminate|].
  intros [= <-]. reflexivity.
Qed.

Lemma build_chart_raises rows :
  ~ Forall chartable rows ->
  exists e, build_chart rows = Raise e /\ (e = KeyError \/ e = AttributeError).
Proof.
  intros Hn. unfold build_chart, HistogramApp.process_data.
  destruct (tally_rows_outcome rows _ TallyFacts.init_shape)
    as [[Hall _]|(good & bad & rest & _ & _ & _ & _ & _ & He)]; [contradiction|].
  destruct (HistogramApp.tally_rows rows HistogramApp.init_hourly_counts) as [hc [[]|e]];
    simpl in He; [destruct He; discriminate|].
  exists e. split; [reflexivity|]. destruct He as [He|He]; inversion He; tauto.
Qed.

Lemma build_chart_ok rows :
  Forall chartable rows -> Z.of_nat (length rows) < 2 ^ 53 ->
  exists cmds,
    build_chart rows = Ok cmds /\
    HistogramApp.draw_histogram (fst (HistogramApp.process_data rows)) = Ok cmds /\
    length cmds = 120%nat.
Proof.
  intros Hall Hlen.
  assert (Hok : snd (HistogramApp.process_data rows) = Ok tt).
  { unfold HistogramApp.process_data.
    destruct (tally_rows_outcome rows _ TallyFacts.init_shape)
      as [[_ Hok]|(good & bad & rest & -> & _ & Hb & _)]; [exact Hok|].
    apply Forall_app in Hall as [_ Hall]. inversion Hall; subst. contradiction. }
  destruct (draw_histogram_ok rows Hok Hlen) as (cmds & Hdraw & Hl & _).
  exists cmds. split; [|split; [exact Hdraw|exact Hl]].
  unfold build_chart. destruct (HistogramApp.process_data rows) as [hc [[]|e]];
    simpl in *; [exact Hdraw|discriminate].
Qed.

Lemma handle_fuel listing disk : forall fuel fuel' inputs x,
  handle_user_interaction fuel listing disk inputs = Some x -> (fuel <= fuel')%nat ->
  handle_user_interaction fuel' listing disk inputs = Some x.
Proof.
  induction fuel as [|fuel IH]; intros fuel' inputs x; [discriminate|].
  destruct fuel' as [|fuel']; [lia|]. intros H Hle. simpl in H |- *.
  destruct (DateInput.run listing inputs) as [[[[p d]|] rest]|]; [| |discriminate].
  - destruct (process_csv_data p (disk p)) as [r|e].
    + destruct (build_chart (load_csv_file disk p)) as [cmds|e]; [|exact H].
      destruct (ask_another rest) as [[[]|] rest']; try exact H.
      destruct (handle_user_interaction fuel listing disk rest') as [[[evs e] r'']|] eqn:E;
        [|discriminate].
      rewrite (IH fuel' rest' _ E ltac:(lia)). exact H.
    + destruct (caught_by_caller e); [|exact H]. apply (IH fuel' rest x H). lia.
  - apply (IH fuel' rest x H). lia.
Qed.

(** A finished session: its events and how it ended. *)
Lemma handle_ends listing disk : forall fuel inputs evs e rest,
  handle_user_interaction fuel listing disk inputs = Some (evs, e, rest) ->
  exists before r,
    match e with
    | Exit | EndOfInput => exists date cmds, evs = (before ++ [Saved r; Chart date cmds])%list
    | Escaped ex =>
        evs = (before ++ [Saved r])%list /\
        build_chart (load_csv_file disk (out_file r)) = Raise ex
    end.
Proof.
  induction fuel as [|fuel IH]; intros inputs evs e rest H; [discriminate|].
  simpl in H.
  destruct (DateInput.run listing inputs) as [[[[p d]|] rest0]|]; [| |discriminate].
  - destruct (process_csv_data p (disk p)) as [r|ex] eqn:Ep.
    + assert (Hf : out_file r = p).
      { destruct (disk p) as [rows|]; [|discriminate].
        apply process_csv_data_ok, summarize_ok in Ep. apply Ep. }
      destruct (build_chart (load_csv_file disk p)) as [cmds|ex] eqn:Eb.
      * destruct (ask_another rest0) as [[[]|] rest'].
        -- destruct (handle_user_interaction fuel listing disk rest')
             as [[[evs' e'] r'']|] eqn:E; [|discriminate].
           injection H as <- <- <-.
           destruct (IH _ _ _ _ E) as (before & r' & Hend).
           exists (Saved r :: Chart d cmds :: before), r'.
           destruct e' as [|ex|].
           ++ destruct Hend as (date & cmds' & ->). exists date, cmds'. reflexivity.
           ++ destruct Hend as [-> Hb]. split; [reflexivity|exact Hb].
           ++ destruct Hend as (date & cmds' & ->). exists date, cmds'. reflexivity.
        -- injection H as <- <- <-. exists [], r, d, cmds. reflexivity.
        -- injection H as <- <- <-. exists [], r, d, cmds. reflexivity.
      * injection H as <- <- <-. exists [], r. rewrite Hf. split; [reflexivity|exact Eb].
    + rewrite (process_csv_data_caught _ _ _ Ep) in H. apply (IH _ _ _ _ H).
  - apply (IH _ _ _ _ H).
Qed.

End SessionFacts.

(** X20. One file of the session. When the date dialogue returns a
    path: if [process_csv_data] raises, nothing is saved or drawn and the
    date is asked again; if it returns but some row is not chartable, the
    report is saved and then [KeyError] or [AttributeError] leaves the
    method; if it returns and every row is chartable (fewer than 2^53
    rows), the report is saved and the chart is drawn, and an answer [n]
    ends the method. *)
Theorem session_one_file fuel listing disk inputs file_path date rest :
  DateInput.run listing inputs = Some (Some (file_path, date), rest) ->
  (forall e,
     process_csv_data file_path (disk file_path) = Raise e ->
     MultiCSVProcessor.handle_user_interaction (S fuel) listing disk inputs
     = MultiCSVProcessor.handle_user_interaction fuel listing disk rest) /\
  (forall rows r,
     disk file_path = Some rows ->
     process_csv_data file_path (Some rows) = Ok r ->
     ~ Forall chartable rows ->
     exists e, (e = KeyError \/ e = AttributeError) /\
       MultiCSVProcessor.handle_user_interaction (S fuel) listing disk inputs
       = Some ([MultiCSVProcessor.Saved r], MultiCSVProcessor.Escaped e, rest)) /\
  (forall rows r answer rest',
     disk file_path = Some rows ->
     process_csv_data file_path (Some rows) = Ok r ->
     Forall chartable rows -> Z.of_nat (length rows) < 2 ^ 53 ->
     PyStr.lower (PyStr.strip answer) = "n" ->
     rest = answer :: rest' ->
     exists cmds,
       HistogramApp.draw_histogram (fst (HistogramApp.process_data rows)) = Ok cmds /\
       MultiCSVProcessor.handle_user_interaction (S fuel) listing disk inputs
       = Some ([MultiCSVProcessor.Saved r; MultiCSVProcessor.Chart date cmds],
               MultiCSVProcessor.Exit, rest')).
Proof.
  intros Hrun. split; [|split].
  - intros e He. simpl. rewrite Hrun, He, (process_csv_data_caught _ _ _ He). reflexivity.
  - intros rows r Hd Hr Hn.
    destruct (build_chart_raises rows Hn) as (e & Hb & He).
    exists e. split; [exact He|]. simpl.
    rewrite Hrun. unfold MultiCSVProcessor.load_csv_file. rewrite Hd, Hr, Hb. reflexivity.
  - intros rows r answer rest' Hd Hr Hc Hlen Ha ->.
    destruct (build_chart_ok rows Hc Hlen) as (cmds & Hb & Hdraw & _).
    exists cmds. split; [exact Hdraw|].
    cbn [MultiCSVProcessor.handle_user_interaction].
    rewrite Hrun. unfold MultiCSVProcessor.load_csv_file. rewrite Hd, Hr, Hb.
    cbn [MultiCSVProcessor.ask_another]. rewrite Ha. reflexivity.
Qed.

Lemma session_one_file_witness :
  let rows := [Samples.truck_row; Samples.hour_24_row] in
  let disk := fun p => if String.eqb p "./traffic_data15062024.csv" then Some rows else None in
  exists r e,
    process_csv_data "./traffic_data15062024.csv" (Some rows) = Ok r /\
    (e = KeyError \/ e = AttributeError) /\
    MultiCSVProcessor.handle_user_interaction 1 ["traffic_data15062024.csv"] disk
      ["15"; "06"; "2024"; "n"]
    = Some ([MultiCSVProcessor.Saved r], MultiCSVProcessor.Escaped e, ["n"]).
Proof.
  intros rows disk.
  destruct (process_csv_data "./traffic_data15062024.csv" (Some rows)) as [r|e0] eqn:E;
    [|vm_compute in E; discriminate].
  destruct (proj1 (proj2 (session_one_file 0 ["traffic_data15062024.csv"] disk
                            ["15"; "06"; "2024"; "n"]
                            "./traffic_data15062024.csv" "15062024" ["n"]
                            ltac:(vm_compute; reflexivity)))
              rows r ltac:(reflexivity) E) as (e & He & Hh).
  - intros Hall. inversion Hall as [|? ? _ Hall']; subst.
    inversion Hall' as [|? ? (t & Ht & Hh) _]; subst.
    vm_compute in Ht. injection Ht as <-.
    destruct (Hh 24 ltac:(vm_compute; reflexivity)) as [? _]. lia.
  - exists r, e. split; [reflexivity|]. split; [exact He|exact Hh].
Defined.

(** X21. A session in which the date dialogue returns [None] with no
    input left never returns: [validate_date_input] answers the end of
    the input with [None], the outer loop calls it again, and so on
    without end. In the model: no bound on the number of passes is
    enough. *)
Theorem session_never_returns_without_input listing disk inputs :
  DateInput.run listing inputs = Some (None, []) ->
  forall fuel, MultiCSVProcessor.handle_user_interaction fuel listing disk inputs = None.
Proof.
  intros Hrun fuel.
  assert (Hnil : forall n, MultiCSVProcessor.handle_user_interaction n listing disk [] = None).
  { induction n as [|n IH]; [reflexivity|]. simpl.
    change (DateInput.run listing []) with (Some (@None (string * string), @nil string)).
    exact IH. }
  destruct fuel as [|fuel]; [reflexivity|]. simpl. rewrite Hrun. apply Hnil.
Qed.

Lemma session_never_returns_without_input_witness :
  DateInput.run ["traffic_data15062024.csv"] ["15"; "06"] = Some (None, []) /\
  MultiCSVProcessor.handle_user_interaction 1000 ["traffic_data15062024.csv"]
    (fun _ => Some [Samples.truck_row]) ["15"; "06"] = None.
Proof.
  assert (H : DateInput.run ["traffic_data15062024.csv"] ["15"; "06"] = Some (None, []))
    by (vm_compute; reflexivity).
  split; [exact H|].
  exact (session_never_returns_without_input ["traffic_data15062024.csv"]
           (fun _ => Some [Samples.truck_row]) ["15"; "06"] H 1000).
Defined.

(** X22. However a session ends, it has saved a report first. It ends
    with [return] or at the end of the input only right after a chart
    was drawn, and an exception leaves it only right after a report was
    saved, raised by the chart of the file of that report. No exception
    of [process_csv_data] leaves it. *)
Theorem session_endings fuel listing disk inputs evs e rest :
  MultiCSVProcessor.handle_user_interaction fuel listing disk inputs = Some (evs, e, rest) ->
  exists before r,
    match e with
    | MultiCSVProcessor.Exit | MultiCSVProcessor.EndOfInput =>
        exists date cmds,
          evs = (before ++ [MultiCSVProcessor.Saved r; MultiCSVProcessor.Chart date cmds])%list
    | MultiCSVProcessor.Escaped ex =>
        evs = (before ++ [MultiCSVProcessor.Saved r])%list /\
        MultiCSVProcessor.build_chart (MultiCSVProcessor.load_csv_file disk (out_file r))
        = Raise ex
    end.
Proof. apply handle_ends. Qed.

Lemma session_endings_witness :
  let rows := [Samples.truck_row; Samples.car_row] in
  let disk := fun p => if String.eqb p "./traffic_data15062024.csv" then Some rows else None in
  exists evs rest before r date cmds,
    MultiCSVProcessor.handle_user_interaction 3 ["traffic_data15062024.csv"] disk
      ["15"; "06"; "2024"; "maybe"; " Y "; "31"; "02"; "2024"; "15"; "06"; "2024"; "N"; "x"]
    = Some (evs, MultiCSVProcessor.Exit, rest) /\
    rest = ["x"] /\ length evs = 4%nat /\
    evs = (before ++ [MultiCSVProcessor.Saved r; MultiCSVProcessor.Chart date cmds])%list.
Proof.
  intros rows disk.
  destruct (MultiCSVProcessor.handle_user_interaction 3 ["traffic_data15062024.csv"] disk
      ["15"; "06"; "2024"; "maybe"; " Y "; "31"; "02"; "2024"; "15"; "06"; "2024"; "N"; "x"])
    as [[[evs e] rest]|] eqn:E; [|vm_compute in E; discriminate].
  assert (He : e = MultiCSVProcessor.Exit /\ rest = ["x"] /\ length evs = 4%nat).
  { vm_compute in E. injection E as <- <- <-. repeat split. }
  destruct He as (-> & -> & Hl).
  destruct (session_endings 3 ["traffic_data15062024.csv"] disk _ evs
              MultiCSVProcessor.Exit ["x"] E) as (before & r & date & cmds & Hev).
  exists evs, ["x"], before, r, date, cmds.
  split; [reflexivity|]. split; [reflexivity|]. split; [exact Hl|exact Hev].
Defined.
